(** * agent-core: session state, log events and archival

    A shallow embedding of the scripts [log_url.py], [init_session.py],
    [archive_session.py] and [sync_environments.py], and the properties of
    their session state engine.

    Conventions of the embedding.
    - A Python [str] is a [string], one [ascii] per character; [len] and
      slicing count characters.  The few glyphs the scripts print are given
      by their UTF-8 bytes; they are only ever concatenated.
    - A parsed JSON document is a [json] value; a [dict] keeps its insertion
      order, as Python's does, and is an association list with the
      operations [dict_get] and [dict_set].  Finite floats are exact
      rationals.
    - A raised exception is the [Raise] case of [res]; statements are
      sequenced with the bind of [res].
    - The file system is a tree of regular files and directories addressed
      by component lists from the root; there are no symbolic links, and
      [".."] is a name like any other.  A file holds the text that was
      written to it; reading it in text mode ([read_text]) turns its
      carriage returns into line feeds, reading its bytes ([read_bytes])
      does not.
    - The functions of the Python standard library that the scripts call
      ([json.loads], [json.dumps], [repr], [urlparse], ...) are the fields
      of [PyLib]; the properties hold whatever these functions are. *)

From Stdlib Require Import ZArith QArith String Ascii List.
From stdpp Require Import gmap strings list fin_maps pretty.

#[local] Set Warnings "-register-all".
#[local] Open Scope string_scope.
#[local] Open Scope Z_scope.
#[local] Open Scope list_scope.

(** ** Exceptions and results *)

Inductive exn : Set :=
| KeyError | TypeError | AttributeError | IndexError | JSONDecodeError
| FileNotFoundError | IsADirectoryError | NotADirectoryError
| FileExistsError | SameFileError | OSError | ValueError.

Inductive res (A : Type) : Type :=
| Ok (a : A)
| Raise (e : exn).
Arguments Ok {A} a.
Arguments Raise {A} e.

Definition bind {A B} (m : res A) (f : A -> res B) : res B :=
  match m with
  | Ok a => f a
  | Raise e => Raise e
  end.

Notation "x <- m ;; k" := (bind m (fun x => k))
  (at level 100, m at next level, right associativity).
Notation "m >>= f" := (bind m f) (at level 50, left associativity).

Definition from_option {A} (e : exn) (o : option A) : res A :=
  match o with
  | Some a => Ok a
  | None => Raise e
  end.

(** Left-to-right iteration of a statement over a list: the [for] loop. *)
Fixpoint for_each {A S} (body : S -> A -> res S) (l : list A) (s : S) : res S :=
  match l with
  | [] => Ok s
  | a :: l' => s' <- body s a ;; for_each body l' s'
  end.

(** ** Strings *)

Definition dquote : ascii := "034"%char.
Definition newline : ascii := "010"%char.
Definition slash : ascii := "/"%char.
Definition carriage_return : ascii := "013"%char.

Definition str1 (c : ascii) : string := String c EmptyString.

(** [needle in hay] *)
Fixpoint str_in (needle hay : string) : bool :=
  String.prefix needle hay ||
  match hay with
  | EmptyString => false
  | String _ hay' => str_in needle hay'
  end.

(** [s[:n]] *)
Fixpoint str_take (n : nat) (s : string) : string :=
  match n, s with
  | S n', String c s' => String c (str_take n' s')
  | _, _ => EmptyString
  end.

(** [s.split(c)] for a one-character separator *)
Fixpoint str_split (c : ascii) (s : string) : list string :=
  match s with
  | EmptyString => [EmptyString]
  | String a s' =>
      if Ascii.eqb a c then EmptyString :: str_split c s'
      else match str_split c s' with
           | [] => [str1 a]
           | h :: t => String a h :: t
           end
  end.

(** [sep.join(l)] *)
Definition str_join (sep : string) (l : list string) : string :=
  String.concat sep l.

(** [s.replace(c, t)] for a one-character pattern *)
Fixpoint str_replace (c : ascii) (t : string) (s : string) : string :=
  match s with
  | EmptyString => EmptyString
  | String a s' =>
      (if Ascii.eqb a c then t else str1 a) +:+ str_replace c t s'
  end.

Fixpoint str_lstrip (c : ascii) (s : string) : string :=
  match s with
  | String a s' => if Ascii.eqb a c then str_lstrip c s' else s
  | EmptyString => EmptyString
  end.

Fixpoint str_rstrip (c : ascii) (s : string) : string :=
  match s with
  | EmptyString => EmptyString
  | String a s' =>
      match str_rstrip c s' with
      | EmptyString => if Ascii.eqb a c then EmptyString else str1 a
      | r => String a r
      end
  end.

(** [s.strip(c)] for a one-character set *)
Definition str_strip (c : ascii) (s : string) : string :=
  str_rstrip c (str_lstrip c s).

(** What a text becomes when it is read with universal newlines: a
    carriage return with the line feed that follows it, or alone, is one
    line feed. *)
Fixpoint universal_newlines (s : string) : string :=
  match s with
  | EmptyString => EmptyString
  | String c s' =>
      if Ascii.eqb c carriage_return then
        String newline
          match s' with
          | String c' s'' =>
              if Ascii.eqb c' newline then universal_newlines s''
              else universal_newlines s'
          | EmptyString => EmptyString
          end
      else String c (universal_newlines s')
  end.

(** One line: a text with no line feed and no carriage return. *)
Definition one_line (s : string) : Prop :=
  str_in (str1 newline) s = false /\ str_in (str1 carriage_return) s = false.

(** [s.title()] on a lowercase ASCII word *)
Definition str_title (s : string) : string :=
  match s with
  | EmptyString => EmptyString
  | String a s' =>
      let n := nat_of_ascii a in
      String (if (97 <=? n)%nat && (n <=? 122)%nat
              then ascii_of_nat (n - 32) else a) s'
  end.

(** ** JSON values *)

Inductive json : Type :=
| JNull
| JBool (b : bool)
| JInt (z : Z)
| JFloat (q : Q)
| JStr (s : string)
| JList (l : list json)
| JDict (d : list (string * json)).

Abbreviation dict := (list (string * json)).

(** [d.get(k)], [None] standing for a missing key *)
Fixpoint dict_get (k : string) (d : dict) : option json :=
  match d with
  | [] => None
  | (k', v) :: d' => if String.eqb k k' then Some v else dict_get k d'
  end.

(** [k in d] *)
Definition dict_has (k : string) (d : dict) : bool :=
  match dict_get k d with
  | Some _ => true
  | None => false
  end.

(** [d[k] = v]: an existing key keeps its place, a new one goes last *)
Fixpoint dict_set (k : string) (v : json) (d : dict) : dict :=
  match d with
  | [] => [(k, v)]
  | (k', v') :: d' =>
      if String.eqb k k' then (k', v) :: d' else (k', v') :: dict_set k v d'
  end.

(** [d.get(k, dflt)] *)
Definition dict_get_or (k : string) (dflt : json) (d : dict) : json :=
  match dict_get k d with
  | Some v => v
  | None => dflt
  end.

(** [d[k]] *)
Definition dict_item (k : string) (d : dict) : res json :=
  from_option KeyError (dict_get k d).

(** [j[k]] for a string key [k]: only a dict can be subscripted by one *)
Definition py_item (k : string) (j : json) : res json :=
  match j with
  | JDict d => dict_item k d
  | _ => Raise TypeError
  end.

(** [j[k] = v] for a string key [k] *)
Definition py_setitem (k : string) (v : json) (j : json) : res json :=
  match j with
  | JDict d => Ok (JDict (dict_set k v d))
  | _ => Raise TypeError
  end.

(** [j.get(k, dflt)]: only a dict has the method *)
Definition py_get_or (k : string) (dflt : json) (j : json) : res json :=
  match j with
  | JDict d => Ok (dict_get_or k dflt d)
  | _ => Raise AttributeError
  end.

(** [j.get(k)], a missing key giving [None], which is [JNull] *)
Definition py_get (k : string) (j : json) : res json := py_get_or k JNull j.

(** [bool(j)] *)
Definition py_truthy (j : json) : bool :=
  match j with
  | JNull => false
  | JBool b => b
  | JInt z => negb (z =? 0)
  | JFloat q => negb (Qeq_bool q 0)
  | JStr s => negb (String.eqb s EmptyString)
  | JList l => match l with [] => false | _ => true end
  | JDict d => match d with [] => false | _ => true end
  end.

(** [len(j)] *)
Definition py_len (j : json) : res nat :=
  match j with
  | JStr s => Ok (String.length s)
  | JList l => Ok (length l)
  | JDict d => Ok (length d)
  | _ => Raise TypeError
  end.

Definition bool_Z (b : bool) : Z := if b then 1 else 0.

(** [a == b]: numbers compare by value across [bool], [int] and [float],
    lists elementwise, dicts key by key whatever their order. *)
Fixpoint py_eq (a b : json) : bool :=
  match a, b with
  | JNull, JNull => true
  | JBool x, JBool y => Bool.eqb x y
  | JBool x, JInt y => bool_Z x =? y
  | JBool x, JFloat y => Qeq_bool (inject_Z (bool_Z x)) y
  | JInt x, JBool y => x =? bool_Z y
  | JInt x, JInt y => x =? y
  | JInt x, JFloat y => Qeq_bool (inject_Z x) y
  | JFloat x, JBool y => Qeq_bool x (inject_Z (bool_Z y))
  | JFloat x, JInt y => Qeq_bool x (inject_Z y)
  | JFloat x, JFloat y => Qeq_bool x y
  | JStr x, JStr y => String.eqb x y
  | JList x, JList y =>
      (fix go (x y : list json) : bool :=
         match x, y with
         | [], [] => true
         | u :: x', v :: y' => py_eq u v && go x' y'
         | _, _ => false
         end) x y
  | JDict x, JDict y =>
      (length x =? length y)%nat &&
      (fix go (x : dict) : bool :=
         match x with
         | [] => true
         | (k, u) :: x' =>
             match dict_get k y with
             | Some v => py_eq u v
             | None => false
             end && go x'
         end) x
  | _, _ => false
  end.

(** [x in l] *)
Definition py_in (x : json) (l : list json) : bool := existsb (py_eq x) l.

(** [j >= 3], as in the relevance test *)
Definition py_ge3 (j : json) : res bool :=
  match j with
  | JBool b => Ok (3 <=? bool_Z b)
  | JInt z => Ok (3 <=? z)
  | JFloat q => Ok (Qle_bool 3 q)
  | _ => Raise TypeError
  end.

(** [str(j)], as f-strings and [str.join] render a value; the text of a
    float, list or dict is left to [repr]. *)
Definition py_str (repr : json -> string) (j : json) : string :=
  match j with
  | JNull => "None"
  | JBool true => "True"
  | JBool false => "False"
  | JInt z => pretty z
  | JStr s => s
  | _ => repr j
  end.

(** ** The Python library *)

Class PyLib : Type := {
  (** [json.loads], [None] standing for [JSONDecodeError] *)
  json_loads : string -> option json;
  (** [json.dumps(_, indent=2)] *)
  json_dumps : json -> string;
  (** [repr] of a value *)
  py_repr : json -> string;
  (** [format(x, ".<d>f")] *)
  format_fixed : nat -> Q -> string;
  (** [urlparse(url)], as its [netloc] and its [path]; [None] stands for
      the [ValueError] it raises on a URL it refuses *)
  urlparse : string -> option (string * string);
  (** [s.lower()] *)
  str_lower : string -> string;
  (** [re.search(r'(\d{4}\.\d{4,5})', s)], giving group 1 *)
  re_search_arxiv : string -> option string
}.

(** A reading of [datetime.now()], given by what the scripts ask of it. *)
Record datetime : Type := {
  isoformat : string;              (* now.isoformat() *)
  strftime_date : string;          (* now.strftime("%Y-%m-%d") *)
  strftime_hm : string;            (* now.strftime("%H:%M") *)
  strftime_date_hm : string;       (* now.strftime("%Y-%m-%d %H:%M") *)
  (** [(now - datetime.fromisoformat(s)).total_seconds() / 60], [None] when
      [fromisoformat] or the subtraction raises *)
  minutes_since : string -> option Q
}.

(** ** A sample library

    An instance of [PyLib] to run the scripts on examples: a decoder and an
    encoder for JSON documents without fractions, exponents and [\u]
    escapes, and plain ASCII versions of the string functions. *)

Module Sample.

Definition is_space (c : ascii) : bool :=
  Ascii.eqb c " " || Ascii.eqb c newline || Ascii.eqb c "009" || Ascii.eqb c "013".

Definition is_digit (c : ascii) : bool :=
  let n := nat_of_ascii c in (48 <=? n)%nat && (n <=? 57)%nat.

Fixpoint skip_space (s : list ascii) : list ascii :=
  match s with
  | c :: s' => if is_space c then skip_space s' else s
  | [] => []
  end.

Fixpoint expect (word : list ascii) (s : list ascii) : option (list ascii) :=
  match word, s with
  | [], _ => Some s
  | w :: word', c :: s' => if Ascii.eqb w c then expect word' s' else None
  | _ :: _, [] => None
  end.

(** The characters of a string literal after its opening quote. *)
Fixpoint scan_string (s : list ascii) : option (string * list ascii) :=
  match s with
  | [] => None
  | c :: s' =>
      if Ascii.eqb c dquote then Some (EmptyString, s')
      else if Ascii.eqb c "\" then
        match s' with
        | d :: s'' =>
            let unescaped :=
              if Ascii.eqb d dquote then Some dquote
              else if Ascii.eqb d "\" then Some "\"%char
              else if Ascii.eqb d "/" then Some "/"%char
              else if Ascii.eqb d "n" then Some newline
              else if Ascii.eqb d "t" then Some "009"%char
              else if Ascii.eqb d "r" then Some "013"%char
              else None in
            match unescaped, scan_string s'' with
            | Some u, Some (r, rest) => Some (String u r, rest)
            | _, _ => None
            end
        | [] => None
        end
      else if (nat_of_ascii c <? 32)%nat then None
      else match scan_string s' with
           | Some (r, rest) => Some (String c r, rest)
           | None => None
           end
  end.

Fixpoint scan_digits (acc : Z) (s : list ascii) : Z * list ascii :=
  match s with
  | c :: s' =>
      if is_digit c
      then scan_digits (10 * acc + Z.of_nat (nat_of_ascii c - 48)) s'
      else (acc, s)
  | [] => (acc, [])
  end.

Definition scan_int (s : list ascii) : option (Z * list ascii) :=
  let '(neg, s) :=
    match s with
    | c :: s' => if Ascii.eqb c "-" then (true, s') else (false, s)
    | [] => (false, s)
    end in
  match s with
  | c :: s' =>
      if is_digit c then
        let '(n, rest) := scan_digits 0 s in
        if Ascii.eqb c "0" && negb (bool_decide (rest = s')) then None
        else
          match rest with
          | d :: _ =>
              if Ascii.eqb d "." || Ascii.eqb d "e" || Ascii.eqb d "E"
              then None
              else Some (if neg then - n else n, rest)
          | [] => Some (if neg then - n else n, rest)
          end
      else None
  | [] => None
  end.

Fixpoint scan_value (fuel : nat) (s : list ascii) : option (json * list ascii) :=
  match fuel with
  | O => None
  | S fuel =>
      let scan_items :=
        fix scan_items (n : nat) (acc : list json) (s : list ascii)
          : option (json * list ascii) :=
          match n with
          | O => None
          | S n =>
              match scan_value fuel s with
              | Some (v, rest) =>
                  match skip_space rest with
                  | c :: rest' =>
                      if Ascii.eqb c "," then scan_items n (acc ++ [v]) rest'
                      else if Ascii.eqb c "]"
                           then Some (JList (acc ++ [v]), rest')
                           else None
                  | [] => None
                  end
              | None => None
              end
          end in
      let scan_members :=
        fix scan_members (n : nat) (acc : dict) (s : list ascii)
          : option (json * list ascii) :=
          match n with
          | O => None
          | S n =>
              match skip_space s with
              | q :: s1 =>
                  if Ascii.eqb q dquote then
                    match scan_string s1 with
                    | Some (k, s2) =>
                        match skip_space s2 with
                        | c :: s3 =>
                            if Ascii.eqb c ":" then
                              match scan_value fuel s3 with
                              | Some (v, rest) =>
                                  match skip_space rest with
                                  | c :: rest' =>
                                      if Ascii.eqb c ","
                                      then scan_members n (dict_set k v acc) rest'
                                      else if Ascii.eqb c "}"
                                           then Some (JDict (dict_set k v acc), rest')
                                           else None
                                  | [] => None
                                  end
                              | None => None
                              end
                            else None
                        | [] => None
                        end
                    | None => None
                    end
                  else None
              | [] => None
              end
          end in
      match skip_space s with
      | [] => None
      | c :: s' =>
          if Ascii.eqb c "n" then
            option_map (pair JNull) (expect (list_ascii_of_string "ull") s')
          else if Ascii.eqb c "t" then
            option_map (pair (JBool true)) (expect (list_ascii_of_string "rue") s')
          else if Ascii.eqb c "f" then
            option_map (pair (JBool false)) (expect (list_ascii_of_string "alse") s')
          else if Ascii.eqb c dquote then
            match scan_string s' with
            | Some (r, rest) => Some (JStr r, rest)
            | None => None
            end
          else if Ascii.eqb c "[" then
            match skip_space s' with
            | d :: rest =>
                if Ascii.eqb d "]" then Some (JList [], rest)
                else scan_items (length s') [] s'
            | [] => None
            end
          else if Ascii.eqb c "{" then
            match skip_space s' with
            | d :: rest =>
                if Ascii.eqb d "}" then Some (JDict [], rest)
                else scan_members (length s') [] s'
            | [] => None
            end
          else
            match scan_int (c :: s') with
            | Some (n, rest) => Some (JInt n, rest)
            | None => None
            end
      end
  end.

Definition loads (text : string) : option json :=
  let s := list_ascii_of_string text in
  match scan_value (S (length s)) s with
  | Some (v, rest) =>
      match skip_space rest with
      | [] => Some v
      | _ :: _ => None
      end
  | None => None
  end.

Definition quote (s : string) : string :=
  str1 dquote +:+
  str_replace newline "\n"
    (str_replace dquote ("\" +:+ str1 dquote) (str_replace "\" "\\" s))
  +:+ str1 dquote.

Fixpoint spaces (n : nat) : string :=
  match n with
  | O => EmptyString
  | S n => " " +:+ spaces n
  end.

(** The layout of [json.dumps(_, indent=2)]; a float prints as a
    fraction. *)
Fixpoint dumps_at (depth : nat) (j : json) : string :=
  match j with
  | JNull => "null"
  | JBool true => "true"
  | JBool false => "false"
  | JInt z => pretty z
  | JFloat q => pretty (Qnum q) +:+ "/" +:+ pretty (Zpos (Qden q))
  | JStr s => quote s
  | JList [] => "[]"
  | JList l =>
      "[" +:+ str1 newline +:+
      String.concat ("," +:+ str1 newline)
        ((fix each (l : list json) : list string :=
            match l with
            | [] => []
            | x :: l' => (spaces (2 * S depth) +:+ dumps_at (S depth) x) :: each l'
            end) l)
      +:+ str1 newline +:+ spaces (2 * depth) +:+ "]"
  | JDict [] => "{}"
  | JDict d =>
      "{" +:+ str1 newline +:+
      String.concat ("," +:+ str1 newline)
        ((fix each (d : dict) : list string :=
            match d with
            | [] => []
            | (k, x) :: d' =>
                (spaces (2 * S depth) +:+ quote k +:+ ": " +:+ dumps_at (S depth) x)
                :: each d'
            end) d)
      +:+ str1 newline +:+ spaces (2 * depth) +:+ "}"
  end.

Definition dumps (j : json) : string := dumps_at 0 j.

Definition lower (s : string) : string :=
  string_of_list_ascii
    (map (fun c => let n := nat_of_ascii c in
                   if (65 <=? n)%nat && (n <=? 90)%nat
                   then ascii_of_nat (n + 32) else c)
         (list_ascii_of_string s)).

(** What follows [://], or the whole text without it. *)
Fixpoint after_scheme (s : string) : option string :=
  match s with
  | EmptyString => None
  | String _ s' =>
      if String.prefix "://" s then Some (substring 3 (String.length s) s)
      else after_scheme s'
  end.

Fixpoint until (stop : ascii -> bool) (s : string) : string :=
  match s with
  | EmptyString => EmptyString
  | String c s' => if stop c then EmptyString else String c (until stop s')
  end.

Fixpoint from (stop : ascii -> bool) (s : string) : string :=
  match s with
  | EmptyString => EmptyString
  | String c s' => if stop c then s else from stop s'
  end.

Definition is_path_start (c : ascii) : bool :=
  Ascii.eqb c "/" || Ascii.eqb c "?" || Ascii.eqb c "#".

Definition netloc (url : string) : string :=
  match after_scheme url with
  | Some rest => until is_path_start rest
  | None => EmptyString
  end.

Definition url_path (url : string) : string :=
  let rest := match after_scheme url with
              | Some rest => from is_path_start rest
              | None => url
              end in
  until (fun c => Ascii.eqb c "?" || Ascii.eqb c "#") rest.

Fixpoint digits_prefix (s : string) : string :=
  match s with
  | String c s' => if is_digit c then String c (digits_prefix s') else EmptyString
  | EmptyString => EmptyString
  end.

(** The first run of four digits, a dot and four or five digits. *)
Fixpoint search_arxiv (s : string) : option string :=
  match s with
  | EmptyString => None
  | String _ s' =>
      let a := str_take 4 s in
      let rest := substring 4 (String.length s) s in
      if (String.length (digits_prefix a) =? 4)%nat && String.prefix "." rest then
        let b := digits_prefix (str_take 5 (substring 5 (String.length s) s)) in
        if (4 <=? String.length b)%nat then Some (a +:+ "." +:+ b)
        else search_arxiv s'
      else search_arxiv s'
  end.

(** Rounding to [d] digits, half up. *)
Definition fixed (d : nat) (q : Q) : string :=
  let scale := (10 ^ Z.of_nat d)%Z in
  let n := ((2 * Qnum q * scale + Zpos (Qden q)) / (2 * Zpos (Qden q)))%Z in
  let whole := (Z.abs n / scale)%Z in
  let frac := (Z.abs n mod scale)%Z in
  let ftext := pretty frac in
  (if (n <? 0)%Z then "-" else EmptyString) +:+ pretty whole +:+
  match d with
  | O => EmptyString
  | _ => "." +:+ String.concat EmptyString
                   (replicate (d - String.length ftext) "0") +:+ ftext
  end.

(** A host with one bracket only is refused. *)
Definition parse (url : string) : option (string * string) :=
  let host := netloc url in
  if xorb (str_in "[" host) (str_in "]" host) then None
  else Some (host, url_path url).

Definition lib : PyLib := {|
  json_loads := loads;
  json_dumps := dumps;
  py_repr := dumps;
  format_fixed := fixed;
  urlparse := parse;
  str_lower := lower;
  re_search_arxiv := search_arxiv
|}.

End Sample.

(** ** The file system *)

Definition path := list string.

Inductive node : Type :=
| File (content : string)
| Dir (entries : gmap string node).

Fixpoint fs_get (n : node) (p : path) : option node :=
  match p with
  | [] => Some n
  | x :: p' =>
      match n with
      | Dir m => match m !! x with
                 | Some c => fs_get c p'
                 | None => None
                 end
      | File _ => None
      end
  end.

(** [p.exists()], [p.is_file()], [p.is_dir()] *)
Definition path_exists (fs : node) (p : path) : bool :=
  match fs_get fs p with Some _ => true | None => false end.
Definition is_file (fs : node) (p : path) : bool :=
  match fs_get fs p with Some (File _) => true | _ => false end.
Definition is_dir (fs : node) (p : path) : bool :=
  match fs_get fs p with Some (Dir _) => true | _ => false end.

(** Replace, create or remove the entry at [p] as [f] says of what is
    there; the directory holding it must exist. *)
Fixpoint fs_alter (f : option node -> res (option node)) (n : node) (p : path)
  : res node :=
  match p with
  | [] =>
      o <- f (Some n) ;;
      match o with
      | Some n' => Ok n'
      | None => Raise OSError
      end
  | x :: p' =>
      match n with
      | File _ => Raise NotADirectoryError
      | Dir m =>
          match p' with
          | [] =>
              o <- f (m !! x) ;;
              Ok (Dir (match o with
                       | Some c => <[x := c]> m
                       | None => delete x m
                       end))
          | _ :: _ =>
              match m !! x with
              | None => Raise FileNotFoundError
              | Some c => c' <- fs_alter f c p' ;; Ok (Dir (<[x := c']> m))
              end
          end
      end
  end.

(** Whether an entry is a file or a directory. *)
Definition kind_at (n : node) (q : path) : option bool :=
  match fs_get n q with
  | Some (File _) => Some true
  | Some (Dir _) => Some false
  | None => None
  end.

(** Two paths that part ways at some point. *)
Definition diverge (p q : path) : Prop :=
  exists c x y p' q', p = c ++ x :: p' /\ q = c ++ y :: q' /\ x <> y.

(** [p.read_bytes()]: the text the file holds *)
Definition read_bytes (fs : node) (p : path) : res string :=
  match fs_get fs p with
  | Some (File c) => Ok c
  | Some (Dir _) => Raise IsADirectoryError
  | None => Raise FileNotFoundError
  end.

(** [p.read_text()]: the text of the file with universal newlines *)
Definition read_text (fs : node) (p : path) : res string :=
  c <- read_bytes fs p ;;
  Ok (universal_newlines c).

(** [p.write_text(s)] *)
Definition write_text (fs : node) (p : path) (s : string) : res node :=
  fs_alter (fun o => match o with
                     | Some (Dir _) => Raise IsADirectoryError
                     | _ => Ok (Some (File s))
                     end) fs p.

(** [open(p, "a").write(s)] *)
Definition append_text (fs : node) (p : path) (s : string) : res node :=
  fs_alter (fun o => match o with
                     | Some (Dir _) => Raise IsADirectoryError
                     | Some (File c) => Ok (Some (File (c +:+ s)))
                     | None => Ok (Some (File s))
                     end) fs p.

(** [p.unlink()] *)
Definition unlink (fs : node) (p : path) : res node :=
  fs_alter (fun o => match o with
                     | Some (File _) => Ok None
                     | Some (Dir _) => Raise IsADirectoryError
                     | None => Raise FileNotFoundError
                     end) fs p.

(** [shutil.rmtree(p)] *)
Definition rmtree (fs : node) (p : path) : res node :=
  fs_alter (fun o => match o with
                     | Some (Dir _) => Ok None
                     | Some (File _) => Raise NotADirectoryError
                     | None => Raise FileNotFoundError
                     end) fs p.

(** [p.mkdir(parents=True, exist_ok=True)] *)
Fixpoint mkdir_p (n : node) (p : path) : res node :=
  match n with
  | File _ =>
      Raise (match p with [] => FileExistsError | _ => NotADirectoryError end)
  | Dir m =>
      match p with
      | [] => Ok n
      | x :: p' =>
          c' <- mkdir_p (match m !! x with Some c => c | None => Dir ∅ end) p' ;;
          Ok (Dir (<[x := c']> m))
      end
  end.

(** [p.iterdir()], as the names of the entries; the order is the one the
    operating system lists them in. *)
Definition iterdir (fs : node) (p : path) : res (list string) :=
  match fs_get fs p with
  | Some (Dir m) => Ok (map fst (map_to_list m))
  | Some (File _) => Raise NotADirectoryError
  | None => Raise FileNotFoundError
  end.

(** [p.name] *)
Definition path_name (p : path) : string :=
  match last p with
  | Some x => x
  | None => EmptyString
  end.

(** [shutil.copy2(src, dst)]: into [dst] when it is a directory *)
Definition copy2 (fs : node) (src dst : path) : res node :=
  c <- read_bytes fs src ;;
  let dst' := if is_dir fs dst then dst ++ [path_name src] else dst in
  if bool_decide (src = dst') then Raise SameFileError
  else write_text fs dst' c.

(** [shutil.copytree(src, dst)] for a destination outside the source: the
    destination must not exist, its missing parents are made, and it
    becomes a copy of the source tree. *)
Definition copytree (fs : node) (src dst : path) : res node :=
  match fs_get fs src with
  | Some (Dir m) =>
      if path_exists fs dst then Raise FileExistsError
      else fs' <- mkdir_p fs dst ;; fs_alter (fun _ => Ok (Some (Dir m))) fs' dst
  | Some (File _) => Raise NotADirectoryError
  | None => Raise FileNotFoundError
  end.

(** [Path(s)] and [p / s]: the components of [s] between slashes, without
    the empty ones and the dots; an absolute [s] replaces [p]. *)
Definition path_parts (s : string) : path :=
  filter (fun x => x <> EmptyString /\ x <> ".") (str_split slash s).

Definition is_absolute (s : string) : bool := String.prefix "/" s.

Definition path_join (p : path) (s : string) : path :=
  if is_absolute s then path_parts s else p ++ path_parts s.

(** [str(p)] *)
Definition path_str (p : path) : string :=
  match p with
  | [] => "/"
  | _ => String.concat EmptyString (map (fun x => "/" +:+ x) p)
  end.

(** The working directory and the global store of one invocation:
    [Path.cwd()] and [get_agent_core_dir()]. *)
Record env : Type := {
  cwd : path;
  agent_core : path
}.

(** [Path(s)] for a path string [s] taken from a document *)
Definition Path (e : env) (s : string) : path := path_join (cwd e) s.

Definition get_agent_core_dir (e : env) : path := agent_core e.
Definition get_local_agent_dir (e : env) : path := cwd e ++ [".agent"].

(** [json.loads(text)] *)
Definition loads `{PyLib} (text : string) : res json :=
  from_option JSONDecodeError (json_loads text).

(** [Path(session["paths"][k])] *)
Definition session_path (e : env) (session : json) (k : string) : res path :=
  ps <- py_item "paths" session ;;
  v <- py_item k ps ;;
  match v with
  | JStr s => Ok (Path e s)
  | _ => Raise TypeError
  end.

(** [l.append(x)] on the value [j] *)
Definition py_append (x : json) (j : json) : res json :=
  match j with
  | JList l => Ok (JList (l ++ [x]))
  | _ => Raise AttributeError
  end.

(** [d[k].append(x)] *)
Definition dict_append (k : string) (x : json) (d : dict) : res dict :=
  l <- dict_item k d ;;
  l' <- py_append x l ;;
  Ok (dict_set k l' d).

(** [a or b] on an optional string argument *)
Definition str_or (a : option string) (b : string) : string :=
  match a with
  | Some s => if String.eqb s EmptyString then b else s
  | None => b
  end.

(** [a or b()]: the call is made only when [a] is [None] or empty *)
Definition str_or_else (a : option string) (b : res string) : res string :=
  match a with
  | Some s => if String.eqb s EmptyString then b else Ok s
  | None => b
  end.

(** ** log_url.py *)

Module LogUrl.

(** The dict [entry] that [main] builds, with the types [argparse] gives
    its fields. *)
Record LogEntry : Type := {
  url : string;
  source : string;
  name : string;
  timestamp : string;
  time : string;
  used : bool;
  skipped : bool;
  relevance : Z;
  relevance_stars : string;
  notes : string;
  filter : string;
  stars : option Z
}.

(** The namespace [parser.parse_args()] returns. *)
Record Args : Type := {
  args_url : string;
  args_source : option string;
  args_name : option string;
  args_used : bool;
  args_skipped : bool;
  args_relevance : Z;
  args_notes : option string;
  args_filter : option string;
  args_stars : option Z
}.

Definition relevance_to_stars (relevance : Z) : string :=
  if 3 <=? relevance then "★★★"
  else if relevance =? 2 then "★★☆"
  else if relevance =? 1 then "★☆☆"
  else "☆☆☆".

(** A scratchpad whose three URL sequences are lists when present. *)
Definition url_lists (scratchpad : dict) : Prop :=
  forall k v, In k ["urls_visited"; "urls_used"; "urls_skipped"] ->
    dict_get k scratchpad = Some v -> exists l, v = JList l.

(** The table [defaults] of [ensure_scratchpad_keys], in its order. *)
Definition defaults : dict :=
  [ ("urls_visited", JList []);
    ("urls_used", JList []);
    ("urls_skipped", JList []);
    ("viral_candidates", JList []);
    ("groundbreaker_candidates", JList []);
    ("arxiv_papers", JList []);
    ("findings", JList []);
    ("checkpoints", JList []) ].

(** The body of the loop of [ensure_scratchpad_keys]. *)
Definition default_step (scratchpad : dict) (item : string * json) : dict :=
  let '(key, default) := item in
  if negb (dict_has key scratchpad) then dict_set key default scratchpad
  else scratchpad.

Definition ensure_scratchpad_keys (scratchpad : dict) : dict :=
  fold_left default_step defaults scratchpad.

(** The row of the narrative table goes right after the first separator
    line that follows a header line naming [Source]. *)
Fixpoint insert_row (row : string) (prev : option string) (lines : list string)
  : list string :=
  match lines with
  | [] => []
  | line :: rest =>
      if String.prefix "|---" line
         && match prev with
            | Some p => str_in "Source" p
            | None => false
            end
      then line :: row :: rest
      else line :: insert_row row (Some line) rest
  end.

Definition markdown_row (entry : LogEntry) : string :=
  let used_mark :=
    if used entry then "✓" else if skipped entry then "✗" else "—" in
  "| " +:+ time entry +:+ " | " +:+ source entry +:+ " | " +:+ url entry
  +:+ " | " +:+ used_mark +:+ " | " +:+ relevance_stars entry
  +:+ " | " +:+ notes entry +:+ " |".

(** The record stored in [urls_visited] for an entry. *)
Definition url_entry (entry : LogEntry) : json :=
  JDict [ ("url", JStr (url entry));
          ("source", JStr (source entry));
          ("name", JStr (name entry));
          ("timestamp", JStr (timestamp entry));
          ("relevance", JInt (relevance entry));
          ("notes", JStr (notes entry)) ].

(** The dict [entry] of [main] itself, with its twelve keys. *)
Definition entry_dict (entry : LogEntry) : json :=
  JDict [ ("url", JStr (url entry));
          ("source", JStr (source entry));
          ("name", JStr (name entry));
          ("timestamp", JStr (timestamp entry));
          ("time", JStr (time entry));
          ("used", JBool (used entry));
          ("skipped", JBool (skipped entry));
          ("relevance", JInt (relevance entry));
          ("relevance_stars", JStr (relevance_stars entry));
          ("notes", JStr (notes entry));
          ("filter", JStr (filter entry));
          ("stars", match stars entry with Some n => JInt n | None => JNull end) ].

(** The statements of [log_to_scratchpad] between the load and the
    write-back: the event applied to the scratchpad in memory. *)
Definition apply_log_event (scratchpad : dict) (entry : LogEntry) : res dict :=
  let scratchpad := ensure_scratchpad_keys scratchpad in
  scratchpad <- dict_append "urls_visited" (url_entry entry) scratchpad ;;
  scratchpad <-
    (if used entry then dict_append "urls_used" (JStr (url entry)) scratchpad
     else if skipped entry
          then dict_append "urls_skipped" (JStr (url entry)) scratchpad
          else Ok scratchpad) ;;
  Ok (dict_set "last_updated" (JStr (timestamp entry)) scratchpad).

(** [escape] of [log_to_csv], on the text of a field *)
Definition escape (s : string) : string :=
  if str_in "," s || str_in (str1 dquote) s || str_in (str1 newline) s
  then str1 dquote +:+ str_replace dquote (str1 dquote +:+ str1 dquote) s
       +:+ str1 dquote
  else s.

Definition csv_row (entry : LogEntry) : string :=
  str_join ","
    [ escape (name entry);
      escape (url entry);
      escape (source entry);
      escape (filter entry);
      escape (match stars entry with Some n => pretty n | None => "None" end);
      escape (str_take 10 (timestamp entry));
      escape (pretty (relevance entry));
      escape (if used entry then "yes" else "no");
      escape (notes entry) ].

Section WithLibrary.
Context `{PyLib}.
Variable e : env.

(** [None] is [JNull], which is also what the document [null] loads to. *)
Definition get_current_session (fs : node) : res json :=
  let session_path := get_local_agent_dir e ++ ["research"; "session.json"] in
  if path_exists fs session_path
  then text <- read_text fs session_path ;;
       loads text
  else Ok JNull.

Definition detect_source (url : string) : res string :=
  parsed <- from_option ValueError (urlparse url) ;;
  let domain := str_lower (fst parsed) in
  Ok (if str_in "github.com" domain then "github"
      else if str_in "arxiv.org" domain then "arxiv"
      else if str_in "huggingface.co" domain then "huggingface"
      else if str_in "medium.com" domain || str_in "blog" domain then "blog"
      else if str_in "docs." domain || str_in "documentation" (str_lower url)
           then "docs"
      else if str_in "reddit.com" domain then "reddit"
      else if str_in "news.ycombinator.com" domain then "hackernews"
      else if str_in "twitter.com" domain || str_in "x.com" domain
           then "twitter"
      else if str_in "youtube.com" domain then "youtube"
      else "web").

Definition extract_name (url source : string) : res string :=
  parsed <- from_option ValueError (urlparse url) ;;
  let path := str_strip slash (snd parsed) in
  let default :=
    if negb (String.eqb path EmptyString)
    then str_take 50 (path_name (str_split slash path))
    else fst parsed in
  Ok (if String.eqb source "github" && str_in "/" path then
        match str_split slash path with
        | p0 :: p1 :: _ => p0 +:+ "/" +:+ p1
        | _ => default
        end
      else if String.eqb source "arxiv" then
        match re_search_arxiv url with
        | Some id => "arxiv:" +:+ id
        | None => default
        end
      else default).

Definition log_to_markdown (fs : node) (session : json) (entry : LogEntry)
  : res node :=
  log_path <- session_path e session "session_log" ;;
  if negb (path_exists fs log_path) then Ok fs
  else
    content <- read_text fs log_path ;;
    let lines := str_split newline content in
    let lines := insert_row (markdown_row entry) None lines in
    write_text fs log_path (str_join (str1 newline) lines).

Definition log_to_scratchpad (fs : node) (session : json) (entry : LogEntry)
  : res node :=
  scratchpad_path <- session_path e session "scratchpad" ;;
  if negb (path_exists fs scratchpad_path) then Ok fs
  else
    text <- read_text fs scratchpad_path ;;
    doc <- loads text ;;
    match doc with
    | JDict scratchpad =>
        scratchpad <- apply_log_event scratchpad entry ;;
        write_text fs scratchpad_path (json_dumps (JDict scratchpad))
    | _ =>
        (* no other value passes both [key not in scratchpad] and an
           assignment or lookup at a string key *)
        Raise TypeError
    end.

Definition log_to_csv (fs : node) (session : json) (entry : LogEntry)
  : res node :=
  csv_path <- session_path e session "sources" ;;
  if negb (path_exists fs csv_path) then Ok fs
  else append_text fs csv_path (csv_row entry +:+ str1 newline).

(** The entry [main] builds from the arguments and the clock; the source
    and the name are worked out from the URL only when they are not
    given. *)
Definition build_entry (args : Args) (now : datetime) : res LogEntry :=
  source <- str_or_else (args_source args) (detect_source (args_url args)) ;;
  name <- str_or_else (args_name args) (extract_name (args_url args) source) ;;
  Ok {| url := args_url args;
        source := source;
        name := name;
        timestamp := isoformat now;
        time := strftime_hm now;
        used := args_used args;
        skipped := args_skipped args;
        relevance := args_relevance args;
        relevance_stars := relevance_to_stars (args_relevance args);
        notes := str_or (args_notes args) EmptyString;
        filter := str_or (args_filter args) EmptyString;
        stars := args_stars args |}.

(** The three writes of [main], in its order. *)
Definition log_all (fs : node) (session : json) (entry : LogEntry) : res node :=
  fs <- log_to_markdown fs session entry ;;
  fs <- log_to_scratchpad fs session entry ;;
  log_to_csv fs session entry.

(** The lines [main] prints once the event is logged. *)
Definition confirmation (args : Args) (entry : LogEntry) : list string :=
  let used_str :=
    if args_used args then "✓ USED"
    else if args_skipped args then "✗ SKIPPED" else "○ LOGGED" in
  [ used_str +:+ ": [" +:+ source entry +:+ "] " +:+ name entry;
    "   " +:+ args_url args ]
  ++ (if String.eqb (str_or (args_notes args) EmptyString) EmptyString
      then []
      else ["   Notes: " +:+ str_or (args_notes args) EmptyString]).

(** [main]: the file system it leaves, its exit status and what it prints. *)
Definition main (fs : node) (args : Args) (now : datetime)
  : res (node * Z * list string) :=
  session <- get_current_session fs ;;
  if negb (py_truthy session)
  then Ok (fs, 1, ["❌ No active session found. Run init_session.py first."])
  else
    entry <- build_entry args now ;;
    fs <- log_all fs session entry ;;
    Ok (fs, 0, confirmation args entry).

End WithLibrary.

End LogUrl.

(** ** init_session.py *)

Module InitSession.

(** [create_scratchpad]: the scratchpad of a new session, with every key
    of the schema. *)
Definition create_scratchpad (session : dict) : res dict :=
  session_id <- dict_item "session_id" session ;;
  topic <- dict_item "topic" session ;;
  workflow <- dict_item "workflow" session ;;
  environment <- dict_item "environment" session ;;
  started <- dict_item "started" session ;;
  Ok [ ("session_id", session_id);
       ("topic", topic);
       ("workflow", workflow);
       ("environment", environment);
       ("started", started);
       ("viral_candidates", JList []);
       ("groundbreaker_candidates", JList []);
       ("arxiv_papers", JList []);
       ("urls_visited", JList []);
       ("urls_used", JList []);
       ("urls_skipped", JList []);
       ("findings", JList []);
       ("checkpoints", JList []);
       ("last_checkpoint", JNull);
       ("last_updated", started) ].

(** The keys [create_scratchpad] defines. *)
Definition scratchpad_keys : list string :=
  [ "session_id"; "topic"; "workflow"; "environment"; "started";
    "viral_candidates"; "groundbreaker_candidates"; "arxiv_papers";
    "urls_visited"; "urls_used"; "urls_skipped";
    "findings"; "checkpoints"; "last_checkpoint"; "last_updated" ].

(** What the listing of the local tier holds for [k] once the regular
    files of the global listing [gm] are copied over the listing [lm]. *)
Definition copied (gm lm : gmap string node) (k : string) : option node :=
  match gm !! k with
  | Some (File c) => Some (File c)
  | _ => lm !! k
  end.

(** The session document [load_session] writes for the document [s]. *)
Definition resumed (s : dict) (paths : dict) (now : datetime) (local : path)
  : json :=
  JDict (dict_set "paths" (JDict (dict_set "local" (JStr (path_str local)) paths))
           (dict_set "resumed_at" (JStr (isoformat now))
              (dict_set "status" (JStr "resumed") s))).

Section WithLibrary.
Context `{PyLib}.
Variable e : env.

Definition local_dir : path := get_local_agent_dir e ++ ["research"].

Definition global_dir (session_id : string) : path :=
  path_join (get_agent_core_dir e ++ ["sessions"]) session_id.

(** The body of the loop of [load_session] for the entry [name]. *)
Definition copy_file (session_id : string) (fs : node) (name : string)
  : res node :=
  let file := global_dir session_id ++ [name] in
  if is_file fs file
  then bytes <- read_bytes fs file ;; write_text fs (local_dir ++ [name]) bytes
  else Ok fs.

Definition load_session (fs : node) (session_id : string) (now : datetime)
  : res (node * json) :=
  let metadata_path := global_dir session_id ++ ["session.json"] in
  if negb (path_exists fs metadata_path) then Raise FileNotFoundError
  else
    text <- read_text fs metadata_path ;;
    session <- loads text ;;
    session <- py_setitem "status" (JStr "resumed") session ;;
    session <- py_setitem "resumed_at" (JStr (isoformat now)) session ;;
    fs <- mkdir_p fs local_dir ;;
    names <- iterdir fs (global_dir session_id) ;;
    fs <- for_each (copy_file session_id) names fs ;;
    paths <- py_item "paths" session ;;
    paths <- py_setitem "local" (JStr (path_str local_dir)) paths ;;
    session <- py_setitem "paths" paths session ;;
    fs <- write_text fs (local_dir ++ ["session.json"]) (json_dumps session) ;;
    Ok (fs, session).

End WithLibrary.

End InitSession.

(** ** archive_session.py *)

(** [for x in j]: the items of a list, the characters of a string, the
    keys of a dict *)
Definition py_iter (j : json) : res (list json) :=
  match j with
  | JList l => Ok l
  | JStr s => Ok (map (fun c => JStr (str1 c)) (list_ascii_of_string s))
  | JDict d => Ok (map (fun kv => JStr (fst kv)) d)
  | _ => Raise TypeError
  end.

(** [j[0]] *)
Definition py_index0 (j : json) : res json :=
  match j with
  | JList (x :: _) => Ok x
  | JList [] => Raise IndexError
  | JStr (String c _) => Ok (JStr (str1 c))
  | JStr EmptyString => Raise IndexError
  | JDict _ => Raise KeyError
  | _ => Raise TypeError
  end.

(** [j[:n]]; a dict cannot be sliced *)
Definition py_slice_to (n : nat) (j : json) : res json :=
  match j with
  | JStr s => Ok (JStr (str_take n s))
  | JList l => Ok (JList (take n l))
  | _ => Raise TypeError
  end.

(** A number as the rational it denotes, for [format(x, ".<d>f")] *)
Definition num_Q (j : json) : res Q :=
  match j with
  | JBool b => Ok (inject_Z (bool_Z b))
  | JInt z => Ok (inject_Z z)
  | JFloat q => Ok q
  | _ => Raise TypeError
  end.

Module ArchiveSession.

(** The dict [url_stats] of [count_urls]. *)
Record UrlStats : Type := {
  total : nat;
  used : nat;
  skipped : nat
}.

(** A dict of [learnings]; its [type] is one of four literals. *)
Record Learning : Type := {
  type : string;
  name : json;
  url : json;
  insight : json
}.

(** The clock readings of one run of [archive_session], in the order it
    takes them. *)
Record Clock : Type := {
  now_duration : datetime;
  now_memory : datetime;
  now_archived : datetime;
  now_report : datetime;
  now_index : datetime
}.

Definition count_urls (scratchpad : json) : res UrlStats :=
  visited <- py_get_or "urls_visited" (JList []) scratchpad ;;
  total <- py_len visited ;;
  urls_used <- py_get_or "urls_used" (JList []) scratchpad ;;
  used <- py_len urls_used ;;
  urls_skipped <- py_get_or "urls_skipped" (JList []) scratchpad ;;
  skipped <- py_len urls_skipped ;;
  Ok {| total := total; used := used; skipped := skipped |}.

(** The truncation of [update_session_index]: only a string can be cut
    and have the dots appended. *)
Definition truncate_key_finding (key_finding : json) : res json :=
  n <- py_len key_finding ;;
  if (40 <? n)%nat then
    match key_finding with
    | JStr s => Ok (JStr (str_take 37 s +:+ "..."))
    | _ => Raise TypeError
    end
  else Ok key_finding.

(** The key finding [archive_session] computes for the index. *)
Definition key_finding (scratchpad : json) (url_stats : UrlStats) : res json :=
  viral <- py_get "viral_candidates" scratchpad ;;
  if py_truthy viral then
    viral <- py_item "viral_candidates" scratchpad ;;
    first <- py_index0 viral ;;
    match first with
    | JDict d => Ok (dict_get_or "name" (JStr "See report") d)
    | _ => Ok (JStr "See report")
    end
  else
    urls_used <- py_get "urls_used" scratchpad ;;
    if py_truthy urls_used
    then Ok (JStr (pretty (used url_stats) +:+ " URLs used"))
    else Ok (JStr "See report").

Section WithLibrary.
Context `{PyLib}.
Variable e : env.

Definition local_dir : path := get_local_agent_dir e ++ ["research"].

Definition get_current_session (fs : node) : res json :=
  let session_file := local_dir ++ ["session.json"] in
  if path_exists fs session_file
  then text <- read_text fs session_file ;;
       match json_loads text with
       | Some session => Ok session
       | None => Ok JNull
       end
  else Ok JNull.

Definition parse_scratchpad (fs : node) (session : json) : res json :=
  scratchpad_path <- session_path e session "scratchpad" ;;
  if path_exists fs scratchpad_path
  then text <- read_text fs scratchpad_path ;;
       match json_loads text with
       | Some scratchpad => Ok scratchpad
       | None => Ok (JDict [])
       end
  else Ok (JDict []).

Definition fstr (j : json) : string := py_str py_repr j.

Definition tool_learning (item : dict) : Learning :=
  {| type := "tool";
     name := dict_get_or "name" (JStr "Unknown") item;
     url := dict_get_or "url" (JStr EmptyString) item;
     insight :=
       JStr ("High-adoption: " +:+
             fstr (dict_get_or "why"
                     (dict_get_or "notes" (JStr "well-maintained") item)
                     item)) |}.

Definition innovation_learning (item : dict) : Learning :=
  {| type := "innovation";
     name := dict_get_or "name" (JStr "Unknown") item;
     url := dict_get_or "url" (JStr EmptyString) item;
     insight :=
       JStr ("Novel: " +:+
             fstr (dict_get_or "novel"
                     (dict_get_or "why"
                        (dict_get_or "notes" (JStr "emerging") item) item)
                     item)) |}.

Definition paper_learning (item : dict) : Learning :=
  {| type := "paper";
     name := dict_get_or "title" (dict_get_or "name" (JStr "Unknown") item) item;
     url := dict_get_or "url" (JStr EmptyString) item;
     insight :=
       dict_get_or "insight"
         (dict_get_or "notes" (JStr "Research finding") item) item |}.

Definition resource_learning (item : dict) : Learning :=
  {| type := "resource";
     name := dict_get_or "name" (dict_get_or "url" (JStr "Unknown") item) item;
     url := dict_get_or "url" (JStr EmptyString) item;
     insight := dict_get_or "notes" (JStr "High relevance resource") item |}.

(** One of the first three loops: every dict of the sequence gives a
    learning, appended to [learnings]. *)
Definition extend_with (mk : dict -> Learning) (learnings : list Learning)
  (item : json) : res (list Learning) :=
  match item with
  | JDict d => Ok (learnings ++ [mk d])
  | _ => Ok learnings
  end.

(** The body of the loop over [urls_visited]. *)
Definition extend_with_resource (learnings : list Learning) (item : json)
  : res (list Learning) :=
  match item with
  | JDict d =>
      py_ge3 (dict_get_or "relevance" (JInt 0) d) >>= fun high : bool =>
      if high then
        if negb (py_in (dict_get_or "url" JNull d) (map url learnings))
        then Ok (learnings ++ [resource_learning d])
        else Ok learnings
      else Ok learnings
  | _ => Ok learnings
  end.

Definition extract_learnings (session : json) (scratchpad : json)
  : res (list Learning) :=
  let learnings := [] in
  items <- py_get_or "viral_candidates" (JList []) scratchpad >>= py_iter ;;
  learnings <- for_each (extend_with tool_learning) items learnings ;;
  items <- py_get_or "groundbreaker_candidates" (JList []) scratchpad >>= py_iter ;;
  learnings <- for_each (extend_with innovation_learning) items learnings ;;
  items <- py_get_or "arxiv_papers" (JList []) scratchpad >>= py_iter ;;
  learnings <- for_each (extend_with paper_learning) items learnings ;;
  items <- py_get_or "urls_visited" (JList []) scratchpad >>= py_iter ;;
  for_each extend_with_resource items learnings.

(** *** The loops of [extract_learnings] as functions

    The records among the items of a sequence, the URL the loop over
    [urls_visited] looks for, and its test of the relevance. *)
Definition dicts (items : list json) : list dict :=
  omap (fun item => match item with JDict d => Some d | _ => None end) items.

Definition entry_url (entry : dict) : json := dict_get_or "url" JNull entry.

Definition high_relevance (entry : dict) : bool :=
  match py_ge3 (dict_get_or "relevance" (JInt 0) entry) with
  | Ok b => b
  | Raise _ => false
  end.

(** What the loop over [urls_visited] appends for the records [entries];
    [earlier] holds the URLs of the learnings so far. *)
Fixpoint resources_from (earlier : list json) (entries : list dict)
  : list Learning :=
  match entries with
  | [] => []
  | entry :: rest =>
      if high_relevance entry && negb (py_in (entry_url entry) earlier)
      then resource_learning entry
           :: resources_from (earlier ++ [url (resource_learning entry)]) rest
      else resources_from earlier rest
  end.

(** *** The learnings, as the specification words them

    [derive_learnings] walks, in this order, the viral candidates (type
    tool), the groundbreaker candidates (type innovation), the arXiv
    papers (type paper), then the visited entries with relevance >= 3
    whose URL is not already represented by an earlier learning (type
    resource, deduplicated by URL only, first occurrence wins).

    The relevance of a record is an integer, 0 when it has none; its URL
    is a text, empty when it has none. *)
Definition spec_relevance (entry : dict) : Z :=
  match dict_get "relevance" entry with
  | Some (JInt z) => z
  | _ => 0
  end.

Definition spec_url (entry : dict) : string :=
  match dict_get "url" entry with
  | Some (JStr u) => u
  | _ => EmptyString
  end.

(** The visited entries that give a resource; [represented] holds the
    URLs of the learnings so far. *)
Fixpoint spec_resources (represented : list string) (visited : list dict)
  : list dict :=
  match visited with
  | [] => []
  | entry :: rest =>
      if (3 <=? spec_relevance entry)
         && negb (bool_decide (spec_url entry ∈ represented))
      then entry :: spec_resources (represented ++ [spec_url entry]) rest
      else spec_resources represented rest
  end.

(** A record whose URL is a text, or that has none. *)
Definition text_url (entry : dict) : Prop :=
  dict_get "url" entry = None \/ exists u, dict_get "url" entry = Some (JStr u).

(** A visited entry as [log_url.py] records it: its URL is a text and its
    relevance an integer, or it has none. *)
Definition logged_entry (entry : dict) : Prop :=
  (exists u, dict_get "url" entry = Some (JStr u)) /\
  (dict_get "relevance" entry = None
   \/ exists z, dict_get "relevance" entry = Some (JInt z)).

(** One line of the memory section for a learning. *)
Definition learning_line (l : Learning) : string :=
  if py_truthy (url l)
  then "- **" +:+ str_title (type l) +:+ "**: [" +:+ fstr (name l) +:+ "]("
       +:+ fstr (url l) +:+ ") — " +:+ fstr (insight l) +:+ str1 newline
  else "- **" +:+ str_title (type l) +:+ "**: " +:+ fstr (name l)
       +:+ " — " +:+ fstr (insight l) +:+ str1 newline.

Definition memory_header : string :=
  str_join (str1 newline)
    [ "# Research Learnings"; EmptyString;
      "Auto-extracted from archived sessions."; EmptyString;
      "---"; EmptyString; EmptyString ].

Definition update_learnings_memory (fs : node) (session : json)
  (learnings : list Learning) (now : datetime) : res (node * nat) :=
  match learnings with
  | [] => Ok (fs, 0%nat)
  | _ :: _ =>
      let memory_file := get_agent_core_dir e ++ ["memory"; "learnings.md"] in
      fs <- mkdir_p fs (get_agent_core_dir e ++ ["memory"]) ;;
      fs <- (if negb (path_exists fs memory_file)
            then write_text fs memory_file memory_header
            else Ok fs) ;;
      topic <- py_item "topic" session ;;
      session_id <- py_item "session_id" session ;;
      let entry :=
        str1 newline +:+ "## " +:+ strftime_date now +:+ " — " +:+ fstr topic
        +:+ str1 newline
        +:+ "Session: `" +:+ fstr session_id +:+ "`" +:+ str1 newline
        +:+ str1 newline
        +:+ String.concat EmptyString (map learning_line learnings)
        +:+ str1 newline +:+ "---" +:+ str1 newline in
      fs <- append_text fs memory_file entry ;;
      Ok (fs, length learnings)
  end.

Definition index_header : string :=
  str_join (str1 newline)
    [ "# Session Index"; EmptyString;
      "| Date | Session ID | Topic | Workflow | Duration | URLs | Key Finding |";
      "|------|------------|-------|----------|----------|------|-------------|";
      EmptyString ].

(** The row [update_session_index] appends. *)
Definition index_row (session : json) (duration_min : json)
  (url_stats : UrlStats) (key_finding : json) (now : datetime) : res string :=
  let url_summary := pretty (used url_stats) +:+ "/" +:+ pretty (total url_stats) in
  key_finding <- truncate_key_finding key_finding ;;
  session_id <- py_item "session_id" session >>= py_slice_to 25 ;;
  topic <- py_item "topic" session >>= py_slice_to 20 ;;
  workflow <- py_item "workflow" session ;;
  duration <- num_Q duration_min ;;
  Ok ("| " +:+ strftime_date now +:+ " | " +:+ fstr session_id +:+ "... | "
      +:+ fstr topic +:+ " | " +:+ fstr workflow +:+ " | "
      +:+ format_fixed 0 duration +:+ "m | " +:+ url_summary +:+ " | "
      +:+ fstr key_finding +:+ " |" +:+ str1 newline).

Definition update_session_index (fs : node) (session : json)
  (duration_min : json) (url_stats : UrlStats) (key_finding : json)
  (now : datetime) : res node :=
  let index_file := get_agent_core_dir e ++ ["sessions"; "index.md"] in
  fs <- mkdir_p fs (get_agent_core_dir e ++ ["sessions"]) ;;
  fs <- (if negb (path_exists fs index_file)
        then write_text fs index_file index_header
        else Ok fs) ;;
  row <- index_row session duration_min url_stats key_finding now ;;
  append_text fs index_file row.

(** A line of the list of visited URLs in the report. *)
Definition visited_line (entry : json) : string :=
  match entry with
  | JDict d =>
      let url := dict_get_or "url" (JStr EmptyString) d in
      let source := dict_get_or "source" (JStr "web") d in
      let notes := dict_get_or "notes" (JStr EmptyString) d in
      "- [" +:+ fstr source +:+ "] " +:+ fstr url
      +:+ (if py_truthy notes then " — " +:+ fstr notes else EmptyString)
      +:+ str1 newline
  | _ => "- " +:+ fstr entry +:+ str1 newline
  end.

Definition generate_archive_report (session : json) (scratchpad : json)
  (url_stats : UrlStats) (duration_min : json) (now : datetime) : res string :=
  topic <- py_item "topic" session ;;
  session_id <- py_item "session_id" session ;;
  workflow <- py_item "workflow" session ;;
  environment <- py_item "environment" session ;;
  started <- py_item "started" session ;;
  duration <- num_Q duration_min ;;
  viral <- py_item "queries" session >>= py_item "viral" >>= py_item "github" ;;
  ground <-
    py_item "queries" session >>= py_item "groundbreaker" >>= py_item "github" ;;
  let head :=
    str_join (str1 newline)
      [ "# Session Archive: " +:+ fstr topic; EmptyString;
        "## Metadata"; EmptyString;
        "| Field | Value |";
        "|-------|-------|";
        "| Session ID | `" +:+ fstr session_id +:+ "` |";
        "| Workflow | " +:+ fstr workflow +:+ " |";
        "| Environment | " +:+ fstr environment +:+ " |";
        "| Started | " +:+ fstr started +:+ " |";
        "| Archived | " +:+ isoformat now +:+ " |";
        "| Duration | " +:+ format_fixed 1 duration +:+ " minutes |";
        EmptyString; "---"; EmptyString;
        "## URL Statistics"; EmptyString;
        "| Metric | Count |";
        "|--------|-------|";
        "| Total URLs visited | " +:+ pretty (total url_stats) +:+ " |";
        "| URLs used in output | " +:+ pretty (used url_stats) +:+ " |";
        "| URLs skipped | " +:+ pretty (skipped url_stats) +:+ " |";
        EmptyString; "---"; EmptyString;
        "## Search Queries Used"; EmptyString;
        "### Viral Filter";
        "```"; fstr viral; "```"; EmptyString;
        "### Groundbreaker Filter";
        "```"; fstr ground; "```"; EmptyString;
        "---"; EmptyString;
        "## Complete URL Log"; EmptyString;
        "### URLs Used"; EmptyString; EmptyString ] in
  urls_used <- py_get_or "urls_used" (JList []) scratchpad >>= py_iter ;;
  let report :=
    head +:+ String.concat EmptyString
               (map (fun url => "- " +:+ fstr url +:+ str1 newline) urls_used) in
  urls_used <- py_get "urls_used" scratchpad ;;
  let report :=
    if negb (py_truthy urls_used)
    then report +:+ "_No URLs marked as used_" +:+ str1 newline
    else report in
  let report :=
    report +:+ str1 newline +:+ "### All URLs Visited" +:+ str1 newline
    +:+ str1 newline in
  visited <- py_get_or "urls_visited" (JList []) scratchpad >>= py_iter ;;
  let report := report +:+ String.concat EmptyString (map visited_line visited) in
  visited <- py_get "urls_visited" scratchpad ;;
  let report :=
    if negb (py_truthy visited)
    then report +:+ "_No URLs logged_" +:+ str1 newline
    else report in
  Ok (report +:+
      str_join (str1 newline)
        [ EmptyString; EmptyString; "---"; EmptyString;
          "## To Continue This Research"; EmptyString;
          "```bash";
          "python3 init_session.py --continue " +:+ fstr session_id;
          "```"; EmptyString; "---"; EmptyString;
          "*Archived: " +:+ strftime_date_hm now +:+ "*"; EmptyString ]).

(** The body of the loop that mirrors the local tier into [global_dir]. *)
Definition copy_item (global_dir : path) (fs : node) (name : string)
  : res node :=
  let item := local_dir ++ [name] in
  if is_file fs item then copy2 fs item (global_dir ++ [name])
  else if is_dir fs item then
    let dest := global_dir ++ [name] in
    fs <- (if path_exists fs dest then rmtree fs dest else Ok fs) ;;
    copytree fs item dest
  else Ok fs.

(** The body of the loop that empties the local tier. *)
Definition remove_item (fs : node) (name : string) : res node :=
  let item := local_dir ++ [name] in
  if is_file fs item then unlink fs item
  else if is_dir fs item then rmtree fs item
  else Ok fs.

(** The last step of [archive_session]: empty the local tier and leave the
    breadcrumb. *)
Definition clean_local (fs : node) (session : json) : res node :=
  names <- iterdir fs local_dir ;;
  fs <- for_each remove_item names fs ;;
  session_id <- py_item "session_id" session ;;
  match session_id with
  | JStr sid => write_text fs (local_dir ++ [".last_session"]) sid
  | _ => Raise TypeError
  end.

(** [archive_session]: the file system it leaves and the value it returns;
    what it prints is left out. *)
Definition archive_session (fs : node) (clock : Clock)
  (extract_learnings_flag keep_local : bool) : res (node * bool) :=
  session <- get_current_session fs ;;
  if negb (py_truthy session) then Ok (fs, false)
  else
    session_id <- py_item "session_id" session ;;
    global_dir <-
      match session_id with
      | JStr sid => Ok (path_join (get_agent_core_dir e ++ ["sessions"]) sid)
      | _ => Raise TypeError
      end ;;
    fs <- mkdir_p fs global_dir ;;
    scratchpad <- parse_scratchpad fs session ;;
    url_stats <- count_urls scratchpad ;;
    let duration_min :=
      match py_item "started" session with
      | Ok (JStr started) =>
          match minutes_since (now_duration clock) started with
          | Some q => JFloat q
          | None => JInt 0
          end
      | _ => JInt 0
      end in
    fs <-
      (if extract_learnings_flag then
         learnings <- extract_learnings session scratchpad ;;
         r <- update_learnings_memory fs session learnings (now_memory clock) ;;
         Ok (fst r)
       else Ok fs) ;;
    key_finding <- key_finding scratchpad url_stats ;;
    session <- py_setitem "status" (JStr "archived") session ;;
    session <-
      py_setitem "archived_at" (JStr (isoformat (now_archived clock))) session ;;
    session <- py_setitem "duration_minutes" duration_min session ;;
    stats <- py_item "stats" session ;;
    stats <- py_setitem "urls_visited" (JInt (Z.of_nat (total url_stats))) stats ;;
    stats <- py_setitem "urls_used" (JInt (Z.of_nat (used url_stats))) stats ;;
    session <- py_setitem "stats" stats session ;;
    archive_report <-
      generate_archive_report session scratchpad url_stats duration_min
        (now_report clock) ;;
    fs <- write_text fs (local_dir ++ ["session_archive.md"]) archive_report ;;
    fs <- write_text fs (local_dir ++ ["session.json"]) (json_dumps session) ;;
    names <- iterdir fs local_dir ;;
    fs <- for_each (copy_item global_dir) names fs ;;
    fs <- update_session_index fs session duration_min url_stats key_finding
           (now_index clock) ;;
    fs <- (if negb keep_local then clean_local fs session else Ok fs) ;;
    Ok (fs, true).

End WithLibrary.

End ArchiveSession.

(** ** Sample data

    A session as [init_session.py] lays it out, for running the scripts
    with the sample library. *)

Module Examples.

Definition dir (entries : list (string * node)) : node :=
  Dir (list_to_map entries).

Definition env0 : env :=
  {| cwd := ["work"]; agent_core := ["home"; ".agent-core"] |}.

Definition sid0 : string := "agents-20260101-120000-abc123".

Definition session0 : json :=
  JDict
    [ ("session_id", JStr sid0);
      ("topic", JStr "agents");
      ("safe_topic", JStr "agents");
      ("workflow", JStr "research");
      ("environment", JStr "cli");
      ("started", JStr "2026-01-01T12:00:00");
      ("status", JStr "active");
      ("queries",
       JDict
         [ ("viral",
            JDict [ ("github", JStr "agents stars:>500 pushed:>2025-12-02");
                    ("description", JStr "High-adoption (>500 stars)") ]);
           ("groundbreaker",
            JDict [ ("github", JStr "agents stars:10..200 created:>2025-10-03");
                    ("arxiv", JStr "agents");
                    ("description", JStr "Novel (10-200 stars)") ]) ]);
      ("paths",
       JDict
         [ ("local", JStr "/work/.agent/research");
           ("global", JStr ("/home/.agent-core/sessions/" +:+ sid0));
           ("session_log", JStr "/work/.agent/research/session_log.md");
           ("scratchpad", JStr "/work/.agent/research/scratchpad.json");
           ("report", JStr "/work/.agent/research/agents_report.md");
           ("sources", JStr "/work/.agent/research/agents_sources.csv") ]);
      ("stats",
       JDict [ ("urls_visited", JInt 0); ("urls_used", JInt 0);
               ("checkpoints", JInt 0); ("last_sync", JNull) ]) ].

(** A scratchpad of an older layout: no [urls_skipped], no [findings]. *)
Definition scratchpad0 : dict :=
  [ ("session_id", JStr sid0);
    ("topic", JStr "agents");
    ("viral_candidates",
     JList [ JDict [ ("name", JStr "toolX"); ("url", JStr "https://x");
                     ("why", JStr "fast") ] ]);
    ("urls_visited",
     JList [ JDict [ ("url", JStr "https://a"); ("source", JStr "web");
                     ("name", JStr "a"); ("relevance", JInt 3);
                     ("notes", JStr "first") ];
             JDict [ ("url", JStr "https://b"); ("source", JStr "web");
                     ("name", JStr "b"); ("relevance", JInt 3);
                     ("notes", JStr "second") ];
             JDict [ ("url", JStr "https://a"); ("source", JStr "web");
                     ("name", JStr "a again"); ("relevance", JInt 3);
                     ("notes", JStr "third") ] ]);
    ("urls_used", JList [ JStr "https://a" ]) ].

Definition session_log0 : string :=
  str_join (str1 newline)
    [ "## URLs Visited"; EmptyString;
      "| Time | Source | URL | Used | Relevance | Notes |";
      "|------|--------|-----|------|-----------|-------|";
      EmptyString ].

Definition csv0 : string :=
  "name,url,type,filter,stars,date,relevance,used,notes" +:+ str1 newline.

(** The local tier with its three representations, a notes directory, and
    the global store with the session and a directory of drafts. *)
Definition local0 : node :=
  dir [ ("session.json", File (Sample.dumps session0));
        ("scratchpad.json", File (Sample.dumps (JDict scratchpad0)));
        ("session_log.md", File session_log0);
        ("agents_sources.csv", File csv0);
        ("notes", dir [ ("todo.txt", File "read more") ]) ].

Definition global0 : node :=
  dir [ ("sessions",
         dir [ (sid0,
                dir [ ("session.json", File (Sample.dumps session0));
                      ("scratchpad.json", File (Sample.dumps (JDict scratchpad0)));
                      ("drafts", dir [ ("v1.md", File "draft") ]) ]) ]) ].

Definition fs0 : node :=
  dir [ ("work", dir [ (".agent", dir [ ("research", local0) ]) ]);
        ("home", dir [ (".agent-core", global0) ]) ].

(** The same, with only the CSV export left in the local tier beside the
    session document. *)
Definition fs_csv_only : node :=
  dir [ ("work",
         dir [ (".agent",
                dir [ ("research",
                       dir [ ("session.json", File (Sample.dumps session0));
                             ("agents_sources.csv", File csv0) ]) ]) ]);
        ("home", dir [ (".agent-core", global0) ]) ].

(** The same as [fs0], with a session document that does not parse. *)
Definition fs_malformed : node :=
  dir [ ("work",
         dir [ (".agent",
                dir [ ("research", dir [ ("session.json", File "{") ]) ]) ]);
        ("home", dir [ (".agent-core", global0) ]) ].

(** A workspace in which nothing was started, beside the global store. *)
Definition fs_fresh : node :=
  dir [ ("work", dir []);
        ("home", dir [ (".agent-core", global0) ]) ].

Definition now0 : datetime :=
  {| isoformat := "2026-01-01T12:30:00.000000";
     strftime_date := "2026-01-01";
     strftime_hm := "12:30";
     strftime_date_hm := "2026-01-01 12:30";
     minutes_since := fun started =>
       if String.eqb started "2026-01-01T12:00:00" then Some (30 # 1)%Q
       else None |}.

Definition clock0 : ArchiveSession.Clock :=
  {| ArchiveSession.now_duration := now0;
     ArchiveSession.now_memory := now0;
     ArchiveSession.now_archived := now0;
     ArchiveSession.now_report := now0;
     ArchiveSession.now_index := now0 |}.

(** [log_url.py https://github.com/user/repo --used --relevance 3] *)
Definition args_used_only : LogUrl.Args :=
  {| LogUrl.args_url := "https://github.com/user/repo";
     LogUrl.args_source := None;
     LogUrl.args_name := None;
     LogUrl.args_used := true;
     LogUrl.args_skipped := false;
     LogUrl.args_relevance := 3;
     LogUrl.args_notes := None;
     LogUrl.args_filter := None;
     LogUrl.args_stars := None |}.

(** [log_url.py https://example.com/page --used --skipped] *)
Definition args_used_and_skipped : LogUrl.Args :=
  {| LogUrl.args_url := "https://example.com/page";
     LogUrl.args_source := None;
     LogUrl.args_name := None;
     LogUrl.args_used := true;
     LogUrl.args_skipped := true;
     LogUrl.args_relevance := 2;
     LogUrl.args_notes := None;
     LogUrl.args_filter := None;
     LogUrl.args_stars := None |}.

(** An entry for the cases in which none is built. *)
Definition no_entry : LogUrl.LogEntry :=
  {| LogUrl.url := EmptyString; LogUrl.source := EmptyString;
     LogUrl.name := EmptyString; LogUrl.timestamp := EmptyString;
     LogUrl.time := EmptyString; LogUrl.used := false;
     LogUrl.skipped := false; LogUrl.relevance := 0;
     LogUrl.relevance_stars := EmptyString; LogUrl.notes := EmptyString;
     LogUrl.filter := EmptyString; LogUrl.stars := None |}.

Definition built (r : res LogUrl.LogEntry) : LogUrl.LogEntry :=
  match r with
  | Ok entry => entry
  | Raise _ => no_entry
  end.

Definition entry0 : LogUrl.LogEntry :=
  built (LogUrl.build_entry (H := Sample.lib) args_used_only now0).

(** The file system an archive of [fs0] leaves. *)
Definition archived0 : node :=
  match ArchiveSession.archive_session (H := Sample.lib) env0 fs0 clock0 true false with
  | Ok (fs, _) => fs
  | Raise _ => fs0
  end.

(** The scratchpad [create_scratchpad] makes for [session0]. *)
Definition complete0 : dict :=
  match session0 with
  | JDict d =>
      match InitSession.create_scratchpad d with
      | Ok sp => sp
      | Raise _ => []
      end
  | _ => []
  end.

(** [fs_fresh] once the local tier is made. *)
Definition fresh_local : node :=
  match mkdir_p fs_fresh (InitSession.local_dir env0) with
  | Ok fs => fs
  | Raise _ => fs_fresh
  end.

(** The listing of the session in the global store. *)
Definition global_listing0 : gmap string node :=
  list_to_map
    [ ("session.json", File (Sample.dumps session0));
      ("scratchpad.json", File (Sample.dumps (JDict scratchpad0)));
      ("drafts", dir [ ("v1.md", File "draft") ]) ].

(** A scratchpad with a candidate of each kind and visited entries of
    relevance 3, 2, 3 again with the first URL, 3 with the URL of the
    tool, 5, and none. *)
Definition scratchpad_mixed : dict :=
  [ ("viral_candidates",
     JList [ JDict [ ("name", JStr "toolX"); ("url", JStr "https://x");
                     ("why", JStr "fast") ] ]);
    ("groundbreaker_candidates",
     JList [ JDict [ ("name", JStr "newY"); ("url", JStr "https://y");
                     ("novel", JStr "first of its kind") ] ]);
    ("arxiv_papers",
     JList [ JDict [ ("title", JStr "On Z"); ("url", JStr "https://z") ] ]);
    ("urls_visited",
     JList [ JDict [ ("url", JStr "https://a"); ("relevance", JInt 3) ];
             JDict [ ("url", JStr "https://b"); ("relevance", JInt 2) ];
             JDict [ ("url", JStr "https://a"); ("relevance", JInt 3);
                     ("notes", JStr "again") ];
             JDict [ ("url", JStr "https://x"); ("relevance", JInt 3) ];
             JDict [ ("url", JStr "https://c"); ("relevance", JInt 5) ];
             JDict [ ("url", JStr "https://d") ] ]) ].

(** A scratchpad whose first viral candidate has no name, with a used
    URL. *)
Definition nameless0 : dict :=
  [ ("viral_candidates", JList [ JDict [ ("url", JStr "https://x") ] ]);
    ("urls_visited",
     JList [ JDict [ ("url", JStr "https://a"); ("relevance", JInt 2) ] ]);
    ("urls_used", JList [ JStr "https://a" ]) ].

(** [log_url.py http://[::1], a URL that [urlparse] refuses *)
Definition args_refused : LogUrl.Args :=
  {| LogUrl.args_url := "http://[::1";
     LogUrl.args_source := None;
     LogUrl.args_name := None;
     LogUrl.args_used := true;
     LogUrl.args_skipped := false;
     LogUrl.args_relevance := 2;
     LogUrl.args_notes := None;
     LogUrl.args_filter := None;
     LogUrl.args_stars := None |}.

(** A finding of fifty characters. *)
Definition finding50 : string :=
  "0123456789012345678901234567890123456789abcdefghij".

End Examples.

(** ** Further definitions *)

(** What a path shows: the text of a file, or that it is a directory. *)
Definition view (n : node) (q : path) : option (option string) :=
  match fs_get n q with
  | Some (File c) => Some (Some c)
  | Some (Dir _) => Some None
  | None => None
  end.

(** A change of [fs_alter] that puts a file where there was no
    directory, as [write_text] and [append_text] do. *)
Definition file_writer (f : option node -> res (option node)) : Prop :=
  forall o r, f o = Ok r ->
    (exists s, r = Some (File s)) /\ (forall m, o <> Some (Dir m)).

(** A name a directory entry can have. *)
Definition proper_name (x : string) : Prop :=
  x <> EmptyString /\ x <> "." /\ str_in "/" x = false.

(** The choices [argparse] accepts for [--source], in [main] of
    [log_url.py]. *)
Definition source_choices : list string :=
  [ "github"; "arxiv"; "huggingface"; "blog"; "docs";
    "reddit"; "hackernews"; "twitter"; "youtube"; "web" ].

(** The head of the URL table in the narrative log: a separator line right
    under a line naming [Source], as [log_to_markdown] looks for it. *)
Definition table_head (header line : string) : Prop :=
  String.prefix "|---" line = true /\ str_in "Source" header = true.

(** The test of [escape]: the field holds a comma, a quote or a newline. *)
Definition special (s : string) : bool :=
  str_in "," s || str_in (str1 dquote) s || str_in (str1 newline) s.

(** The URL that a record of [urls_visited] holds. *)
Definition visited_url (item : json) : option json :=
  match item with
  | JDict d => dict_get "url" d
  | _ => None
  end.

(** The bookkeeping of a scratchpad is sound: its three URL sequences are
    lists, every URL marked used or skipped is the URL of a visited
    record, and no more URLs are marked than were visited. *)
Definition sound_urls (scratchpad : dict) : Prop :=
  exists visited used skipped,
    dict_get "urls_visited" scratchpad = Some (JList visited) /\
    dict_get "urls_used" scratchpad = Some (JList used) /\
    dict_get "urls_skipped" scratchpad = Some (JList skipped) /\
    (forall u, In u (used ++ skipped) ->
       exists item, In item visited /\ visited_url item = Some u) /\
    (length used + length skipped <= length visited)%nat.

(** The URLs of the entries that were used, and of those skipped without
    being used, in the order of the entries. *)
Definition used_urls (entries : list LogUrl.LogEntry) : list json :=
  map (fun entry => JStr (LogUrl.url entry)) (List.filter LogUrl.used entries).

Definition skipped_urls (entries : list LogUrl.LogEntry) : list json :=
  map (fun entry => JStr (LogUrl.url entry))
    (List.filter
       (fun entry => negb (LogUrl.used entry) && LogUrl.skipped entry)
       entries).

(** The characters of a string. *)
Definition chars (s : string) : list ascii := list_ascii_of_string s.

(** ** init_session.py: starting and listing sessions *)

(** What [init_session.py] asks of the Python library and of the
    operating system beside [PyLib]. *)
Class HostLib : Type := {
  (** [c.isalnum()] *)
  isalnum : ascii -> bool;
  (** [hashlib.md5(s.encode()).hexdigest()] *)
  md5_hexdigest : string -> string;
  (** [sorted(names, key=st_mtime, reverse=True)] for the entries [names]
      of a directory *)
  newest_first : node -> path -> list string -> list string
}.

(** The readings of the clock in one run of [init_session], in the order
    it takes them. *)
Record InitClock : Type := {
  (** [datetime.now().strftime("%Y%m%d-%H%M%S")] in [generate_session_id] *)
  id_stamp : string;
  (** [(today - timedelta(days=d)).strftime("%Y-%m-%d")] in
      [create_search_queries], raising as the library does when the date
      is out of range *)
  cutoff : Q -> res string;
  (** [datetime.now()] in [init_session] *)
  started_now : datetime
}.

Module NewSession.

Section WithLibrary.
Context `{PyLib} `{HostLib}.
Variable e : env.

(** [os.environ.get] is [environ]. *)
Definition detect_environment (environ : string -> option string) : string :=
  let set k := match environ k with
               | Some v => negb (String.eqb v EmptyString)
               | None => false
               end in
  if set "VSCODE_PID"
     || match environ "TERM_PROGRAM" with
        | Some v => String.eqb v "vscode"
        | None => false
        end
  then "antigravity"
  else if set "CLAUDE_WEB_SESSION" then "web"
  else "cli".

Definition default_config : json :=
  JDict [ ("defaults", JDict [ ("auto_accept", JBool true) ]);
          ("research", JDict []) ].

Definition load_config (fs : node) : res json :=
  let config_path := get_agent_core_dir e ++ ["config.json"] in
  if path_exists fs config_path
  then text <- read_text fs config_path ;;
       match json_loads text with
       | Some config => Ok config
       | None => Ok default_config
       end
  else Ok default_config.

(** [c if c.isalnum() or c == "-" else "-"], over the characters *)
Fixpoint dashed (s : string) : string :=
  match s with
  | EmptyString => EmptyString
  | String c s' =>
      String (if isalnum c || Ascii.eqb c "-" then c else "-"%char) (dashed s')
  end.

(** The safe form of a topic, cut to [n] characters. *)
Definition safe_topic (n : nat) (topic : string) : string :=
  str_strip "-" (str_take n (dashed (str_lower topic))).

Definition generate_session_id (clock : InitClock) (topic : string) : string :=
  let timestamp := id_stamp clock in
  let topic_hash := str_take 6 (md5_hexdigest topic) in
  safe_topic 20 topic +:+ "-" +:+ timestamp +:+ "-" +:+ topic_hash.

Definition fstr (j : json) : string := py_str py_repr j.

Definition default_viral : json :=
  JDict [ ("min_stars", JInt 500); ("recency_days", JInt 30) ].

Definition default_ground : json :=
  JDict [ ("min_stars", JInt 10); ("max_stars", JInt 200);
          ("recency_days", JInt 90) ].

Definition create_search_queries (clock : InitClock) (topic : string)
  (config : json) : res json :=
  research <- py_get_or "research" (JDict []) config ;;
  viral <- py_get_or "viral_filter" default_viral research ;;
  ground <- py_get_or "groundbreaker_filter" default_ground research ;;
  viral_cutoff <-
    (py_get_or "recency_days" (JInt 30) viral >>= num_Q >>= cutoff clock) ;;
  ground_cutoff <-
    (py_get_or "recency_days" (JInt 90) ground >>= num_Q >>= cutoff clock) ;;
  viral_min <- py_get_or "min_stars" (JInt 500) viral ;;
  ground_min <- py_get_or "min_stars" (JInt 10) ground ;;
  ground_max <- py_get_or "max_stars" (JInt 200) ground ;;
  Ok (JDict
        [ ("viral",
           JDict
             [ ("github",
                JStr (topic +:+ " stars:>" +:+ fstr viral_min +:+ " pushed:>"
                      +:+ viral_cutoff));
               ("description",
                JStr ("High-adoption (>" +:+ fstr viral_min +:+ " stars)")) ]);
          ("groundbreaker",
           JDict
             [ ("github",
                JStr (topic +:+ " stars:" +:+ fstr ground_min +:+ ".."
                      +:+ fstr ground_max +:+ " created:>" +:+ ground_cutoff));
               ("arxiv", JStr topic);
               ("description",
                JStr ("Novel (" +:+ fstr ground_min +:+ "-" +:+ fstr ground_max
                      +:+ " stars)")) ]) ]).

Definition create_session_log (session : json) : res string :=
  topic <- py_item "topic" session ;;
  session_id <- py_item "session_id" session ;;
  workflow <- py_item "workflow" session ;;
  environment <- py_item "environment" session ;;
  started <- py_item "started" session ;;
  status <- py_item "status" session ;;
  viral <- py_item "queries" session >>= py_item "viral" ;;
  viral_github <- py_item "github" viral ;;
  viral_description <- py_item "description" viral ;;
  ground <- py_item "queries" session >>= py_item "groundbreaker" ;;
  ground_github <- py_item "github" ground ;;
  ground_description <- py_item "description" ground ;;
  Ok (str_join (str1 newline)
        [ "# Research Session: " +:+ fstr topic; EmptyString;
          "**Session ID:** `" +:+ fstr session_id +:+ "`";
          "**Workflow:** " +:+ fstr workflow;
          "**Environment:** " +:+ fstr environment;
          "**Started:** " +:+ fstr started;
          "**Status:** " +:+ fstr status;
          EmptyString; "---"; EmptyString;
          "## Search Queries"; EmptyString;
          "### Viral Filter (High Adoption)";
          "```"; fstr viral_github; "```"; fstr viral_description;
          EmptyString;
          "### Groundbreaker Filter (Novel/Emerging)";
          "```"; fstr ground_github; "```"; fstr ground_description;
          EmptyString; "---"; EmptyString;
          "## URLs Visited"; EmptyString;
          "> Log ALL URLs here - even if not used in final output";
          EmptyString;
          "| Time | Source | URL | Used | Relevance | Notes |";
          "|------|--------|-----|------|-----------|-------|";
          EmptyString; "---"; EmptyString;
          "## Key Findings"; EmptyString;
          "### Viral Candidates"; EmptyString;
          "_High-adoption frameworks..._"; EmptyString;
          "### Groundbreaker Candidates"; EmptyString;
          "_Novel/emerging frameworks..._"; EmptyString;
          "### arXiv Papers"; EmptyString;
          "_Recent research..._"; EmptyString;
          "---"; EmptyString;
          "## Checkpoints"; EmptyString;
          "| Time | URLs Visited | Findings | Notes |";
          "|------|--------------|----------|-------|";
          EmptyString; "---"; EmptyString;
          "## Session Notes"; EmptyString;
          "_Free-form notes during research..._"; EmptyString;
          EmptyString ]).

Definition csv_header : string :=
  "name,url,type,filter,stars,date,relevance,used,notes" +:+ str1 newline.

Definition local_dir : path := get_local_agent_dir e ++ ["research"].

(** The dict [session] that [init_session] builds. *)
Definition new_session (session_id topic safe workflow environment : string)
  (timestamp : string) (queries : json) (global_dir : path) : dict :=
  [ ("session_id", JStr session_id);
    ("topic", JStr topic);
    ("safe_topic", JStr safe);
    ("workflow", JStr workflow);
    ("environment", JStr environment);
    ("started", JStr timestamp);
    ("status", JStr "active");
    ("queries", queries);
    ("paths",
     JDict
       [ ("local", JStr (path_str local_dir));
         ("global", JStr (path_str global_dir));
         ("session_log", JStr (path_str (local_dir ++ ["session_log.md"])));
         ("scratchpad", JStr (path_str (local_dir ++ ["scratchpad.json"])));
         ("report", JStr (path_str (local_dir ++ [safe +:+ "_report.md"])));
         ("sources", JStr (path_str (local_dir ++ [safe +:+ "_sources.csv"]))) ]);
    ("stats",
     JDict [ ("urls_visited", JInt 0); ("urls_used", JInt 0);
             ("checkpoints", JInt 0); ("last_sync", JNull) ]) ].

Definition global_dir (clock : InitClock) (topic : string) : path :=
  path_join (get_agent_core_dir e ++ ["sessions"])
    (generate_session_id clock topic).

Definition init_session (fs : node) (clock : InitClock)
  (environ : string -> option string)
  (topic workflow : string) (env_arg : option string) : res (node * json) :=
  config <- load_config fs ;;
  let environment := str_or env_arg (detect_environment environ) in
  let session_id := generate_session_id clock topic in
  let timestamp := isoformat (started_now clock) in
  let safe := safe_topic 30 topic in
  fs <- mkdir_p fs local_dir ;;
  fs <- mkdir_p fs (global_dir clock topic) ;;
  queries <- create_search_queries clock topic config ;;
  let session :=
    new_session session_id topic safe workflow environment timestamp queries
      (global_dir clock topic) in
  log_path <- session_path e (JDict session) "session_log" ;;
  log <- create_session_log (JDict session) ;;
  fs <- write_text fs log_path log ;;
  scratchpad <- InitSession.create_scratchpad session ;;
  scratchpad_path <- session_path e (JDict session) "scratchpad" ;;
  fs <- write_text fs scratchpad_path (json_dumps (JDict scratchpad)) ;;
  sources_path <- session_path e (JDict session) "sources" ;;
  fs <- write_text fs sources_path csv_header ;;
  fs <- write_text fs (local_dir ++ ["session.json"])
          (json_dumps (JDict session)) ;;
  fs <- write_text fs (global_dir clock topic ++ ["session.json"])
          (json_dumps (JDict session)) ;;
  Ok (fs, JDict session).

(** The entry [list_sessions] gives for the metadata [meta] of the
    directory [name]. *)
Definition session_summary (meta : json) (name : string) : res json :=
  id <- py_get_or "session_id" (JStr name) meta ;;
  topic <- py_get_or "topic" (JStr "Unknown") meta ;;
  workflow <- py_get_or "workflow" (JStr "research") meta ;;
  status <- py_get_or "status" (JStr "unknown") meta ;;
  started <- py_get_or "started" (JStr EmptyString) meta ;;
  Ok (JDict [ ("id", id); ("topic", topic); ("workflow", workflow);
              ("status", status); ("started", started) ]).

(** The loop of [list_sessions] over the directories left to look at. *)
Fixpoint list_loop (fs : node) (limit : Z) (names : list string)
  (sessions : list json) : res (list json) :=
  match names with
  | [] => Ok sessions
  | name :: rest =>
      let d := get_agent_core_dir e ++ ["sessions"; name] in
      sessions <-
        (if is_dir fs d && path_exists fs (d ++ ["session.json"])
         then text <- read_text fs (d ++ ["session.json"]) ;;
              match json_loads text with
              | Some meta =>
                  entry <- session_summary meta name ;;
                  Ok (sessions ++ [entry])
              | None => Ok sessions
              end
         else Ok sessions) ;;
      if (limit <=? Z.of_nat (length sessions))%Z then Ok sessions
      else list_loop fs limit rest sessions
  end.

Definition list_sessions (fs : node) (limit : Z) : res (list json) :=
  let sessions_dir := get_agent_core_dir e ++ ["sessions"] in
  if negb (path_exists fs sessions_dir) then Ok []
  else
    names <- iterdir fs sessions_dir ;;
    list_loop fs limit (newest_first fs sessions_dir names) [].

End WithLibrary.

End NewSession.

(** ** sync_environments.py: pushing the local tier *)

Module SyncEnvironments.

Section WithLibrary.
Context `{PyLib}.
Variable e : env.

Definition local_dir : path := get_local_agent_dir e ++ ["research"].

Definition get_current_session (fs : node) : res json :=
  let session_file := local_dir ++ ["session.json"] in
  if path_exists fs session_file
  then text <- read_text fs session_file ;;
       match json_loads text with
       | Some session => Ok session
       | None => Ok JNull
       end
  else Ok JNull.

(** [push_session]: the file system it leaves and the value it returns;
    what it prints is left out.  The loop that copies the local tier has
    the statements of the one in [archive_session]. *)
Definition push_session (fs : node) (now : datetime)
  (environ : string -> option string) : res (node * bool) :=
  session <- get_current_session fs ;;
  if negb (py_truthy session) then Ok (fs, false)
  else
    session_id <- py_item "session_id" session ;;
    global_dir <-
      match session_id with
      | JStr sid => Ok (path_join (get_agent_core_dir e ++ ["sessions"]) sid)
      | _ => Raise TypeError
      end ;;
    fs <- mkdir_p fs global_dir ;;
    names <- iterdir fs local_dir ;;
    fs <- for_each (ArchiveSession.copy_item e global_dir) names fs ;;
    stats <- py_item "stats" session ;;
    stats <- py_setitem "last_sync" (JStr (isoformat now)) stats ;;
    stats <- py_setitem "sync_direction" (JStr "push") stats ;;
    stats <-
      py_setitem "sync_env" (JStr (NewSession.detect_environment environ))
        stats ;;
    session <- py_setitem "stats" stats session ;;
    fs <- write_text fs (local_dir ++ ["session.json"]) (json_dumps session) ;;
    fs <- write_text fs (global_dir ++ ["session.json"]) (json_dumps session) ;;
    Ok (fs, true).

End WithLibrary.

End SyncEnvironments.

(** ** Further sample data *)

Module Host.

(** The letters and digits of ASCII. *)
Definition alnum (c : ascii) : bool :=
  let n := nat_of_ascii c in
  ((48 <=? n) && (n <=? 57) || (65 <=? n) && (n <=? 90)
   || (97 <=? n) && (n <=? 122))%nat.

(** A host whose digest is a fixed text and whose listing is taken to be
    newest first already. *)
Definition lib : HostLib :=
  {| isalnum := alnum;
     md5_hexdigest := fun _ => "0f1e2d3c4b5a69788796a5b4c3d2e1f0";
     newest_first := fun _ _ names => names |}.

End Host.

Module FurtherExamples.
Import Examples.

(** [fs0] with a narrative log that has no URL table. *)
Definition fs_plain_log : node :=
  dir [ ("work",
         dir [ (".agent",
                dir [ ("research",
                       dir [ ("session.json", File (Sample.dumps session0));
                             ("session_log.md",
                              File ("# Notes" +:+ str1 newline +:+ "no table")) ]) ]) ]);
        ("home", dir [ (".agent-core", global0) ]) ].

(** The same log with lines that end in a carriage return and a line
    feed. *)
Definition fs_crlf_log : node :=
  dir [ ("work",
         dir [ (".agent",
                dir [ ("research",
                       dir [ ("session.json", File (Sample.dumps session0));
                             ("session_log.md",
                              File ("# Notes" +:+ str1 carriage_return
                                    +:+ str1 newline +:+ "no table")) ]) ]) ]);
        ("home", dir [ (".agent-core", global0) ]) ].

(** [fs0] with a scratchpad that holds an opening brace only. *)
Definition fs_bad_scratchpad : node :=
  dir [ ("work",
         dir [ (".agent",
                dir [ ("research",
                       dir [ ("session.json", File (Sample.dumps session0));
                             ("scratchpad.json", File "{") ]) ]) ]);
        ("home", dir [ (".agent-core", global0) ]) ].

(** [log_url.py https://example.com/old --skipped --notes gone] *)
Definition args_skipped_only : LogUrl.Args :=
  {| LogUrl.args_url := "https://example.com/old";
     LogUrl.args_source := None;
     LogUrl.args_name := None;
     LogUrl.args_used := false;
     LogUrl.args_skipped := true;
     LogUrl.args_relevance := 1;
     LogUrl.args_notes := Some "gone";
     LogUrl.args_filter := None;
     LogUrl.args_stars := None |}.

Definition entry1 : LogUrl.LogEntry :=
  built (LogUrl.build_entry (H := Sample.lib) args_skipped_only now0).

(** The scratchpad of a new session after the two events. *)
Definition replayed0 : dict :=
  match for_each LogUrl.apply_log_event [entry0; entry1] complete0 with
  | Ok sp => sp
  | Raise _ => []
  end.

(** What a run of [main] on [fs0] leaves. *)
Definition logged0 : node :=
  match LogUrl.main (H := Sample.lib) env0 fs0 args_used_only now0 with
  | Ok (fs, _, _) => fs
  | Raise _ => fs0
  end.

Definition clock1 : InitClock :=
  {| id_stamp := "20260101-120000";
     cutoff := fun days =>
       if Qeq_bool days 30 then Ok "2025-12-02" else Ok "2025-10-03";
     started_now := now0 |}.

Definition environ0 (k : string) : option string :=
  if String.eqb k "TERM_PROGRAM" then Some "xterm" else None.

(** What [init_session.py "AI Agents!"] leaves in a fresh workspace, and
    the session it returns. *)
Definition init_result0 : node * json :=
  match NewSession.init_session (H := Sample.lib) (H0 := Host.lib) env0 fs_fresh
          clock1 environ0 "AI Agents!" "research" None with
  | Ok r => r
  | Raise _ => (fs_fresh, JNull)
  end.

(** A scratchpad with two visited records of high relevance that hold no
    URL. *)
Definition scratchpad_no_url : dict :=
  [ ("urls_visited",
     JList [ JDict [ ("name", JStr "talk"); ("relevance", JInt 3) ];
             JDict [ ("name", JStr "chat"); ("relevance", JInt 3) ] ]) ].

Definition stats0 : ArchiveSession.UrlStats :=
  {| ArchiveSession.total := 3; ArchiveSession.used := 1;
     ArchiveSession.skipped := 0 |}.

(** [fs0] after the index took the row of [session0]. *)
Definition indexed0 : node :=
  match ArchiveSession.update_session_index (H := Sample.lib) env0 fs0 session0
          (JInt 30) stats0 (JStr "toolX") now0 with
  | Ok fs => fs
  | Raise _ => fs0
  end.

Definition learnings0 : list ArchiveSession.Learning :=
  [ {| ArchiveSession.type := "tool";
       ArchiveSession.name := JStr "toolX";
       ArchiveSession.url := JStr "https://x";
       ArchiveSession.insight := JStr "High-adoption: fast" |} ].

(** [fs0] after the memory took the learnings of [session0]. *)
Definition remembered0 : node :=
  match ArchiveSession.update_learnings_memory (H := Sample.lib) env0 fs0
          session0 learnings0 now0 with
  | Ok (fs, _) => fs
  | Raise _ => fs0
  end.

End FurtherExamples.


(** * Properties *)

(** ** Results *)

Lemma bind_ok {A B} (m : res A) (f : A -> res B) (b : B) :
  bind m f = Ok b -> exists a, m = Ok a /\ f a = Ok b.
Proof. destruct m as [a|x]; simpl; intros Hb; [eauto | discriminate]. Qed.

Ltac bind_inv H :=
  let a := fresh "a" in
  let Ha := fresh "Ha" in
  apply bind_ok in H; destruct H as (a & Ha & H).

(** ** Dicts *)

Lemma dict_get_set_eq k v d : dict_get k (dict_set k v d) = Some v.
Proof.
  induction d as [|[k' v'] d IH]; simpl.
  - by rewrite String.eqb_refl.
  - destruct (String.eqb k k') eqn:E; simpl; rewrite E; [done | exact IH].
Qed.

Lemma dict_get_set_ne k k' v d :
  k <> k' -> dict_get k' (dict_set k v d) = dict_get k' d.
Proof.
  intros Hne. induction d as [|[k0 v0] d IH]; simpl.
  - destruct (String.eqb k' k) eqn:E; [|done].
    apply String.eqb_eq in E. congruence.
  - destruct (String.eqb k k0) eqn:E; simpl.
    + apply String.eqb_eq in E. subst k0.
      destruct (String.eqb k' k) eqn:E'; [|done].
      apply String.eqb_eq in E'. congruence.
    + by rewrite IH.
Qed.

Lemma dict_get_set k k' v d :
  dict_get k' (dict_set k v d) = if String.eqb k k' then Some v else dict_get k' d.
Proof.
  destruct (String.eqb k k') eqn:E.
  - apply String.eqb_eq in E. subst. apply dict_get_set_eq.
  - apply String.eqb_neq in E. by apply dict_get_set_ne.
Qed.

Lemma dict_has_true k d : dict_has k d = true <-> exists v, dict_get k d = Some v.
Proof.
  unfold dict_has. destruct (dict_get k d); split; eauto; try done.
  intros [v Hv]. discriminate.
Qed.

(** Setting a key to the value it has leaves the dict as it is. *)
Lemma dict_set_id k v d : dict_get k d = Some v -> dict_set k v d = d.
Proof.
  induction d as [|[k' v'] d IH]; simpl; [done|].
  destruct (String.eqb k k') eqn:E.
  - intros [= ->]. done.
  - intros Hd. by rewrite IH.
Qed.

(** ** Schema defaulting *)

Section Defaulting.
Import LogUrl.

(** A table of defaults fills what is missing and nothing else. *)
Lemma fold_defaults_get (table : dict) k : forall sp,
  dict_get k (fold_left default_step table sp) =
  match dict_get k sp with
  | Some v => Some v
  | None => dict_get k table
  end.
Proof.
  induction table as [|[key dflt] table IH]; intros sp; simpl.
  - by destruct (dict_get k sp).
  - rewrite IH. unfold dict_has.
    destruct (dict_get key sp) as [v|] eqn:Hkey; simpl.
    + destruct (dict_get k sp) eqn:Hk; [done|].
      destruct (String.eqb k key) eqn:E; [|done].
      apply String.eqb_eq in E. congruence.
    + rewrite dict_get_set. rewrite String.eqb_sym.
      destruct (String.eqb k key) eqn:E.
      * apply String.eqb_eq in E. subst. by rewrite Hkey.
      * by destruct (dict_get k sp).
Qed.

(** A scratchpad that has every key of the table is returned as it is. *)
Lemma fold_defaults_complete (table : dict) : forall sp,
  (forall k, In k (map fst table) -> dict_has k sp = true) ->
  fold_left default_step table sp = sp.
Proof.
  induction table as [|[key dflt] table IH]; intros sp Hall; simpl; [done|].
  rewrite (Hall key); [|by left]. simpl.
  apply IH. intros k Hk. apply Hall. by right.
Qed.

Lemma default_keys_defined k :
  In k (map fst defaults) -> In k InitSession.scratchpad_keys.
Proof. simpl. intuition (subst; simpl; tauto). Qed.

Lemma ensure_has_defaults sp k :
  In k (map fst defaults) -> dict_has k (ensure_scratchpad_keys sp) = true.
Proof.
  intros Hk. apply dict_has_true. unfold ensure_scratchpad_keys.
  rewrite fold_defaults_get.
  destruct (dict_get k sp); [eauto|].
  simpl in Hk. simpl.
  repeat (destruct Hk as [<-|Hk]; [simpl; eauto|]). done.
Qed.

End Defaulting.

Lemma ensure_scratchpad_keys_lookup_aux (scratchpad : dict) (k : string) :
  dict_get k (LogUrl.ensure_scratchpad_keys scratchpad) =
  match dict_get k scratchpad with
  | Some v => Some v
  | None => dict_get k LogUrl.defaults
  end.
Proof. apply fold_defaults_get. Qed.

(** C4, as amended.  Loading a scratchpad through [ensure_scratchpad_keys]
    gives a record in which each of the eight sequence keys of [defaults]
    is present: a key the document has keeps its value, a sequence key it
    lacks is the empty list, and no other key is added, so that
    [last_checkpoint] and [last_updated] stay absent when the document
    lacks them. *)
Theorem ensure_scratchpad_keys_lookup (scratchpad : dict) (k : string) :
  dict_get k (LogUrl.ensure_scratchpad_keys scratchpad) =
  match dict_get k scratchpad with
  | Some v => Some v
  | None => if bool_decide (In k (map fst LogUrl.defaults))
            then Some (JList []) else None
  end.
Proof.
  unfold LogUrl.ensure_scratchpad_keys. rewrite fold_defaults_get.
  destruct (dict_get k scratchpad); [done|].
  case_bool_decide as Hk.
  - simpl in Hk. repeat (destruct Hk as [<-|Hk]; [done|]). done.
  - destruct (dict_get k LogUrl.defaults) eqn:Hd; [|done].
    exfalso. apply Hk. simpl in Hd. simpl.
    repeat match type of Hd with
           | (if String.eqb k ?key then _ else _) = _ =>
               destruct (String.eqb_spec k key); [subst; tauto|]
           end.
    discriminate.
Qed.

(** C4, as stated, fails: a document without [last_checkpoint] is loaded
    without it, although [create_scratchpad] defines the key. *)
Lemma ensure_scratchpad_keys_misses_last_checkpoint :
  ~ (forall k, In k InitSession.scratchpad_keys ->
       dict_has k (LogUrl.ensure_scratchpad_keys [("topic", JStr "agents")])
       = true).
Proof.
  intros Hall. specialize (Hall "last_checkpoint").
  assert (In "last_checkpoint" InitSession.scratchpad_keys) as Hin
    by (simpl; tauto).
  specialize (Hall Hin). vm_compute in Hall. discriminate.
Qed.

(** C8.  Schema defaulting is idempotent: a scratchpad that has every
    defined key is returned unchanged, and defaulting twice is defaulting
    once. *)
Theorem ensure_scratchpad_keys_idempotent (scratchpad : dict) :
  (forallb (fun k => dict_has k scratchpad) InitSession.scratchpad_keys = true ->
   LogUrl.ensure_scratchpad_keys scratchpad = scratchpad)
  /\ LogUrl.ensure_scratchpad_keys (LogUrl.ensure_scratchpad_keys scratchpad)
     = LogUrl.ensure_scratchpad_keys scratchpad.
Proof.
  split.
  - intros Hall. apply fold_defaults_complete. intros k Hk.
    rewrite forallb_forall in Hall. apply Hall.
    by apply default_keys_defined.
  - apply fold_defaults_complete. intros k Hk.
    by apply ensure_has_defaults.
Qed.

(** ** The file system *)

Lemma fs_get_app n p q :
  fs_get n (p ++ q) = match fs_get n p with
                      | Some c => fs_get c q
                      | None => None
                      end.
Proof.
  revert n. induction p as [|x p IH]; intros n; simpl; [done|].
  destruct n as [c|m]; [done|]. destruct (m !! x); [apply IH | done].
Qed.

Lemma fs_get_cons m x p :
  fs_get (Dir m) (x :: p) = match m !! x with
                            | Some c => fs_get c p
                            | None => None
                            end.
Proof. reflexivity. Qed.

Lemma fs_get_file_nil c q : fs_get (File c) q <> None -> q = [].
Proof. destruct q; simpl; [done | congruence]. Qed.

(** An entry that is there can be replaced. *)
Lemma fs_alter_existing f p : forall n c c',
  fs_get n p = Some c -> f (Some c) = Ok (Some c') ->
  exists n', fs_alter f n p = Ok n' /\ fs_get n' p = Some c'.
Proof.
  induction p as [|x p IH]; intros n c c' Hget Hf.
  - simpl in *. injection Hget as ->. rewrite Hf. simpl. eauto.
  - destruct n as [?|m]; [done|]. rewrite fs_get_cons in Hget.
    destruct (m !! x) as [d|] eqn:Hx; [|done].
    destruct p as [|y p].
    + simpl in Hget. injection Hget as ->. simpl. rewrite Hx, Hf. simpl.
      eexists; split; [done|]. simpl. by rewrite lookup_insert_eq.
    + destruct (IH d c c' Hget Hf) as (d' & Hd' & Hgd').
      exists (Dir (<[x:=d']> m)). split.
      * change (fs_alter f (Dir m) (x :: y :: p))
          with (match m !! x with
                | None => Raise FileNotFoundError
                | Some c => c' <- fs_alter f c (y :: p) ;;
                            Ok (Dir (<[x := c']> m))
                end).
        by rewrite Hx, Hd'.
      * by rewrite fs_get_cons, lookup_insert_eq.
Qed.

(** What a change at [p ++ [x]] does to the listing of [p]. *)
Lemma fs_alter_parent f x p : forall n n' m,
  fs_alter f n (p ++ [x]) = Ok n' -> fs_get n p = Some (Dir m) ->
  exists o, f (m !! x) = Ok o /\
    fs_get n' p = Some (Dir (match o with
                             | Some c => <[x := c]> m
                             | None => delete x m
                             end)).
Proof.
  induction p as [|y p IH]; intros n n' m Halt Hget.
  - simpl in Hget. injection Hget as ->. simpl in Halt.
    destruct (f (m !! x)) as [o|]; simpl in Halt; [|done].
    injection Halt as <-. eauto.
  - simpl in Hget. destruct n as [?|m0]; [done|].
    destruct (m0 !! y) as [d|] eqn:Hy; [|done].
    change (fs_alter f (Dir m0) ((y :: p) ++ [x]))
      with (match p ++ [x] with
            | [] => o <- f (m0 !! y) ;;
                    Ok (Dir (match o with
                             | Some c => <[y := c]> m0
                             | None => delete y m0
                             end))
            | _ :: _ =>
                match m0 !! y with
                | None => Raise FileNotFoundError
                | Some c => c' <- fs_alter f c (p ++ [x]) ;;
                            Ok (Dir (<[y := c']> m0))
                end
            end) in Halt.
    destruct (p ++ [x]) as [|z r] eqn:Hpx; [by destruct p|].
    rewrite Hy in Halt. bind_inv Halt. injection Halt as <-.
    destruct (IH d a m Ha Hget) as (o & Hf & Hres).
    exists o. split; [done|]. simpl. by rewrite lookup_insert_eq.
Qed.

Lemma diverge_app_l p q r : diverge p q -> diverge (p ++ r) q.
Proof.
  intros (c & x & y & p' & q' & -> & -> & Hne).
  exists c, x, y, (p' ++ r), q'. rewrite <- app_assoc. done.
Qed.

Lemma fs_get_empty_dir q : q <> [] -> fs_get (Dir ∅) q = None.
Proof. destruct q; [done|]. intros _. simpl. by rewrite lookup_empty. Qed.

(** A change at [p] is not seen from a path that diverges from [p]. *)
Lemma fs_alter_frame f p q : diverge p q -> forall n n',
  fs_alter f n p = Ok n' -> fs_get n' q = fs_get n q.
Proof.
  intros (c & x & y & p' & q' & -> & -> & Hne).
  induction c as [|z c IH]; intros n n' Halt.
  - simpl in *. destruct n as [?|m]; [done|].
    destruct p' as [|w p'].
    + bind_inv Halt. injection Halt as <-. simpl.
      destruct a; [by rewrite lookup_insert_ne | by rewrite lookup_delete_ne].
    + destruct (m !! x); [|done]. bind_inv Halt. injection Halt as <-.
      simpl. by rewrite lookup_insert_ne.
  - change (fs_alter f n ((z :: c) ++ x :: p'))
      with (fs_alter f n (z :: (c ++ x :: p'))) in Halt.
    simpl in Halt. destruct n as [?|m]; [done|].
    destruct (c ++ x :: p') as [|w r] eqn:Hr; [by destruct c|].
    destruct (m !! z) as [d|] eqn:Hz; [|done].
    bind_inv Halt. injection Halt as <-.
    simpl. rewrite lookup_insert_eq, Hz. by apply IH.
Qed.

Lemma mkdir_p_frame p q : diverge p q -> forall n n',
  mkdir_p n p = Ok n' -> fs_get n' q = fs_get n q.
Proof.
  intros (c & x & y & p' & q' & -> & -> & Hne).
  induction c as [|z c IH]; intros n n' Hmk.
  - simpl in *. destruct n as [?|m]; [done|].
    bind_inv Hmk. injection Hmk as <-. simpl. by rewrite lookup_insert_ne.
  - simpl in Hmk. destruct n as [?|m]; [done|].
    bind_inv Hmk. injection Hmk as <-. simpl. rewrite lookup_insert_eq.
    rewrite (IH _ _ Ha). destruct (m !! z); [done|].
    apply fs_get_empty_dir. by destruct c.
Qed.

(** [mkdir_p] leaves a directory that is there as it is, and makes an
    empty one otherwise. *)
Lemma mkdir_p_get p : forall n n',
  mkdir_p n p = Ok n' ->
  fs_get n' p = Some (Dir (match fs_get n p with
                           | Some (Dir m) => m
                           | _ => ∅
                           end)).
Proof.
  induction p as [|x p IH]; intros n n' Hmk.
  - simpl in *. destruct n; [done|]. by injection Hmk as <-.
  - simpl in Hmk. destruct n as [?|m]; [done|].
    bind_inv Hmk. injection Hmk as <-. simpl. rewrite lookup_insert_eq.
    rewrite (IH _ _ Ha). destruct (m !! x); [done|].
    destruct p; simpl; [done|]. by rewrite lookup_empty.
Qed.

(** Giving a file a new content changes the kind of no entry. *)
Lemma fs_alter_file_kind f p : forall n n' c0 c1,
  fs_get n p = Some (File c0) -> f (Some (File c0)) = Ok (Some (File c1)) ->
  fs_alter f n p = Ok n' -> forall q, kind_at n' q = kind_at n q.
Proof.
  induction p as [|x p IH]; intros n n' c0 c1 Hget Hf Halt q.
  - simpl in *. injection Hget as ->. rewrite Hf in Halt. simpl in Halt.
    injection Halt as <-. unfold kind_at. by destruct q.
  - simpl in Hget. destruct n as [?|m]; [done|].
    destruct (m !! x) as [d|] eqn:Hx; [|done].
    simpl in Halt. rewrite Hx in Halt.
    destruct p as [|y p].
    + simpl in Hget. injection Hget as ->. rewrite Hf in Halt. simpl in Halt.
      injection Halt as <-. unfold kind_at. destruct q as [|z q]; [done|].
      simpl. destruct (decide (x = z)) as [->|Hne].
      * rewrite lookup_insert_eq, Hx. by destruct q.
      * by rewrite lookup_insert_ne.
    + bind_inv Halt. injection Halt as <-.
      pose proof (IH d a c0 c1 Hget Hf Ha) as Hk.
      unfold kind_at in *. destruct q as [|z q]; [done|].
      simpl. destruct (decide (x = z)) as [->|Hne].
      * rewrite lookup_insert_eq, Hx. apply Hk.
      * by rewrite lookup_insert_ne.
Qed.

Lemma path_exists_kind n q : path_exists n q = bool_decide (kind_at n q <> None).
Proof.
  unfold path_exists, kind_at.
  destruct (fs_get n q) as [[?|?]|]; by case_bool_decide.
Qed.

(** Rewriting a file that was read makes no path appear or disappear. *)
Lemma write_text_file_exists fs p c s fs' :
  read_bytes fs p = Ok c -> write_text fs p s = Ok fs' ->
  forall q, path_exists fs' q = path_exists fs q.
Proof.
  unfold read_bytes, write_text. intros Hr Hw q.
  destruct (fs_get fs p) as [[c0|?]|] eqn:Hget; try done.
  rewrite !path_exists_kind.
  by rewrite (fs_alter_file_kind _ _ _ _ c0 s Hget eq_refl Hw q).
Qed.

Lemma write_text_file fs p c s :
  fs_get fs p = Some (File c) ->
  exists fs', write_text fs p s = Ok fs' /\ fs_get fs' p = Some (File s).
Proof. intros Hget. by apply (fs_alter_existing _ _ _ (File c)). Qed.


(** ** Files under change *)

Lemma view_nil n : view n [] <> None.
Proof. unfold view. simpl. by destruct n. Qed.

Lemma view_file c q : q <> [] -> view (File c) q = None.
Proof. destruct q; done. Qed.

Lemma view_cons m x q :
  view (Dir m) (x :: q) = match m !! x with
                          | Some c => view c q
                          | None => None
                          end.
Proof. unfold view. simpl. by destruct (m !! x). Qed.

(** Writing a file changes what no other path shows. *)
Lemma fs_alter_view f p : file_writer f -> forall n n' q,
  fs_alter f n p = Ok n' -> q <> p -> view n' q = view n q.
Proof.
  intros Hf. induction p as [|x p IH]; intros n n' q Halt Hq.
  - simpl in Halt. bind_inv Halt. destruct (Hf _ _ Ha) as [[s ->] Hnd].
    injection Halt as <-. destruct n as [c|m]; [|by destruct (Hnd m)].
    by rewrite !view_file.
  - simpl in Halt. destruct n as [?|m]; [done|].
    destruct p as [|y p].
    + bind_inv Halt. destruct (Hf _ _ Ha) as [[s ->] Hnd].
      injection Halt as <-. destruct q as [|z q]; [done|].
      rewrite !view_cons. destruct (decide (x = z)) as [->|Hne].
      * rewrite lookup_insert_eq.
        assert (q <> []) as Hq' by (intros ->; done).
        rewrite view_file by done.
        destruct (m !! z) as [[c|m0]|] eqn:Hz; try done.
        -- by rewrite view_file.
        -- by destruct (Hnd m0).
      * by rewrite lookup_insert_ne.
    + destruct (m !! x) as [d|] eqn:Hx; [|done].
      bind_inv Halt. injection Halt as <-.
      destruct q as [|z q]; [done|].
      rewrite !view_cons. destruct (decide (x = z)) as [->|Hne].
      * rewrite lookup_insert_eq, Hx. apply (IH _ _ _ Ha). congruence.
      * by rewrite lookup_insert_ne.
Qed.

(** What is written can be read back. *)
Lemma fs_alter_get f p : forall n n',
  fs_alter f n p = Ok n' ->
  exists o, f (fs_get n p) = Ok o /\ fs_get n' p = o.
Proof.
  induction p as [|x p IH]; intros n n' Halt.
  - simpl in *. bind_inv Halt. exists a. split; [done|].
    destruct a; simpl in Halt; [by injection Halt as <- | done].
  - simpl in Halt. destruct n as [?|m]; [done|].
    destruct p as [|y p].
    + bind_inv Halt. injection Halt as <-. exists a. split.
      { rewrite fs_get_cons. simpl. by destruct (m !! x). }
      simpl. destruct a; [by rewrite lookup_insert_eq|].
      by rewrite lookup_delete_eq.
    + destruct (m !! x) as [d|] eqn:Hx; [|done].
      bind_inv Halt. injection Halt as <-.
      destruct (IH _ _ Ha) as (o & Ho & Hget). exists o.
      rewrite fs_get_cons, Hx. split; [done|].
      by rewrite fs_get_cons, lookup_insert_eq.
Qed.

Lemma read_bytes_view n q :
  read_bytes n q = match view n q with
                  | Some (Some c) => Ok c
                  | Some None => Raise IsADirectoryError
                  | None => Raise FileNotFoundError
                  end.
Proof. unfold read_bytes, view. by destruct (fs_get n q) as [[?|?]|]. Qed.

Lemma path_exists_view n q :
  path_exists n q = match view n q with Some _ => true | None => false end.
Proof. unfold path_exists, view. by destruct (fs_get n q) as [[?|?]|]. Qed.

Lemma write_text_writer s :
  file_writer (fun o => match o with
                        | Some (Dir _) => Raise IsADirectoryError
                        | _ => Ok (Some (File s))
                        end).
Proof.
  intros o r Hr. destruct o as [[c|m]|]; try done;
    injection Hr as <-; split; eauto; done.
Qed.

Lemma append_text_writer s :
  file_writer (fun o => match o with
                        | Some (Dir _) => Raise IsADirectoryError
                        | Some (File c) => Ok (Some (File (c +:+ s)))
                        | None => Ok (Some (File s))
                        end).
Proof.
  intros o r Hr. destruct o as [[c|m]|]; try done;
    injection Hr as <-; split; eauto; done.
Qed.

Lemma write_text_view fs p s fs' q :
  write_text fs p s = Ok fs' -> q <> p -> view fs' q = view fs q.
Proof. intros Hw. by apply (fs_alter_view _ _ (write_text_writer s)). Qed.

Lemma append_text_view fs p s fs' q :
  append_text fs p s = Ok fs' -> q <> p -> view fs' q = view fs q.
Proof. intros Hw. by apply (fs_alter_view _ _ (append_text_writer s)). Qed.

Lemma write_text_read fs p s fs' :
  write_text fs p s = Ok fs' -> read_bytes fs' p = Ok s.
Proof.
  intros Hw. destruct (fs_alter_get _ _ _ _ Hw) as (o & Ho & Hget).
  unfold read_bytes. rewrite Hget.
  destruct (fs_get fs p) as [[?|?]|]; simpl in Ho; try done;
    by injection Ho as <-.
Qed.

Lemma append_text_read fs p s fs' c :
  read_bytes fs p = Ok c -> append_text fs p s = Ok fs' ->
  read_bytes fs' p = Ok (c +:+ s).
Proof.
  intros Hr Hw. destruct (fs_alter_get _ _ _ _ Hw) as (o & Ho & Hget).
  unfold read_bytes in *. rewrite Hget.
  destruct (fs_get fs p) as [[?|?]|]; try done.
  injection Hr as ->. by injection Ho as <-.
Qed.

Lemma fs_get_cons_inv n x p c :
  fs_get n (x :: p) = Some c <->
  exists m d, n = Dir m /\ m !! x = Some d /\ fs_get d p = Some c.
Proof.
  split.
  - destruct n as [?|m]; [done|]. rewrite fs_get_cons.
    destruct (m !! x) as [d|] eqn:Hx; [|done]. eauto.
  - intros (m & d & -> & Hx & Hget). by rewrite fs_get_cons, Hx.
Qed.

(** A file given the content it has leaves the tree as it is. *)
Lemma fs_alter_same f p : forall n n' c,
  fs_get n p = Some c -> f (Some c) = Ok (Some c) ->
  fs_alter f n p = Ok n' -> n' = n.
Proof.
  induction p as [|x p IH]; intros n n' c Hget Hf Halt.
  - simpl in *. injection Hget as ->. rewrite Hf in Halt. simpl in Halt.
    by injection Halt as <-.
  - rewrite fs_get_cons_inv in Hget. destruct Hget as (m & d & -> & Hx & Hget).
    simpl in Halt. rewrite Hx in Halt. destruct p as [|y p].
    + simpl in Hget. injection Hget as ->. rewrite Hf in Halt.
      simpl in Halt. injection Halt as <-. by rewrite insert_id.
    + bind_inv Halt. injection Halt as <-.
      rewrite (IH _ _ _ Hget Hf Ha). by rewrite insert_id.
Qed.


(** ** Text *)

Lemma str_join_cons sep x y l :
  str_join sep (x :: y :: l) = x +:+ sep +:+ str_join sep (y :: l).
Proof. reflexivity. Qed.

Lemma str_split_nonempty c s : str_split c s <> [].
Proof.
  destruct s as [|a s]; simpl; [done|].
  destruct (Ascii.eqb a c); [done|]. by destruct (str_split c s).
Qed.

Lemma str_app_cons a s t : String a s +:+ t = String a (s +:+ t).
Proof. reflexivity. Qed.

(** Joining the lines of a text gives the text back. *)
Lemma str_join_split c s : str_join (str1 c) (str_split c s) = s.
Proof.
  induction s as [|a s IH]; [done|]. simpl.
  destruct (Ascii.eqb_spec a c) as [->|Hne].
  - destruct (str_split c s) as [|h t] eqn:Hs; [by destruct (str_split_nonempty c s)|].
    rewrite str_join_cons, IH. reflexivity.
  - destruct (str_split c s) as [|h t] eqn:Hs; [by destruct (str_split_nonempty c s)|].
    destruct t as [|h' t].
    + simpl in *. by rewrite IH.
    + rewrite str_join_cons in *. rewrite str_app_cons. by rewrite IH.
Qed.

Lemma str_in_cons_false n a s :
  str_in n (String a s) = false -> str_in n s = false.
Proof. simpl. intros H. by apply orb_false_elim in H as [_ ?]. Qed.

Lemma str_in_char_cons c a s :
  str_in (str1 c) (String a s) = Ascii.eqb c a || str_in (str1 c) s.
Proof.
  simpl. destruct (Ascii.eqb_spec c a) as [->|Hne].
  - destruct (ascii_dec a a); [|done]. by destruct s.
  - destruct (ascii_dec c a); [done|]. reflexivity.
Qed.

(** A line without the separator is one line. *)
Lemma str_split_line c s : str_in (str1 c) s = false -> str_split c s = [s].
Proof.
  induction s as [|a s IH]; [done|]. rewrite str_in_char_cons.
  intros H. apply orb_false_elim in H as [Hac Hs]. simpl.
  rewrite Ascii.eqb_sym, Hac. by rewrite IH.
Qed.

Lemma str_split_app_line c s t :
  str_in (str1 c) s = false ->
  str_split c (s +:+ String c t) = s :: str_split c t.
Proof.
  induction s as [|a s IH]; intros H.
  - simpl. by rewrite Ascii.eqb_refl.
  - rewrite str_in_char_cons in H. apply orb_false_elim in H as [Hac Hs].
    rewrite str_app_cons. simpl. rewrite Ascii.eqb_sym, Hac.
    by rewrite IH.
Qed.

(** Splitting joined lines gives the lines back, when none holds the
    separator. *)
Lemma str_split_join c l :
  l <> [] -> Forall (fun s => str_in (str1 c) s = false) l ->
  str_split c (str_join (str1 c) l) = l.
Proof.
  induction l as [|x l IH]; [done|]. intros _ Hall.
  apply Forall_cons in Hall as [Hx Hl]. destruct l as [|y l].
  - simpl. by apply str_split_line.
  - rewrite str_join_cons. change (str1 c +:+ ?t) with (String c t).
    rewrite str_split_app_line by done. by rewrite IH.
Qed.

Lemma str_split_no_sep c s :
  Forall (fun l => str_in (str1 c) l = false) (str_split c s).
Proof.
  induction s as [|a s IH]; simpl; [by constructor|].
  destruct (Ascii.eqb_spec a c) as [->|Hne].
  - by constructor.
  - destruct (str_split c s) as [|h t] eqn:Hs;
      [by destruct (str_split_nonempty c s)|].
    apply Forall_cons in IH as [Hh Ht]. constructor; [|done].
    rewrite str_in_char_cons, Hh. destruct (Ascii.eqb_spec c a); [congruence|done].
Qed.



Lemma read_bytes_file fs p c : read_bytes fs p = Ok c <-> fs_get fs p = Some (File c).
Proof.
  unfold read_bytes. destruct (fs_get fs p) as [[?|?]|]; split; try done;
    by intros [= ->].
Qed.

Lemma read_bytes_other fs p s fs' q :
  write_text fs p s = Ok fs' -> q <> p -> read_bytes fs' q = read_bytes fs q.
Proof.
  intros Hw Hq. by rewrite !read_bytes_view, (write_text_view _ _ _ _ _ Hw Hq).
Qed.

Lemma append_text_file fs p c s :
  fs_get fs p = Some (File c) ->
  exists fs', append_text fs p s = Ok fs' /\ read_bytes fs' p = Ok (c +:+ s).
Proof.
  intros Hget.
  destruct (fs_alter_existing
              (fun o => match o with
                        | Some (Dir _) => Raise IsADirectoryError
                        | Some (File c) => Ok (Some (File (c +:+ s)))
                        | None => Ok (Some (File s))
                        end) p fs (File c) (File (c +:+ s)) Hget eq_refl)
    as (fs' & Hw & Hg).
  exists fs'. split; [done|]. by apply read_bytes_file.
Qed.


Lemma mkdir_p_child p x n n' :
  mkdir_p n p = Ok n' -> fs_get n' (p ++ [x]) = fs_get n (p ++ [x]).
Proof.
  intros Hmk. rewrite !fs_get_app, (mkdir_p_get _ _ _ Hmk).
  destruct (fs_get n p) as [[c|m]|]; simpl; try done;
    by rewrite lookup_empty.
Qed.

(** A record kept under a header: the header is written when the record
    is new, and the text is added at the end. *)
Lemma header_then_append fs d name header s fs1 fs2 fs' :
  mkdir_p fs d = Ok fs1 ->
  (if negb (path_exists fs1 (d ++ [name]))
   then write_text fs1 (d ++ [name]) header
   else Ok fs1) = Ok fs2 ->
  append_text fs2 (d ++ [name]) s = Ok fs' ->
  read_bytes fs' (d ++ [name])
  = Ok (match read_bytes fs (d ++ [name]) with
        | Ok c => c
        | Raise _ => header
        end +:+ s).
Proof.
  intros Hmk Hhead Happ.
  pose proof (mkdir_p_child d name _ _ Hmk) as Hchild.
  unfold path_exists in Hhead. rewrite Hchild in Hhead.
  unfold read_bytes at 2.
  destruct (fs_get fs (d ++ [name])) as [[c|m]|] eqn:Hget;
    cbn [negb] in Hhead.
  - injection Hhead as <-. apply (append_text_read fs1); [|done].
    unfold read_bytes. by rewrite Hchild.
  - injection Hhead as <-. unfold append_text in Happ.
    destruct (fs_alter_get _ _ _ _ Happ) as (o & Ho & _).
    by rewrite Hchild in Ho.
  - apply (append_text_read fs2); [|done].
    by apply (write_text_read fs1).
Qed.


(** ** Reading in text mode *)

Lemma universal_newlines_plain s :
  str_in (str1 carriage_return) s = false -> universal_newlines s = s.
Proof.
  induction s as [|a s IH]; [done|]. rewrite str_in_char_cons.
  intros Hno. apply orb_false_elim in Hno as [Ha Hs].
  simpl. rewrite Ascii.eqb_sym, Ha. by rewrite IH.
Qed.

Lemma read_text_ok fs p t :
  read_text fs p = Ok t <->
  exists c, read_bytes fs p = Ok c /\ t = universal_newlines c.
Proof.
  unfold read_text. destruct (read_bytes fs p) as [c|x]; cbn [bind]; split.
  - intros [= <-]. eauto.
  - by intros (c' & [= <-] & ->).
  - done.
  - by intros (c' & ? & _).
Qed.

Lemma read_text_bytes fs p c :
  read_bytes fs p = Ok c -> read_text fs p = Ok (universal_newlines c).
Proof. intros Hc. apply read_text_ok. eauto. Qed.

Lemma read_text_view n q :
  read_text n q = match view n q with
                  | Some (Some c) => Ok (universal_newlines c)
                  | Some None => Raise IsADirectoryError
                  | None => Raise FileNotFoundError
                  end.
Proof.
  unfold read_text. rewrite read_bytes_view.
  by destruct (view n q) as [[?|]|].
Qed.

Lemma read_text_other fs p s fs' q :
  write_text fs p s = Ok fs' -> q <> p -> read_text fs' q = read_text fs q.
Proof.
  intros Hw Hq. unfold read_text. by rewrite (read_bytes_other _ _ _ _ _ Hw Hq).
Qed.

(** ** Logging a URL *)

Section LogUrlProperties.
Context `{PyLib}.
Variable e : env.
Import LogUrl.

Lemma dict_append_ok k x d l :
  dict_get k d = Some (JList l) ->
  dict_append k x d = Ok (dict_set k (JList (l ++ [x])) d).
Proof. intros Hk. unfold dict_append, dict_item. by rewrite Hk. Qed.

Lemma ensure_url_list sp k :
  url_lists sp -> In k ["urls_visited"; "urls_used"; "urls_skipped"] ->
  exists l, dict_get k (ensure_scratchpad_keys sp) = Some (JList l).
Proof.
  intros Hwf Hk. rewrite ensure_scratchpad_keys_lookup_aux.
  destruct (dict_get k sp) as [v|] eqn:Hv.
  - destruct (Hwf k v Hk Hv) as [l ->]. eauto.
  - simpl in Hk. exists [].
    repeat (destruct Hk as [<-|Hk]; [done|]). done.
Qed.

(** The event on a scratchpad whose three URL sequences are lists when
    present. *)
Lemma apply_log_event_lists sp entry :
  url_lists sp ->
  exists visited urls_used urls_skipped sp',
    let sp0 := ensure_scratchpad_keys sp in
    dict_get "urls_visited" sp0 = Some (JList visited) /\
    dict_get "urls_used" sp0 = Some (JList urls_used) /\
    dict_get "urls_skipped" sp0 = Some (JList urls_skipped) /\
    apply_log_event sp entry = Ok sp' /\
    dict_get "urls_visited" sp' = Some (JList (visited ++ [url_entry entry])) /\
    dict_get "urls_used" sp' =
      Some (JList (if used entry then urls_used ++ [JStr (url entry)]
                   else urls_used)) /\
    dict_get "urls_skipped" sp' =
      Some (JList (if negb (used entry) && skipped entry
                   then urls_skipped ++ [JStr (url entry)]
                   else urls_skipped)) /\
    dict_get "last_updated" sp' = Some (JStr (timestamp entry)) /\
    forall k,
      ~ In k ["urls_visited"; "urls_used"; "urls_skipped"; "last_updated"] ->
      dict_get k sp' = dict_get k sp0.
Proof.
  intros Hwf.
  destruct (ensure_url_list sp "urls_visited" Hwf) as [visited Hv];
    [simpl; tauto|].
  destruct (ensure_url_list sp "urls_used" Hwf) as [uu Hu]; [simpl; tauto|].
  destruct (ensure_url_list sp "urls_skipped" Hwf) as [us Hs]; [simpl; tauto|].
  set (sp0 := ensure_scratchpad_keys sp) in *.
  set (sp1 := dict_set "urls_visited" (JList (visited ++ [url_entry entry])) sp0).
  assert (dict_get "urls_used" sp1 = Some (JList uu)) as Hu1
    by (unfold sp1; by rewrite dict_get_set_ne).
  assert (dict_get "urls_skipped" sp1 = Some (JList us)) as Hs1
    by (unfold sp1; by rewrite dict_get_set_ne).
  set (sp2 := if used entry
              then dict_set "urls_used" (JList (uu ++ [JStr (url entry)])) sp1
              else if skipped entry
                   then dict_set "urls_skipped"
                          (JList (us ++ [JStr (url entry)])) sp1
                   else sp1).
  set (sp' := dict_set "last_updated" (JStr (timestamp entry)) sp2).
  assert (apply_log_event sp entry = Ok sp') as Happly.
  { unfold apply_log_event. fold sp0.
    rewrite (dict_append_ok _ _ _ _ Hv). cbn [bind]. fold sp1.
    unfold sp', sp2.
    destruct (used entry); [by rewrite (dict_append_ok _ _ _ _ Hu1)|].
    destruct (skipped entry); [by rewrite (dict_append_ok _ _ _ _ Hs1)|].
    done. }
  exists visited, uu, us, sp'. cbn zeta.
  repeat split; try done.
  - unfold sp', sp2, sp1.
    destruct (used entry), (skipped entry); by rewrite !dict_get_set.
  - unfold sp', sp2, sp1.
    destruct (used entry), (skipped entry); rewrite !dict_get_set; by cbn.
  - unfold sp', sp2, sp1.
    destruct (used entry), (skipped entry); rewrite !dict_get_set; by cbn.
  - unfold sp'. apply dict_get_set_eq.
  - intros k Hk. simpl in Hk.
    assert (forall a b d, a <> k -> dict_get k (dict_set a b d) = dict_get k d)
      as Hne by (intros; by apply dict_get_set_ne).
    unfold sp', sp2, sp1.
    destruct (used entry), (skipped entry);
      rewrite !Hne; try done; intros <-; tauto.
Qed.

(** What each of the three writers does to a target that is a file. *)
Lemma log_to_markdown_file fs session entry p content :
  session_path e session "session_log" = Ok p ->
  read_text fs p = Ok content ->
  exists fs',
    log_to_markdown e fs session entry = Ok fs' /\
    read_bytes fs' p
    = Ok (str_join (str1 newline)
            (insert_row (markdown_row entry) None
               (str_split newline content))) /\
    (forall q, q <> p -> view fs' q = view fs q).
Proof.
  intros Hp Hread. pose proof Hread as Hget.
  apply read_text_ok in Hget as (c & Hget & _).
  apply read_bytes_file in Hget.
  destruct (write_text_file fs p c
              (str_join (str1 newline)
                 (insert_row (markdown_row entry) None
                    (str_split newline content))) Hget) as (fs' & Hw & Hg).
  exists fs'. split; [|split].
  - unfold log_to_markdown. rewrite Hp. cbn [bind].
    unfold path_exists. rewrite Hget. cbn [negb]. rewrite Hread. exact Hw.
  - by apply read_bytes_file.
  - intros q Hq. by apply (write_text_view _ _ _ _ _ Hw).
Qed.

Lemma log_to_scratchpad_file fs session entry p text sp sp' :
  session_path e session "scratchpad" = Ok p ->
  read_text fs p = Ok text ->
  json_loads text = Some (JDict sp) ->
  apply_log_event sp entry = Ok sp' ->
  exists fs',
    log_to_scratchpad e fs session entry = Ok fs' /\
    read_bytes fs' p = Ok (json_dumps (JDict sp')) /\
    (forall q, q <> p -> view fs' q = view fs q).
Proof.
  intros Hp Hread Hcodec Happly. pose proof Hread as Hget.
  apply read_text_ok in Hget as (c & Hget & _).
  apply read_bytes_file in Hget.
  destruct (write_text_file fs p c (json_dumps (JDict sp')) Hget)
    as (fs' & Hw & Hg).
  exists fs'. split; [|split].
  - unfold log_to_scratchpad. rewrite Hp. cbn [bind].
    unfold path_exists. rewrite Hget. cbn [negb]. rewrite Hread. cbn [bind].
    unfold loads. rewrite Hcodec. cbn [from_option bind]. rewrite Happly.
    exact Hw.
  - by apply read_bytes_file.
  - intros q Hq. by apply (write_text_view _ _ _ _ _ Hw).
Qed.

Lemma log_to_csv_file fs session entry p rows :
  session_path e session "sources" = Ok p ->
  read_bytes fs p = Ok rows ->
  exists fs',
    log_to_csv e fs session entry = Ok fs' /\
    read_bytes fs' p = Ok (rows +:+ (csv_row entry +:+ str1 newline)) /\
    (forall q, q <> p -> view fs' q = view fs q).
Proof.
  intros Hp Hread. pose proof Hread as Hget. apply read_bytes_file in Hget.
  destruct (append_text_file fs p rows (csv_row entry +:+ str1 newline) Hget)
    as (fs' & Hw & Hr).
  exists fs'. split; [|split].
  - unfold log_to_csv. rewrite Hp. cbn [bind].
    unfold path_exists. rewrite Hget. cbn [negb]. exact Hw.
  - exact Hr.
  - intros q Hq. by apply (append_text_view _ _ _ _ _ Hw).
Qed.

(** C1, as amended.  A log event applied to a scratchpad appends to
    [urls_visited] a record of the url, source, name, timestamp, relevance
    and notes of the entry, and of nothing else of it; it appends the URL
    of the entry to [urls_used] exactly when [used] is set, else to
    [urls_skipped] exactly when [skipped] is set, sets [last_updated] to
    its timestamp and changes no other key; the scratchpad file is
    rewritten with the result. *)
Theorem log_to_scratchpad_applies_event
  (fs : node) (session : json) (entry : LogEntry)
  (p : path) (text : string) (sp : dict) :
  session_path e session "scratchpad" = Ok p ->
  read_text fs p = Ok text ->
  json_loads text = Some (JDict sp) ->
  url_lists sp ->
  exists visited urls_used urls_skipped sp' fs',
    let sp0 := ensure_scratchpad_keys sp in
    dict_get "urls_visited" sp0 = Some (JList visited) /\
    dict_get "urls_used" sp0 = Some (JList urls_used) /\
    dict_get "urls_skipped" sp0 = Some (JList urls_skipped) /\
    apply_log_event sp entry = Ok sp' /\
    log_to_scratchpad e fs session entry = Ok fs' /\
    fs_get fs' p = Some (File (json_dumps (JDict sp'))) /\
    dict_get "urls_visited" sp' =
      Some (JList (visited ++
                   [JDict [ ("url", JStr (url entry));
                            ("source", JStr (source entry));
                            ("name", JStr (name entry));
                            ("timestamp", JStr (timestamp entry));
                            ("relevance", JInt (relevance entry));
                            ("notes", JStr (notes entry)) ]])) /\
    dict_get "urls_used" sp' =
      Some (JList (if used entry then urls_used ++ [JStr (url entry)]
                   else urls_used)) /\
    dict_get "urls_skipped" sp' =
      Some (JList (if negb (used entry) && skipped entry
                   then urls_skipped ++ [JStr (url entry)]
                   else urls_skipped)) /\
    dict_get "last_updated" sp' = Some (JStr (timestamp entry)) /\
    forall k,
      ~ In k ["urls_visited"; "urls_used"; "urls_skipped"; "last_updated"] ->
      dict_get k sp' = dict_get k sp0.
Proof.
  intros Hpath Hread Hload Hwf.
  destruct (apply_log_event_lists sp entry Hwf)
    as (visited & uu & us & sp' & Hv & Hu & Hs & Happly & Hv' & Hu' & Hs'
        & Hlast & Hother).
  destruct (log_to_scratchpad_file fs session entry p text sp sp'
              Hpath Hread Hload Happly) as (fs' & Hlog & Hbytes & _).
  exists visited, uu, us, sp', fs'. cbn zeta.
  split; [exact Hv|]. split; [exact Hu|]. split; [exact Hs|].
  split; [exact Happly|]. split; [exact Hlog|].
  split; [by apply read_bytes_file|]. split; [exact Hv'|].
  split; [exact Hu'|]. split; [exact Hs'|]. split; [exact Hlast|].
  exact Hother.
Qed.

(** C2, as amended.  The entry [main] builds carries the [--used] and
    [--skipped] switches as they were given: its [used] and [skipped]
    fields are both true exactly when both switches are. *)
Theorem build_entry_flags (args : Args) (now : datetime) (entry : LogEntry) :
  build_entry args now = Ok entry ->
  used entry = args_used args /\
  skipped entry = args_skipped args /\
  (used entry && skipped entry = true <->
   args_used args = true /\ args_skipped args = true).
Proof.
  unfold build_entry. intros Hbuild. bind_inv Hbuild. bind_inv Hbuild.
  injection Hbuild as <-. simpl. repeat split.
  - by destruct (args_used args).
  - destruct (args_used args); [done | discriminate].
  - intros [-> ->]. done.
Qed.

(** C3.  On a session document that does not parse, the reader of
    [log_url.py] raises, where the reader of [archive_session.py] returns
    [None]. *)
Theorem get_current_session_malformed (fs : node) (text : string) :
  fs_get fs (get_local_agent_dir e ++ ["research"; "session.json"])
    = Some (File text) ->
  json_loads (universal_newlines text) = None ->
  LogUrl.get_current_session e fs = Raise JSONDecodeError /\
  ArchiveSession.get_current_session e fs = Ok JNull.
Proof.
  intros Hfile Hload. split.
  - unfold LogUrl.get_current_session, path_exists, read_text, read_bytes,
      loads.
    rewrite Hfile. cbn [bind]. by rewrite Hload.
  - unfold ArchiveSession.get_current_session, ArchiveSession.local_dir,
      path_exists, read_text, read_bytes.
    rewrite <- app_assoc. cbn [app]. rewrite Hfile. cbn [bind].
    by rewrite Hload.
Qed.

Lemma log_to_markdown_exists fs session entry fs' :
  log_to_markdown e fs session entry = Ok fs' ->
  forall q, path_exists fs' q = path_exists fs q.
Proof.
  unfold log_to_markdown. intros Hlog. bind_inv Hlog.
  destruct (path_exists fs a); cbn [negb] in Hlog;
    [|by injection Hlog as <-].
  bind_inv Hlog. apply read_text_ok in Ha0 as (c & Hc & _).
  by apply (write_text_file_exists _ _ _ _ _ Hc Hlog).
Qed.

Lemma log_to_scratchpad_exists fs session entry fs' :
  log_to_scratchpad e fs session entry = Ok fs' ->
  forall q, path_exists fs' q = path_exists fs q.
Proof.
  unfold log_to_scratchpad. intros Hlog. bind_inv Hlog.
  destruct (path_exists fs a); cbn [negb] in Hlog;
    [|by injection Hlog as <-].
  bind_inv Hlog. bind_inv Hlog. destruct a1; try done.
  bind_inv Hlog. apply read_text_ok in Ha0 as (c & Hc & _).
  by apply (write_text_file_exists _ _ _ _ _ Hc Hlog).
Qed.

(** The three writes in turn are the writes to the targets that exist
    when the event is logged: a skipped write stops no later one. *)
Lemma log_all_guarded fs session entry p_log p_sp p_csv :
  session_path e session "session_log" = Ok p_log ->
  session_path e session "scratchpad" = Ok p_sp ->
  session_path e session "sources" = Ok p_csv ->
  log_all e fs session entry =
    (fs1 <- (if path_exists fs p_log
             then log_to_markdown e fs session entry else Ok fs) ;;
     fs2 <- (if path_exists fs p_sp
             then log_to_scratchpad e fs1 session entry else Ok fs1) ;;
     if path_exists fs p_csv
     then log_to_csv e fs2 session entry else Ok fs2).
Proof.
  intros Hlog Hsp Hcsv.
  assert (forall fs0, path_exists fs0 p_log = false ->
            log_to_markdown e fs0 session entry = Ok fs0) as Hskip1.
  { intros fs0 Hex. unfold log_to_markdown. rewrite Hlog. cbn [bind].
    by rewrite Hex. }
  assert (forall fs0, path_exists fs0 p_sp = false ->
            log_to_scratchpad e fs0 session entry = Ok fs0) as Hskip2.
  { intros fs0 Hex. unfold log_to_scratchpad. rewrite Hsp. cbn [bind].
    by rewrite Hex. }
  assert (forall fs0, path_exists fs0 p_csv = false ->
            log_to_csv e fs0 session entry = Ok fs0) as Hskip3.
  { intros fs0 Hex. unfold log_to_csv. rewrite Hcsv. cbn [bind].
    by rewrite Hex. }
  assert (forall fs1, (forall q, path_exists fs1 q = path_exists fs q) ->
            (fs2 <- log_to_scratchpad e fs1 session entry ;;
             log_to_csv e fs2 session entry) =
            (fs2 <- (if path_exists fs p_sp
                     then log_to_scratchpad e fs1 session entry
                     else Ok fs1) ;;
             if path_exists fs p_csv
             then log_to_csv e fs2 session entry else Ok fs2)) as Htail.
  { intros fs1 Hex1.
    assert (forall fs2, (forall q, path_exists fs2 q = path_exists fs q) ->
              log_to_csv e fs2 session entry =
              if path_exists fs p_csv
              then log_to_csv e fs2 session entry else Ok fs2) as Hlast.
    { intros fs2 Hex2. destruct (path_exists fs p_csv) eqn:Hex; [done|].
      apply Hskip3. by rewrite Hex2. }
    destruct (path_exists fs p_sp) eqn:Hex.
    - destruct (log_to_scratchpad e fs1 session entry) as [fs2|x] eqn:H2;
        [|done].
      cbn [bind]. apply Hlast. intros q. rewrite <- Hex1.
      by apply (log_to_scratchpad_exists _ _ _ _ H2).
    - rewrite Hskip2 by (by rewrite Hex1). cbn [bind]. by apply Hlast. }
  unfold log_all. destruct (path_exists fs p_log) eqn:Hex.
  + destruct (log_to_markdown e fs session entry) as [fs1|x] eqn:H1;
      [|done].
    cbn [bind]. apply Htail. by apply (log_to_markdown_exists _ _ _ _ H1).
  + rewrite Hskip1 by done. cbn [bind]. by apply Htail.
Qed.


End LogUrlProperties.
(** ** Strings *)

Lemma str_length_app s t :
  String.length (s +:+ t) = (String.length s + String.length t)%nat.
Proof. induction s as [|c s IH]; simpl; [done | by rewrite IH]. Qed.

Lemma str_take_length n s :
  (n <= String.length s)%nat -> String.length (str_take n s) = n.
Proof.
  revert s. induction n as [|n IH]; intros s Hn; [done|].
  destruct s as [|c s]; simpl in *; [lia|]. rewrite IH; lia.
Qed.

Lemma str_app_assoc s t u : (s +:+ t) +:+ u = s +:+ (t +:+ u).
Proof.
  induction s as [|c s IH]; [done|].
  change (String c ((s +:+ t) +:+ u) = String c (s +:+ (t +:+ u))).
  by f_equal.
Qed.


(** ** The learnings of a session *)

Section Learnings.
Context `{PyLib}.
Import ArchiveSession.

Lemma for_each_extend_with mk items : forall learnings,
  for_each (extend_with mk) items learnings
  = Ok (learnings ++ map mk (dicts items)).
Proof.
  induction items as [|item items IH]; intros learnings; simpl.
  - by rewrite app_nil_r.
  - destruct item; simpl; rewrite IH; try done.
    by rewrite <- app_assoc.
Qed.

Lemma for_each_extend_with_resource items : forall learnings,
  Forall (fun d => exists b, py_ge3 (dict_get_or "relevance" (JInt 0) d) = Ok b)
    (dicts items) ->
  for_each extend_with_resource items learnings
  = Ok (learnings ++ resources_from (map url learnings) (dicts items)).
Proof.
  induction items as [|item items IH]; intros learnings Hrel; simpl.
  - by rewrite app_nil_r.
  - destruct item as [| | | | | |d]; simpl in *; try (by apply IH).
    apply Forall_cons in Hrel as [[b Hb] Hrel].
    unfold high_relevance, entry_url. rewrite Hb. cbn [bind].
    destruct b; cbn [andb]; [|by apply IH].
    destruct (py_in (dict_get_or "url" JNull d) (map url learnings));
      cbn [negb]; [by apply IH|].
    etrans; [by apply IH|]. rewrite map_app. cbn [map].
    by rewrite <- app_assoc.
Qed.

Lemma py_in_app x l l' : py_in x (l ++ l') = py_in x l || py_in x l'.
Proof. apply existsb_app. Qed.

Lemma dicts_app l l' : dicts (l ++ l') = dicts l ++ dicts l'.
Proof. apply omap_app. Qed.

Lemma dicts_cons d l : dicts (JDict d :: l) = d :: dicts l.
Proof. reflexivity. Qed.

(** A text is among texts when Python finds it there. *)
Lemma py_in_text u represented :
  py_in (JStr u) (map JStr represented) = bool_decide (u ∈ represented).
Proof.
  induction represented as [|v represented IH]; [done|].
  change (py_in (JStr u) (map JStr (v :: represented)))
    with (String.eqb u v || py_in (JStr u) (map JStr represented)).
  rewrite IH.
  destruct (String.eqb_spec u v) as [->|Hne]; cbn [orb].
  - symmetry. apply bool_decide_eq_true. by left.
  - apply bool_decide_ext. rewrite elem_of_cons.
    split; [by right | by intros [?|?]].
Qed.

(** On entries as they are logged, the loop over [urls_visited] adds the
    resources the specification names. *)
Lemma resources_from_spec entries : forall represented,
  Forall logged_entry entries ->
  resources_from (map JStr represented) entries
  = map resource_learning (spec_resources represented entries).
Proof.
  induction entries as [|d entries IH]; intros represented Hall; [done|].
  apply Forall_cons in Hall as [[[u Hu] Hrel] Hall].
  assert (high_relevance d = (3 <=? spec_relevance d)) as Hhigh.
  { unfold high_relevance, spec_relevance, dict_get_or.
    destruct Hrel as [->|[z ->]]; done. }
  assert (entry_url d = JStr u) as Hentry
    by (unfold entry_url, dict_get_or; by rewrite Hu).
  assert (spec_url d = u) as Hurl by (unfold spec_url; by rewrite Hu).
  cbn [resources_from spec_resources].
  rewrite Hhigh, Hentry, py_in_text, Hurl.
  destruct ((3 <=? spec_relevance d) && negb (bool_decide (u ∈ represented)));
    [|by apply IH].
  cbn [map]. f_equal.
  assert (url (resource_learning d) = JStr u) as ->
    by (cbn [url resource_learning]; unfold dict_get_or; by rewrite Hu).
  change [JStr u] with (map JStr [u]). rewrite <- map_app. by apply IH.
Qed.

(** The resources of the specification: visited entries of relevance 3 or
    more, with URLs that differ from one another and from the ones
    represented before. *)
Lemma spec_resources_fresh visited : forall represented,
  NoDup (map spec_url (spec_resources represented visited)) /\
  (forall d, d ∈ spec_resources represented visited ->
     d ∈ visited /\ 3 <= spec_relevance d /\ spec_url d ∉ represented).
Proof.
  induction visited as [|entry rest IH]; intros represented.
  - split; [constructor|]. intros d Hd. by apply elem_of_nil in Hd.
  - cbn [spec_resources].
    destruct (3 <=? spec_relevance entry) eqn:Hrel; cbn [andb].
    + case_bool_decide as Hknown; cbn [negb].
      * destruct (IH represented) as [Hnodup Hin]. split; [done|].
        intros d Hd. destruct (Hin d Hd) as (? & ? & ?).
        split; [by right | done].
      * destruct (IH (represented ++ [spec_url entry])) as [Hnodup Hin].
        split.
        -- cbn [map]. constructor; [|done].
           intros Hdup. apply list_elem_of_fmap in Hdup as (d & Heq & Hd).
           destruct (Hin d Hd) as (_ & _ & Hfresh). apply Hfresh.
           rewrite elem_of_app, <- Heq. right. by left.
        -- intros d Hd. apply elem_of_cons in Hd as [->|Hd].
           ++ split; [by left|]. split; [by apply Z.leb_le | done].
           ++ destruct (Hin d Hd) as (? & ? & Hfresh).
              split; [by right|]. split; [done|].
              intros Hr. apply Hfresh. rewrite elem_of_app. by left.
    + destruct (IH represented) as [Hnodup Hin]. split; [done|].
      intros d Hd. destruct (Hin d Hd) as (? & ? & ?).
      split; [by right | done].
Qed.

(** Every visited entry of relevance 3 or more is represented. *)
Lemma spec_resources_complete visited : forall represented d,
  d ∈ visited -> 3 <= spec_relevance d ->
  spec_url d ∈ represented ++ map spec_url (spec_resources represented visited).
Proof.
  induction visited as [|entry rest IH]; intros represented d Hd Hrel.
  - by apply elem_of_nil in Hd.
  - cbn [spec_resources]. apply elem_of_cons in Hd as [->|Hd].
    + apply Z.leb_le in Hrel. rewrite Hrel. cbn [andb].
      case_bool_decide as Hknown; cbn [negb].
      * rewrite elem_of_app. by left.
      * cbn [map]. rewrite elem_of_app. right. by left.
    + destruct ((3 <=? spec_relevance entry)
                && negb (bool_decide (spec_url entry ∈ represented))).
      * specialize (IH (represented ++ [spec_url entry]) d Hd Hrel).
        cbn [map]. rewrite <- app_assoc in IH. exact IH.
      * by apply IH.
Qed.

(** An entry whose URL is represented adds nothing. *)
Lemma spec_resources_drop entry after : forall between represented,
  spec_url entry ∈ represented ->
  spec_resources represented (between ++ entry :: after)
  = spec_resources represented (between ++ after).
Proof.
  induction between as [|d between IH]; intros represented Hin.
  - cbn [app spec_resources]. rewrite (bool_decide_eq_true_2 _ Hin).
    by rewrite andb_false_r.
  - cbn [app spec_resources].
    destruct ((3 <=? spec_relevance d)
              && negb (bool_decide (spec_url d ∈ represented)));
      [f_equal|]; apply IH; [|done].
    rewrite elem_of_app. by left.
Qed.

Lemma spec_resources_second first second after : forall before between represented,
  spec_url second = spec_url first ->
  3 <= spec_relevance first ->
  spec_resources represented (before ++ first :: between ++ second :: after)
  = spec_resources represented (before ++ first :: between ++ after).
Proof.
  induction before as [|d before IH]; intros between represented Hsame Hrel.
  - cbn [app spec_resources]. apply Z.leb_le in Hrel. rewrite Hrel.
    cbn [andb]. case_bool_decide as Hknown; cbn [negb].
    + apply spec_resources_drop. by rewrite Hsame.
    + f_equal. apply spec_resources_drop. rewrite Hsame, elem_of_app.
      right. by left.
  - cbn [app spec_resources].
    destruct ((3 <=? spec_relevance d)
              && negb (bool_decide (spec_url d ∈ represented)));
      [f_equal|]; by apply IH.
Qed.

Lemma candidate_urls mk (entries : list dict) :
  (forall d, url (mk d) = dict_get_or "url" (JStr EmptyString) d) ->
  Forall text_url entries ->
  map url (map mk entries) = map JStr (map spec_url entries).
Proof.
  intros Hmk Hall. rewrite !map_map. apply map_ext_Forall.
  eapply Forall_impl; [exact Hall|]. intros d Hd. rewrite Hmk.
  unfold dict_get_or, spec_url. by destruct Hd as [->|[u ->]].
Qed.


End Learnings.
(** ** Archiving a session *)

Section Archive.
Context `{PyLib}.
Variable e : env.
Import ArchiveSession.

Lemma fs_get_child fs p m x :
  fs_get fs p = Some (Dir m) -> fs_get fs (p ++ [x]) = m !! x.
Proof.
  intros Hget. rewrite fs_get_app, Hget. simpl. by destruct (m !! x).
Qed.

(** Removing an entry of the local tier takes it out of the listing. *)
Lemma remove_item_listing fs fs' m x :
  fs_get fs (local_dir e) = Some (Dir m) ->
  remove_item e fs x = Ok fs' ->
  fs_get fs' (local_dir e) = Some (Dir (delete x m)).
Proof.
  intros Hget Hrm. unfold remove_item, is_file, is_dir in Hrm.
  rewrite (fs_get_child _ _ _ _ Hget) in Hrm.
  destruct (m !! x) as [[c|m0]|] eqn:Hx.
  - destruct (fs_alter_parent _ _ _ _ _ _ Hrm Hget) as (o & Ho & ->).
    rewrite Hx in Ho. by injection Ho as <-.
  - destruct (fs_alter_parent _ _ _ _ _ _ Hrm Hget) as (o & Ho & ->).
    rewrite Hx in Ho. by injection Ho as <-.
  - injection Hrm as <-. by rewrite delete_id.
Qed.

Lemma for_each_remove_item names : forall fs fs' m,
  fs_get fs (local_dir e) = Some (Dir m) ->
  for_each (remove_item e) names fs = Ok fs' ->
  exists m', fs_get fs' (local_dir e) = Some (Dir m') /\
    forall k, m' !! k = if bool_decide (k ∈ names) then None else m !! k.
Proof.
  induction names as [|x names IH]; intros fs fs' m Hget Hall; simpl in Hall.
  - injection Hall as <-. exists m. split; [done|]. intros k.
    case_bool_decide as Hk; [|done]. by apply elem_of_nil in Hk.
  - bind_inv Hall.
    pose proof (remove_item_listing _ _ _ _ Hget Ha) as Hget1.
    destruct (IH _ _ _ Hget1 Hall) as (m' & Hget' & Hm').
    exists m'. split; [done|]. intros k. rewrite Hm'.
    destruct (decide (k = x)) as [->|Hne].
    + rewrite lookup_delete_eq. rewrite (bool_decide_eq_true_2 (x ∈ x :: names));
        [by case_bool_decide | by left].
    + rewrite lookup_delete_ne by done.
      case_bool_decide as Hk; case_bool_decide as Hk'; try done.
      * exfalso. apply Hk'. by right.
      * apply elem_of_cons in Hk' as [?|?]; done.
Qed.

(** The last step leaves the breadcrumb and nothing else. *)
Lemma clean_local_listing fs session fs' :
  clean_local e fs session = Ok fs' ->
  exists sid, py_item "session_id" session = Ok (JStr sid) /\
    fs_get fs' (local_dir e) = Some (Dir {[ ".last_session" := File sid ]}).
Proof.
  unfold clean_local, iterdir. intros Hclean. bind_inv Hclean.
  destruct (fs_get fs (local_dir e)) as [[c|m]|] eqn:Hget; try done.
  injection Ha as <-. bind_inv Hclean. bind_inv Hclean.
  destruct a0 as [| | | |sid| |]; try done.
  exists sid. split; [done|].
  destruct (for_each_remove_item _ _ _ _ Hget Ha) as (m' & Hget' & Hm').
  assert (m' = ∅) as ->.
  { apply map_eq. intros k. rewrite Hm', lookup_empty.
    case_bool_decide as Hk; [done|].
    destruct (m !! k) as [c|] eqn:Hmk; [|done].
    exfalso. apply Hk. apply list_elem_of_fmap. exists (k, c).
    split; [done|]. by apply elem_of_map_to_list. }
  destruct (fs_alter_parent _ _ _ _ _ _ Hclean Hget') as (o & Ho & ->).
  rewrite lookup_empty in Ho. by injection Ho as <-.
Qed.

(** C6.  A run of [archive_session] without [keep_local] that archives
    the session leaves in the local tier the breadcrumb alone, holding the
    id of the session. *)
Theorem archive_leaves_breadcrumb
  (fs : node) (clock : Clock) (extract_learnings_flag : bool) (fs' : node) :
  archive_session e fs clock extract_learnings_flag false = Ok (fs', true) ->
  exists session sid,
    get_current_session e fs = Ok session /\
    py_item "session_id" session = Ok (JStr sid) /\
    fs_get fs' (local_dir e) = Some (Dir {[ ".last_session" := File sid ]}).
Proof.
  unfold archive_session. intros Harch. bind_inv Harch.
  destruct (py_truthy a); cbn [negb] in Harch; [|done].
  exists a.
  repeat match type of Harch with
         | bind _ _ = Ok _ => bind_inv Harch
         end.
  injection Harch as <-.
  match goal with
  | Hclean : clean_local _ _ _ = Ok _ |- _ =>
      destruct (clean_local_listing _ _ _ Hclean) as (sid & Hsid & Hlisting)
  end.
  exists sid. split; [done|]. split; [|done].
  destruct a as [| | | | | |d]; try done.
  repeat match goal with
         | Hset : py_setitem _ _ (JDict _) = Ok _ |- _ =>
             cbn [py_setitem] in Hset; injection Hset as <-
         end.
  cbn [py_item] in *. unfold dict_item in *.
  by rewrite !dict_get_set_ne in Hsid.
Qed.

End Archive.

(** ** The key finding of the index *)

Section KeyFinding.
Context `{PyLib}.
Variable e : env.
Import ArchiveSession.

(** Emptying the local tier changes nothing outside it. *)
Lemma remove_item_frame fs x fs' q :
  remove_item e fs x = Ok fs' -> diverge (local_dir e) q ->
  fs_get fs' q = fs_get fs q.
Proof.
  unfold remove_item, unlink, rmtree. intros Hrm Hdiv.
  destruct (is_file fs (local_dir e ++ [x])).
  - eapply fs_alter_frame; [|exact Hrm]. by apply diverge_app_l.
  - destruct (is_dir fs (local_dir e ++ [x])); [|by injection Hrm as <-].
    eapply fs_alter_frame; [|exact Hrm]. by apply diverge_app_l.
Qed.

Lemma for_each_remove_item_frame names q : forall fs fs',
  for_each (remove_item e) names fs = Ok fs' -> diverge (local_dir e) q ->
  fs_get fs' q = fs_get fs q.
Proof.
  induction names as [|x names IH]; intros fs fs' Hall Hdiv; simpl in Hall.
  - by injection Hall as <-.
  - bind_inv Hall. rewrite (IH _ _ Hall Hdiv).
    by apply (remove_item_frame _ _ _ _ Ha).
Qed.

Lemma clean_local_frame fs session fs' q :
  clean_local e fs session = Ok fs' -> diverge (local_dir e) q ->
  fs_get fs' q = fs_get fs q.
Proof.
  unfold clean_local. intros Hclean Hdiv. bind_inv Hclean. bind_inv Hclean.
  bind_inv Hclean. destruct a1; try done.
  rewrite <- (for_each_remove_item_frame _ _ _ _ Ha0 Hdiv).
  unfold write_text in Hclean. eapply fs_alter_frame; [|exact Hclean].
  by apply diverge_app_l.
Qed.

(** The last cell of an index row is the key finding as the truncation
    leaves it. *)
Lemma index_row_finding session duration stats finding now row :
  index_row session duration stats finding now = Ok row ->
  exists written cells,
    truncate_key_finding finding = Ok written /\
    row = cells +:+ " | " +:+ fstr written +:+ " |" +:+ str1 newline.
Proof.
  unfold index_row. intros Hrow. repeat bind_inv Hrow.
  injection Hrow as <-.
  exists a,
    ("| " +:+ strftime_date now +:+ " | " +:+ fstr a0 +:+ "... | "
     +:+ fstr a1 +:+ " | " +:+ fstr a2 +:+ " | " +:+ format_fixed 0 a3
     +:+ "m | " +:+ (pretty (used stats) +:+ "/" +:+ pretty (total stats))).
  split; [done|]. by rewrite !str_app_assoc.
Qed.

(** The row [update_session_index] writes is the last text of the
    index. *)
Lemma update_session_index_row fs session duration stats finding now fs' :
  update_session_index e fs session duration stats finding now = Ok fs' ->
  exists row before,
    index_row session duration stats finding now = Ok row /\
    read_bytes fs' (get_agent_core_dir e ++ ["sessions"; "index.md"])
    = Ok (before +:+ row).
Proof.
  unfold update_session_index. intros Hup.
  bind_inv Hup. bind_inv Hup. bind_inv Hup.
  change (get_agent_core_dir e ++ ["sessions"; "index.md"])
    with (get_agent_core_dir e ++ ["sessions"] ++ ["index.md"]) in *.
  rewrite app_assoc in *.
  eexists a1, _. split; [done|].
  by apply (header_then_append _ _ _ _ _ _ _ _ Ha Ha0).
Qed.

(** C7, as amended.  The key finding is the name of the first viral
    candidate when that candidate is a record with a name, and the
    placeholder when [viral_candidates] is not empty and its first
    candidate has no name or is no record, whatever [urls_used] holds;
    without viral candidates it is the count of used URLs when
    [urls_used] is not empty, else the placeholder.  A finding of more
    than 40 characters is cut to its first 37 characters and three dots,
    40 characters in all; the last cell of the index row is the finding
    so cut; and a run of [archive_session] leaves, as the last text of
    the session index, the row whose last cell is the key finding of the
    scratchpad it parsed, so cut. *)
Theorem key_finding_and_truncation :
  (forall sp stats d rest n,
     dict_get "viral_candidates" sp = Some (JList (JDict d :: rest)) ->
     dict_get "name" d = Some n ->
     key_finding (JDict sp) stats = Ok n) /\
  (forall sp stats first rest,
     dict_get "viral_candidates" sp = Some (JList (first :: rest)) ->
     (forall d, first = JDict d -> dict_get "name" d = None) ->
     key_finding (JDict sp) stats = Ok (JStr "See report")) /\
  (forall sp stats l,
     py_truthy (dict_get_or "viral_candidates" JNull sp) = false ->
     dict_get "urls_used" sp = Some (JList l) -> l <> [] ->
     count_urls (JDict sp) = Ok stats ->
     key_finding (JDict sp) stats
     = Ok (JStr (pretty (length l) +:+ " URLs used"))) /\
  (forall sp stats,
     py_truthy (dict_get_or "viral_candidates" JNull sp) = false ->
     py_truthy (dict_get_or "urls_used" JNull sp) = false ->
     key_finding (JDict sp) stats = Ok (JStr "See report")) /\
  (forall s,
     (40 < String.length s)%nat ->
     truncate_key_finding (JStr s) = Ok (JStr (str_take 37 s +:+ "...")) /\
     String.length (str_take 37 s +:+ "...") = 40%nat) /\
  (forall session duration stats finding now row,
     index_row session duration stats finding now = Ok row ->
     exists written cells,
       truncate_key_finding finding = Ok written /\
       row = cells +:+ " | " +:+ fstr written +:+ " |" +:+ str1 newline) /\
  (forall fs clock extract_learnings_flag keep_local fs',
     archive_session e fs clock extract_learnings_flag keep_local
     = Ok (fs', true) ->
     keep_local = true
     \/ diverge (local_dir e) (get_agent_core_dir e ++ ["sessions"; "index.md"]) ->
     exists session sid fs1 scratchpad stats finding written cells before,
       get_current_session e fs = Ok session /\
       py_item "session_id" session = Ok (JStr sid) /\
       mkdir_p fs (path_join (get_agent_core_dir e ++ ["sessions"]) sid)
       = Ok fs1 /\
       parse_scratchpad e fs1 session = Ok scratchpad /\
       count_urls scratchpad = Ok stats /\
       key_finding scratchpad stats = Ok finding /\
       truncate_key_finding finding = Ok written /\
       read_bytes fs' (get_agent_core_dir e ++ ["sessions"; "index.md"])
       = Ok (before +:+ cells +:+ " | " +:+ fstr written +:+ " |"
             +:+ str1 newline)).
Proof.
  assert (forall s, (40 < String.length s)%nat ->
            truncate_key_finding (JStr s) = Ok (JStr (str_take 37 s +:+ "...")))
    as Htrunc.
  { intros s Hs. unfold truncate_key_finding. cbn [py_len bind].
    destruct (40 <? String.length s)%nat eqn:E; [done|].
    apply Nat.ltb_ge in E. lia. }
  split; [|split; [|split; [|split; [|split; [|split]]]]].
  - intros sp stats d rest n Hviral Hname.
    unfold key_finding, py_get, py_get_or.
    cbn [bind]. unfold dict_get_or at 1. rewrite Hviral. cbn [py_truthy].
    unfold py_item, dict_item. rewrite Hviral. cbn [from_option bind py_index0].
    unfold dict_get_or. by rewrite Hname.
  - intros sp stats first rest Hviral Hname.
    unfold key_finding, py_get, py_get_or.
    cbn [bind]. unfold dict_get_or at 1. rewrite Hviral. cbn [py_truthy].
    unfold py_item, dict_item. rewrite Hviral. cbn [from_option bind py_index0].
    destruct first as [| | | | | |d]; try done.
    unfold dict_get_or. by rewrite (Hname d eq_refl).
  - intros sp stats l Hviral Hused Hne Hcount.
    unfold key_finding, py_get, py_get_or. cbn [bind]. rewrite Hviral.
    unfold dict_get_or at 1. rewrite Hused.
    destruct l as [|x l]; [done|]. cbn [py_truthy].
    unfold count_urls, py_get_or in Hcount. cbn [bind] in Hcount.
    bind_inv Hcount. unfold dict_get_or at 1 in Hcount. rewrite Hused in Hcount.
    cbn [py_len bind] in Hcount. bind_inv Hcount. by injection Hcount as <-.
  - intros sp stats Hviral Hused.
    unfold key_finding, py_get, py_get_or. cbn [bind].
    by rewrite Hviral, Hused.
  - intros s Hs. split; [by apply Htrunc|].
    rewrite str_length_app, str_take_length by lia. done.
  - intros session duration stats finding now row.
    apply index_row_finding.
  - intros fs clock flag keep fs' Harch Hkeep.
    unfold archive_session in Harch. bind_inv Harch.
    destruct (py_truthy a); cbn [negb] in Harch; [|done].
    exists a.
    repeat match type of Harch with
           | bind _ _ = Ok _ => bind_inv Harch
           end.
    injection Harch as <-.
    match goal with
    | Hid : py_item "session_id" a = Ok ?j |- _ =>
        destruct j as [| | | |sid| |]; try done
    end.
    match goal with
    | Hg : Ok _ = Ok _ |- _ => injection Hg as <-
    end.
    exists sid.
    match goal with
    | Hmk : mkdir_p fs ?g = Ok ?f1,
      Hparse : parse_scratchpad e ?f1 a = Ok ?sc,
      Hcount : count_urls ?sc = Ok ?st,
      Hfind : key_finding ?sc ?st = Ok ?kf,
      Hindex : update_session_index e _ _ _ ?st ?kf _ = Ok ?fi |- _ =>
        destruct (update_session_index_row _ _ _ _ _ _ _ Hindex)
          as (row & before & Hrow & Hread);
        destruct (index_row_finding _ _ _ _ _ _ Hrow)
          as (written & cells & Hwritten & ->);
        exists f1, sc, st, kf, written, cells, before;
        repeat (split; [done|])
    end.
    match goal with
    | Hlast : (if negb keep then _ else _) = Ok _ |- _ =>
        destruct Hkeep as [->|Hdiv]; cbn [negb] in Hlast
    end.
    + match goal with
      | Hlast : Ok _ = Ok _ |- _ => by injection Hlast as <-
      end.
    + destruct keep; cbn [negb] in *.
      * match goal with
        | Hlast : Ok _ = Ok _ |- _ => by injection Hlast as <-
        end.
      * match goal with
        | Hlast : clean_local _ _ _ = Ok _ |- _ =>
            unfold read_bytes in *;
            by rewrite (clean_local_frame _ _ _ _ Hlast Hdiv)
        end.
Qed.

End KeyFinding.
(** ** Continuing a session *)

(** A change at a child of a directory that is there goes through when the
    change itself does. *)
Lemma fs_alter_child f x o p : forall n m,
  fs_get n p = Some (Dir m) -> f (m !! x) = Ok o ->
  exists n', fs_alter f n (p ++ [x]) = Ok n'.
Proof.
  induction p as [|y p IH]; intros n m Hget Hf.
  - simpl in Hget. injection Hget as ->. simpl. rewrite Hf. simpl. eauto.
  - destruct n as [?|m0]; [done|]. rewrite fs_get_cons in Hget.
    destruct (m0 !! y) as [d|] eqn:Hy; [|done].
    destruct (IH d m Hget Hf) as (d' & Hd').
    exists (Dir (<[y:=d']> m0)).
    change (fs_alter f (Dir m0) ((y :: p) ++ [x]))
      with (match p ++ [x] with
            | [] => o <- f (m0 !! y) ;;
                    Ok (Dir (match o with
                             | Some c => <[y := c]> m0
                             | None => delete y m0
                             end))
            | _ :: _ =>
                match m0 !! y with
                | None => Raise FileNotFoundError
                | Some c => c' <- fs_alter f c (p ++ [x]) ;;
                            Ok (Dir (<[y := c']> m0))
                end
            end).
    destruct (p ++ [x]) as [|z r] eqn:Hpx; [by destruct p|].
    by rewrite Hy, Hd'.
Qed.

(** Writing a file into a directory, where no directory has its name. *)
Lemma write_text_child fs p m x s :
  fs_get fs p = Some (Dir m) ->
  (forall m0, m !! x <> Some (Dir m0)) ->
  exists fs', write_text fs (p ++ [x]) s = Ok fs' /\
    fs_get fs' p = Some (Dir (<[x := File s]> m)).
Proof.
  intros Hget Hnodir. unfold write_text.
  set (f := fun o : option node =>
              match o with
              | Some (Dir _) => Raise IsADirectoryError
              | _ => Ok (Some (File s))
              end).
  assert (f (m !! x) = Ok (Some (File s))) as Hf.
  { unfold f. destruct (m !! x) as [[?|m0]|] eqn:Hx; try done.
    by destruct (Hnodir m0). }
  destruct (fs_alter_child f x _ p fs m Hget Hf) as (fs' & Hfs').
  exists fs'. split; [done|].
  destruct (fs_alter_parent _ _ _ _ _ _ Hfs' Hget) as (o & Ho & ->).
  rewrite Hf in Ho. by injection Ho as <-.
Qed.

Section Continue.
Context `{PyLib}.
Variable e : env.
Import InitSession.

Lemma copy_files_listing session_id gm names : forall fs lm,
  diverge (local_dir e) (global_dir e session_id) ->
  fs_get fs (global_dir e session_id) = Some (Dir gm) ->
  fs_get fs (local_dir e) = Some (Dir lm) ->
  (forall name c m, gm !! name = Some (File c) -> lm !! name <> Some (Dir m)) ->
  exists fs' lm',
    for_each (copy_file e session_id) names fs = Ok fs' /\
    fs_get fs' (global_dir e session_id) = Some (Dir gm) /\
    fs_get fs' (local_dir e) = Some (Dir lm') /\
    forall k, lm' !! k = if bool_decide (k ∈ names) then copied gm lm k
                         else lm !! k.
Proof.
  induction names as [|x names IH]; intros fs lm Hdiv Hg Hl Hnodir.
  - exists fs, lm. repeat split; done.
  - cbn [for_each]. unfold copy_file at 1, is_file, read_bytes.
    rewrite (fs_get_child _ _ _ _ Hg).
    destruct (gm !! x) as [[c|m0]|] eqn:Hx.
    + cbn [bind].
      destruct (write_text_child fs _ lm x c Hl) as (fs1 & Hw & Hl1);
        [intros m0; by apply (Hnodir x c)|].
      rewrite Hw. cbn [bind].
      assert (fs_get fs1 (global_dir e session_id) = Some (Dir gm)) as Hg1.
      { rewrite <- Hg. unfold write_text in Hw.
        eapply fs_alter_frame; [|exact Hw]. by apply diverge_app_l. }
      destruct (IH fs1 (<[x := File c]> lm) Hdiv Hg1 Hl1)
        as (fs' & lm' & Hloop & Hg' & Hl' & Hlm').
      { intros name c' m Hname. destruct (decide (x = name)) as [->|Hne].
        - by rewrite lookup_insert_eq.
        - rewrite lookup_insert_ne by done. by apply (Hnodir name c'). }
      exists fs', lm'. repeat split; try done. intros k. rewrite Hlm'.
      unfold copied. destruct (decide (k = x)) as [->|Hne].
      * rewrite Hx, lookup_insert_eq.
        rewrite (bool_decide_eq_true_2 (x ∈ x :: names)) by (by left).
        by case_bool_decide.
      * rewrite lookup_insert_ne by done.
        case_bool_decide as Hk; case_bool_decide as Hk'; try done.
        -- exfalso. apply Hk'. by right.
        -- apply elem_of_cons in Hk' as [?|?]; done.
    + destruct (IH fs lm Hdiv Hg Hl Hnodir)
        as (fs' & lm' & Hloop & Hg' & Hl' & Hlm').
      exists fs', lm'. repeat split; try done. intros k. rewrite Hlm'.
      unfold copied. destruct (decide (k = x)) as [->|Hne].
      * rewrite Hx.
        rewrite (bool_decide_eq_true_2 (x ∈ x :: names)) by (by left).
        by case_bool_decide.
      * case_bool_decide as Hk; case_bool_decide as Hk'; try done.
        -- exfalso. apply Hk'. by right.
        -- apply elem_of_cons in Hk' as [?|?]; done.
    + destruct (IH fs lm Hdiv Hg Hl Hnodir)
        as (fs' & lm' & Hloop & Hg' & Hl' & Hlm').
      exists fs', lm'. repeat split; try done. intros k. rewrite Hlm'.
      unfold copied. destruct (decide (k = x)) as [->|Hne].
      * rewrite Hx.
        rewrite (bool_decide_eq_true_2 (x ∈ x :: names)) by (by left).
        by case_bool_decide.
      * case_bool_decide as Hk; case_bool_decide as Hk'; try done.
        -- exfalso. apply Hk'. by right.
        -- apply elem_of_cons in Hk' as [?|?]; done.
Qed.

(** C10.  Continuing a session of the global store, with the two tiers in
    separate directories: the regular files at the top of the global
    session directory are copied into the local tier, its subdirectories
    are not, the session document is written locally with status
    [resumed] and the time of resumption, and the global session directory
    is left as it was. *)
Theorem load_session_copies_top_level_files
  (fs : node) (session_id : string) (now : datetime)
  (gm : gmap string node) (text : string) (s paths : dict) (fs1 : node) :
  let lm := match fs_get fs (local_dir e) with
            | Some (Dir m) => m
            | _ => ∅
            end in
  diverge (local_dir e) (global_dir e session_id) ->
  fs_get fs (global_dir e session_id) = Some (Dir gm) ->
  gm !! "session.json" = Some (File text) ->
  json_loads (universal_newlines text) = Some (JDict s) ->
  dict_get "paths" s = Some (JDict paths) ->
  mkdir_p fs (local_dir e) = Ok fs1 ->
  (forall name c m, gm !! name = Some (File c) -> lm !! name <> Some (Dir m)) ->
  exists fs' lm',
    let session := resumed s paths now (local_dir e) in
    load_session e fs session_id now = Ok (fs', session) /\
    py_item "status" session = Ok (JStr "resumed") /\
    py_item "resumed_at" session = Ok (JStr (isoformat now)) /\
    fs_get fs' (local_dir e) = Some (Dir lm') /\
    (forall name,
       lm' !! name = if bool_decide (name = "session.json")
                     then Some (File (json_dumps session))
                     else copied gm lm name) /\
    fs_get fs' (global_dir e session_id) = Some (Dir gm).
Proof.
  intros lm Hdiv Hg Hdoc Hload Hpaths Hmk Hnodir.
  pose proof (mkdir_p_get _ _ _ Hmk) as Hl1. fold lm in Hl1.
  assert (fs_get fs1 (global_dir e session_id) = Some (Dir gm)) as Hg1
    by (by rewrite (mkdir_p_frame _ _ Hdiv _ _ Hmk)).
  destruct (copy_files_listing session_id gm (map fst (map_to_list gm))
              fs1 lm Hdiv Hg1 Hl1 Hnodir)
    as (fs2 & lm2 & Hloop & Hg2 & Hl2 & Hlm2).
  assert (forall k, lm2 !! k = copied gm lm k) as Hcopied.
  { intros k. rewrite Hlm2. case_bool_decide as Hk; [done|].
    unfold copied. destruct (gm !! k) as [c|] eqn:Hgk; [|done].
    exfalso. apply Hk. apply list_elem_of_fmap. exists (k, c).
    split; [done|]. by apply elem_of_map_to_list. }
  set (session := resumed s paths now (local_dir e)).
  destruct (write_text_child fs2 _ lm2 "session.json" (json_dumps session) Hl2)
    as (fs' & Hw & Hl').
  { intros m. rewrite Hcopied. unfold copied. by rewrite Hdoc. }
  exists fs', (<["session.json" := File (json_dumps session)]> lm2).
  cbn zeta. fold session. repeat split.
  - unfold load_session, path_exists, read_text, read_bytes, loads, iterdir.
    rewrite (fs_get_child _ _ _ _ Hg), Hdoc. cbn [negb bind].
    rewrite Hload. cbn [from_option bind py_setitem].
    rewrite Hmk. cbn [bind]. rewrite Hg1. cbn [bind]. rewrite Hloop.
    cbn [bind py_item]. unfold dict_item.
    rewrite !dict_get_set_ne by done. rewrite Hpaths.
    cbn [from_option bind py_setitem]. fold (resumed s paths now (local_dir e)).
    fold session. by rewrite Hw.
  - unfold session, resumed. cbn [py_item]. unfold dict_item.
    by rewrite dict_get_set_ne, dict_get_set_ne, dict_get_set_eq.
  - unfold session, resumed. cbn [py_item]. unfold dict_item.
    by rewrite dict_get_set_ne, dict_get_set_eq.
  - done.
  - intros name. case_bool_decide as Hname.
    + subst name. by rewrite lookup_insert_eq.
    + rewrite lookup_insert_ne by done. apply Hcopied.
  - rewrite <- Hg2. unfold write_text in Hw.
    eapply fs_alter_frame; [|exact Hw]. by apply diverge_app_l.
Qed.

End Continue.


(** ** The properties on the sample session *)

Section Samples.
Import Examples.

#[local] Existing Instance Sample.lib.

Lemma url_lists_scratchpad0 : LogUrl.url_lists scratchpad0.
Proof.
  intros k v Hk Hget. simpl in Hk.
  destruct Hk as [<-|[<-|[<-|[]]]]; vm_compute in Hget;
    first [discriminate | injection Hget as <-; eauto].
Defined.

(** C1, as stated, fails: the record appended for an entry is not the
    entry; it has no [used] key, which the entry has. *)
Lemma log_event_record_is_not_the_entry :
  exists sp' record,
    LogUrl.apply_log_event complete0 entry0 = Ok sp' /\
    dict_get "urls_visited" sp' = Some (JList [record]) /\
    record <> LogUrl.entry_dict entry0 /\
    py_item "used" (LogUrl.entry_dict entry0) = Ok (JBool true) /\
    py_item "used" record = Raise KeyError.
Proof.
  eexists _, _. split; [vm_compute; reflexivity|].
  split; [vm_compute; reflexivity|].
  split; [intros Heq; vm_compute in Heq; discriminate|].
  split; vm_compute; reflexivity.
Qed.

(** C1 on the sample session: the record of the event is appended and
    the scratchpad written back. *)
Lemma log_to_scratchpad_applies_event_sample :
  exists sp' fs',
    LogUrl.apply_log_event scratchpad0 entry0 = Ok sp' /\
    LogUrl.log_to_scratchpad env0 fs0 session0 entry0 = Ok fs' /\
    (exists earlier,
       length earlier = 3%nat /\
       dict_get "urls_visited" sp'
       = Some (JList (earlier ++
                      [JDict [ ("url", JStr "https://github.com/user/repo");
                               ("source", JStr "github");
                               ("name", JStr "user/repo");
                               ("timestamp", JStr "2026-01-01T12:30:00.000000");
                               ("relevance", JInt 3);
                               ("notes", JStr EmptyString) ]]))) /\
    dict_get "urls_used" sp'
    = Some (JList [JStr "https://a"; JStr "https://github.com/user/repo"]) /\
    dict_get "urls_skipped" sp' = Some (JList []).
Proof.
  destruct (log_to_scratchpad_applies_event env0 fs0 session0 entry0
              ["work"; ".agent"; "research"; "scratchpad.json"]
              (Sample.dumps (JDict scratchpad0)) scratchpad0)
    as (visited & uu & us & sp' & fs' & Hv & Hu & Hs & Happly & Hlog & _ & Hv'
        & Hu' & Hs' & _).
  - vm_compute. reflexivity.
  - vm_compute. reflexivity.
  - vm_compute. reflexivity.
  - exact url_lists_scratchpad0.
  - exists sp', fs'. vm_compute in Hv. injection Hv as <-.
    vm_compute in Hu. injection Hu as <-.
    vm_compute in Hs. injection Hs as <-.
    split; [exact Happly|]. split; [exact Hlog|].
    split; [eexists; split; [|exact Hv']; reflexivity|]. auto.
Defined.

(** C2, as stated, fails: with both switches the entry is both used and
    skipped. *)
Lemma build_entry_used_and_skipped :
  exists entry,
    LogUrl.build_entry args_used_and_skipped now0 = Ok entry /\
    LogUrl.used entry = true /\ LogUrl.skipped entry = true.
Proof. eexists. split; [vm_compute; reflexivity|]. split; reflexivity. Qed.

(** C2, as amended, on the entry of a used URL. *)
Lemma build_entry_flags_sample :
  LogUrl.used entry0 = true /\ LogUrl.skipped entry0 = false.
Proof.
  destruct (build_entry_flags args_used_only now0 entry0) as (Hu & Hs & _).
  - vm_compute. reflexivity.
  - split; [exact Hu | exact Hs].
Defined.

(** C3 on a session document that holds an opening brace only. *)
Lemma get_current_session_malformed_sample :
  LogUrl.get_current_session env0 fs_malformed = Raise JSONDecodeError /\
  ArchiveSession.get_current_session env0 fs_malformed = Ok JNull.
Proof.
  apply (get_current_session_malformed env0 fs_malformed "{").
  - vm_compute. reflexivity.
  - vm_compute. reflexivity.
Defined.


(** C6 on the sample session. *)
Lemma archive_leaves_breadcrumb_sample :
  exists session sid,
    ArchiveSession.get_current_session env0 fs0 = Ok session /\
    py_item "session_id" session = Ok (JStr sid) /\
    fs_get archived0 (ArchiveSession.local_dir env0)
    = Some (Dir {[ ".last_session" := File sid ]}).
Proof.
  apply (archive_leaves_breadcrumb env0 fs0 clock0 true archived0).
  vm_compute. reflexivity.
Defined.

(** C7, as stated, fails: the first viral candidate has no name, and the
    key finding is the placeholder, not a name and not the count of the
    used URL. *)
Lemma key_finding_of_nameless_candidate :
  dict_get "viral_candidates" nameless0
  = Some (JList [JDict [("url", JStr "https://x")]]) /\
  dict_get "urls_used" nameless0 = Some (JList [JStr "https://a"]) /\
  ArchiveSession.count_urls (JDict nameless0)
  = Ok {| ArchiveSession.total := 1; ArchiveSession.used := 1;
          ArchiveSession.skipped := 0 |} /\
  ArchiveSession.key_finding (JDict nameless0)
    {| ArchiveSession.total := 1; ArchiveSession.used := 1;
       ArchiveSession.skipped := 0 |}
  = Ok (JStr "See report").
Proof. repeat split; vm_compute; reflexivity. Qed.

(** C7, as amended, on the sample scratchpad, on a finding of fifty
    characters and on the archive of the sample session. *)
Lemma key_finding_and_truncation_sample :
  ArchiveSession.key_finding (JDict scratchpad0)
    {| ArchiveSession.total := 3; ArchiveSession.used := 1;
       ArchiveSession.skipped := 0 |}
  = Ok (JStr "toolX") /\
  ArchiveSession.truncate_key_finding (JStr finding50)
  = Ok (JStr "0123456789012345678901234567890123456...") /\
  exists before cells,
    read_bytes archived0 ["home"; ".agent-core"; "sessions"; "index.md"]
    = Ok (before +:+ cells +:+ " | toolX |" +:+ str1 newline).
Proof.
  destruct (key_finding_and_truncation env0)
    as (Hname & _ & _ & _ & Htrunc & _ & Harchive).
  split; [|split].
  - eapply Hname; vm_compute; reflexivity.
  - destruct (Htrunc finding50) as [Ht _]; [simpl; lia | exact Ht].
  - destruct (Harchive fs0 clock0 true false archived0)
      as (session & sid & fs1 & scratchpad & stats & finding & written
          & cells & before & Hsession & Hsid & Hmk & Hparse & Hcount
          & Hfinding & Hwritten & Hread).
    + vm_compute. reflexivity.
    + right. exists [], "work", "home", [".agent"; "research"],
        [".agent-core"; "sessions"; "index.md"].
      split; [vm_compute; reflexivity|].
      split; [vm_compute; reflexivity | discriminate].
    + exists before, cells. etrans; [exact Hread|].
      vm_compute in Hsession. injection Hsession as <-.
      vm_compute in Hsid. injection Hsid as <-.
      vm_compute in Hmk. injection Hmk as <-.
      vm_compute in Hparse. injection Hparse as <-.
      vm_compute in Hcount. injection Hcount as <-.
      vm_compute in Hfinding. injection Hfinding as <-.
      vm_compute in Hwritten. injection Hwritten as <-.
      reflexivity.
Defined.

(** C8 on the scratchpad of a new session. *)
Lemma ensure_scratchpad_keys_idempotent_sample :
  LogUrl.ensure_scratchpad_keys complete0 = complete0.
Proof.
  apply (proj1 (ensure_scratchpad_keys_idempotent complete0)).
  vm_compute. reflexivity.
Defined.


(** The logged event then reaches the CSV export alone, and [main] ends
    with status 0. *)
Example log_url_updates_csv_only :
  exists fs',
    LogUrl.main env0 fs_csv_only args_used_only now0
    = Ok (fs', 0, ["✓ USED: [github] user/repo";
                   "   https://github.com/user/repo"]) /\
    read_bytes fs' ["work"; ".agent"; "research"; "agents_sources.csv"]
    = Ok (csv0 +:+ LogUrl.csv_row entry0 +:+ str1 newline) /\
    path_exists fs' ["work"; ".agent"; "research"; "session_log.md"] = false /\
    path_exists fs' ["work"; ".agent"; "research"; "scratchpad.json"] = false.
Proof.
  destruct (LogUrl.main env0 fs_csv_only args_used_only now0)
    as [[[fs' code] out]|x] eqn:Hmain; vm_compute in Hmain;
    [|discriminate].
  injection Hmain as <- <- <-. eexists. split; [reflexivity|].
  repeat split; vm_compute; reflexivity.
Qed.

(** A URL that [urlparse] refuses stops [main] before any write. *)
Example log_url_refused :
  LogUrl.main env0 fs0 args_refused now0 = Raise ValueError.
Proof. vm_compute. reflexivity. Qed.

(** C10 on a fresh workspace: the session is brought back from the global
    store, which keeps its listing. *)
Lemma load_session_sample :
  exists fs' lm',
    InitSession.load_session env0 fs_fresh sid0 now0
    = Ok (fs', InitSession.resumed
                 match session0 with JDict s => s | _ => [] end
                 match py_item "paths" session0 with
                 | Ok (JDict paths) => paths
                 | _ => []
                 end now0 (InitSession.local_dir env0)) /\
    fs_get fs' (InitSession.local_dir env0) = Some (Dir lm') /\
    lm' !! "drafts" = None /\
    lm' !! "scratchpad.json" = Some (File (Sample.dumps (JDict scratchpad0))) /\
    fs_get fs' (InitSession.global_dir env0 sid0) = Some (Dir global_listing0).
Proof.
  destruct (load_session_copies_top_level_files env0 fs_fresh sid0 now0
              global_listing0 (Sample.dumps session0)
              match session0 with JDict s => s | _ => [] end
              match py_item "paths" session0 with
              | Ok (JDict paths) => paths
              | _ => []
              end fresh_local)
    as (fs' & lm' & Hload & _ & _ & Hl & Hlm & Hg).
  - exists [], "work", "home", [".agent"; "research"],
      [".agent-core"; "sessions"; sid0].
    split; [vm_compute; reflexivity|].
    split; [vm_compute; reflexivity | discriminate].
  - vm_compute. reflexivity.
  - vm_compute. reflexivity.
  - vm_compute. reflexivity.
  - vm_compute. reflexivity.
  - vm_compute. reflexivity.
  - intros name c m _ Hdir. vm_compute in Hdir. discriminate.
  - exists fs', lm'. split; [exact Hload|]. split; [exact Hl|].
    rewrite !Hlm. repeat split; try exact Hg; vm_compute; reflexivity.
Defined.

End Samples.


(** * Further properties *)

(** ** The narrative log and the CSV export *)

Section LogUrlFurther.
Context `{PyLib}.
Variable e : env.
Import LogUrl.

Lemma insert_row_free row lines : forall prev,
  (forall h l, prev = Some h -> head lines = Some l -> ~ table_head h l) ->
  (forall i h l, lines !! i = Some h -> lines !! S i = Some l ->
     ~ table_head h l) ->
  insert_row row prev lines = lines.
Proof.
  induction lines as [|line lines IH]; intros prev Hprev Hpairs; [done|].
  simpl.
  destruct (String.prefix "|---" line
            && match prev with Some p => str_in "Source" p | None => false end)
    eqn:Hcond.
  - apply andb_prop in Hcond as [Hsep Hsrc]. destruct prev as [h|]; [|done].
    by destruct (Hprev h line eq_refl eq_refl).
  - f_equal. apply IH.
    + intros h l [= <-] Hl. destruct lines as [|l' lines]; [done|].
      injection Hl as <-. by apply (Hpairs 0%nat).
    + intros i h l Hh Hl. by apply (Hpairs (S i)).
Qed.

Lemma insert_row_first row header sep after : forall before prev,
  Forall (fun l => String.prefix "|---" l = false) (before ++ [header]) ->
  table_head header sep ->
  insert_row row prev (before ++ header :: sep :: after)
  = before ++ header :: sep :: row :: after.
Proof.
  intros before prev Hfree [Hsep Hsrc]. revert prev.
  induction before as [|line before IH]; intros prev.
  - apply Forall_cons in Hfree as [Hh _]. simpl. rewrite Hh. cbn [andb].
    by rewrite Hsep, Hsrc.
  - apply Forall_cons in Hfree as [Hl Hfree]. simpl. rewrite Hl. cbn [andb].
    f_equal. by apply IH.
Qed.

Lemma chars_cons a s : chars (String a s) = a :: chars s.
Proof. reflexivity. Qed.

Lemma chars_app s t : chars (s +:+ t) = chars s ++ chars t.
Proof.
  induction s as [|a s IH]; [done|]. rewrite str_app_cons. simpl.
  unfold chars in *. simpl. by rewrite IH.
Qed.

Lemma str_in_char_chars c s : str_in (str1 c) s = true <-> In c (chars s).
Proof.
  induction s as [|a s IH]; [done|]. rewrite str_in_char_cons.
  unfold chars in *. simpl. rewrite orb_true_iff, IH.
  destruct (Ascii.eqb_spec c a); intuition congruence.
Qed.

Lemma str_free_chars c s : str_in (str1 c) s = false <-> ~ In c (chars s).
Proof.
  rewrite <- str_in_char_chars. by destruct (str_in (str1 c) s).
Qed.

(** A text read with universal newlines holds no carriage return. *)
Lemma universal_newlines_clean s :
  str_in (str1 carriage_return) (universal_newlines s) = false.
Proof.
  apply str_free_chars.
  assert (forall n s, (String.length s <= n)%nat ->
            ~ In carriage_return (chars (universal_newlines s))) as Hall.
  { clear s. induction n as [|n IH]; intros [|a s] Hn; simpl in Hn;
      try (simpl; tauto); try lia.
    simpl. destruct (Ascii.eqb_spec a carriage_return) as [->|Ha].
    - rewrite chars_cons. intros [Hcr|Hin]; [done|].
      destruct s as [|b s]; [done|].
      destruct (Ascii.eqb b newline).
      + apply (IH s); [simpl in Hn; lia | done].
      + apply (IH (String b s)); [lia | done].
    - rewrite chars_cons. intros [Hcr|Hin]; [by destruct Ha|].
      apply (IH s); [lia | done]. }
  by apply (Hall (String.length s)).
Qed.

Lemma str_split_chars c a s :
  ~ In a (chars s) -> Forall (fun l => ~ In a (chars l)) (str_split c s).
Proof.
  induction s as [|x s IH]; intros Hs; [by repeat constructor|].
  rewrite chars_cons in Hs. simpl in Hs. simpl.
  destruct (Ascii.eqb x c).
  - constructor; [simpl; tauto | apply IH; tauto].
  - destruct (str_split c s) as [|h t].
    + constructor; [|done]. unfold str1. rewrite chars_cons. simpl. tauto.
    + assert (Forall (fun l => ~ In a (chars l)) (h :: t)) as Hall
        by (apply IH; tauto).
      apply Forall_cons in Hall as [Hh Ht]. constructor; [|done].
      rewrite chars_cons. simpl. tauto.
Qed.

Lemma str_join_chars c a lines :
  a <> c -> Forall (fun l => ~ In a (chars l)) lines ->
  ~ In a (chars (str_join (str1 c) lines)).
Proof.
  intros Hac. induction lines as [|x lines IH]; intros Hall; [simpl; tauto|].
  apply Forall_cons in Hall as [Hx Hall]. destruct lines as [|y lines].
  - done.
  - rewrite str_join_cons, !chars_app, !in_app_iff.
    intros [?|[Hc|?]]; [done| |].
    + simpl in Hc. destruct Hc as [?|[]]. by destruct Hac.
    + by apply IH.
Qed.

(** The lines of a text read with universal newlines, and what they are
    joined to, hold no carriage return. *)
Lemma lines_clean content :
  str_in (str1 carriage_return) content = false ->
  Forall (fun l => ~ In carriage_return (chars l)) (str_split newline content).
Proof.
  intros Hclean. apply str_split_chars. by apply str_free_chars.
Qed.

(** X1.  A narrative log in which no separator line stands right under a
    line naming [Source] is rewritten as it was read: after the event it
    holds the text read from it, carriage returns read as line feeds,
    and every other path is as it was; the whole file system is left as
    it is when the log already held that text. *)
Theorem log_to_markdown_without_table
  (fs : node) (session : json) (entry : LogEntry) (p : path) (content : string) :
  session_path e session "session_log" = Ok p ->
  read_text fs p = Ok content ->
  (forall i h l,
     str_split newline content !! i = Some h ->
     str_split newline content !! S i = Some l ->
     ~ table_head h l) ->
  exists fs',
    log_to_markdown e fs session entry = Ok fs' /\
    read_bytes fs' p = Ok content /\
    (forall q, q <> p -> view fs' q = view fs q) /\
    (read_bytes fs p = Ok content -> fs' = fs).
Proof.
  intros Hp Hread Hfree.
  destruct (log_to_markdown_file e fs session entry p content Hp Hread)
    as (fs' & Hlog & Hbytes & Hother).
  rewrite insert_row_free, str_join_split in Hbytes; [|done|done].
  exists fs'. split; [done|]. split; [done|]. split; [done|].
  intros Hsame. apply read_bytes_file in Hsame.
  unfold log_to_markdown in Hlog. rewrite Hp in Hlog. cbn [bind] in Hlog.
  unfold path_exists in Hlog. rewrite Hsame in Hlog. cbn [negb] in Hlog.
  rewrite Hread in Hlog. cbn [bind] in Hlog.
  rewrite insert_row_free, str_join_split in Hlog; [|done|done].
  by apply (fs_alter_same _ _ _ _ _ Hsame eq_refl Hlog).
Qed.

Lemma lines_one_line content :
  str_in (str1 carriage_return) content = false ->
  Forall one_line (str_split newline content).
Proof.
  intros Hclean. apply Forall_forall. intros l Hl. split.
  - pose proof (str_split_no_sep newline content) as Hall.
    rewrite Forall_forall in Hall. by apply Hall.
  - apply lines_clean in Hclean. rewrite Forall_forall in Hclean.
    apply str_free_chars. apply Hclean. done.
Qed.

Lemma one_line_join lines :
  Forall one_line lines ->
  str_in (str1 carriage_return) (str_join (str1 newline) lines) = false.
Proof.
  intros Hall. apply str_free_chars. apply str_join_chars; [done|].
  eapply Forall_impl; [exact Hall|]. intros l [_ Hl]. by apply str_free_chars.
Qed.

(** A row under the head of the table: the log holds the lines given,
    each of them one line, with the head among them. *)
Lemma log_to_markdown_under_head
  (fs : node) (session : json) (entry : LogEntry) (p : path)
  (header sep : string) (before rest : list string) :
  session_path e session "session_log" = Ok p ->
  read_text fs p
  = Ok (str_join (str1 newline) (before ++ header :: sep :: rest)) ->
  Forall (fun s => str_in (str1 newline) s = false)
    (before ++ header :: sep :: rest) ->
  Forall (fun l => String.prefix "|---" l = false) (before ++ [header]) ->
  table_head header sep ->
  exists fs',
    log_to_markdown e fs session entry = Ok fs' /\
    read_bytes fs' p
    = Ok (str_join (str1 newline)
            (before ++ header :: sep :: markdown_row entry :: rest)).
Proof.
  intros Hp Hread Hlines Hfree Hhead.
  destruct (log_to_markdown_file e fs session entry p _ Hp Hread)
    as (fs' & Hlog & Hbytes & _).
  rewrite str_split_join in Hbytes; [|by destruct before|done].
  rewrite insert_row_first in Hbytes by done.
  by exists fs'.
Qed.

(** X2.  Two events logged in turn leave their rows right under the head
    of the URL table, the later one first, when the row of the earlier
    one is one line: it holds no line feed and no carriage return. *)
Theorem log_to_markdown_newest_first
  (fs : node) (session : json) (first second : LogEntry) (p : path)
  (content header sep : string) (before after : list string) :
  session_path e session "session_log" = Ok p ->
  read_text fs p = Ok content ->
  str_split newline content = before ++ header :: sep :: after ->
  Forall (fun l => String.prefix "|---" l = false) (before ++ [header]) ->
  table_head header sep ->
  one_line (markdown_row first) ->
  exists fs1 fs2,
    log_to_markdown e fs session first = Ok fs1 /\
    log_to_markdown e fs1 session second = Ok fs2 /\
    read_bytes fs2 p
    = Ok (str_join (str1 newline)
            (before ++ header :: sep
                    :: markdown_row second :: markdown_row first :: after)).
Proof.
  intros Hp Hread Hsplit Hfree Hhead Hrow.
  assert (Forall one_line (before ++ header :: sep :: after)) as Hlines.
  { rewrite <- Hsplit. apply lines_one_line.
    apply read_text_ok in Hread as (c & _ & ->).
    apply universal_newlines_clean. }
  assert (Forall one_line
            (before ++ header :: sep :: markdown_row first :: after))
    as Hlines1.
  { apply Forall_app in Hlines as [Hb Hrest].
    apply Forall_cons in Hrest as [Hh Hrest].
    apply Forall_cons in Hrest as [Hs Ha].
    apply Forall_app. split; [done|]. repeat (constructor; [done|]). done. }
  rewrite <- (str_join_split newline content) in Hread.
  rewrite Hsplit in Hread.
  destruct (log_to_markdown_under_head fs session first p header sep
              before after Hp Hread) as (fs1 & Hlog1 & Hread1); [|done|done|].
  { eapply Forall_impl; [exact Hlines|]. by intros l [? _]. }
  apply read_text_bytes in Hread1.
  rewrite (universal_newlines_plain _ (one_line_join _ Hlines1)) in Hread1.
  destruct (log_to_markdown_under_head fs1 session second p header sep
              before (markdown_row first :: after) Hp Hread1)
    as (fs2 & Hlog2 & Hread2); [|done|done|].
  { eapply Forall_impl; [exact Hlines1|]. by intros l [? _]. }
  by exists fs1, fs2.
Qed.

Lemma str_app_inv_tail c : forall s t, s +:+ str1 c = t +:+ str1 c -> s = t.
Proof.
  induction s as [|a s IH]; intros [|b t] Heq; [done| | |].
  - injection Heq as _ Heq. by destruct t.
  - injection Heq as _ Heq. by destruct s.
  - injection Heq as -> Heq. f_equal. by apply IH.
Qed.

(** Doubling the quotes loses nothing. *)
Lemma str_replace_quote_inj : forall s t,
  str_replace dquote (str1 dquote +:+ str1 dquote) s
  = str_replace dquote (str1 dquote +:+ str1 dquote) t -> s = t.
Proof.
  induction s as [|a s IH]; intros [|b t]; simpl.
  - done.
  - destruct (Ascii.eqb b dquote); done.
  - destruct (Ascii.eqb a dquote); done.
  - destruct (Ascii.eqb_spec a dquote) as [->|Ha],
             (Ascii.eqb_spec b dquote) as [->|Hb]; simpl.
    + intros [= Heq]. f_equal. by apply IH.
    + intros [= Heq _]. congruence.
    + intros [= Heq _]. congruence.
    + intros [= -> Heq]. f_equal. by apply IH.
Qed.

(** X3.  The CSV quoting is one to one: two fields with the same quoted
    text are the same field; a field without comma, quote and newline is
    written as it is, any other between quotes. *)
Theorem escape_injective (s t : string) :
  (escape s = escape t -> s = t) /\
  (special s = false -> escape s = s) /\
  (special s = true ->
   escape s = str1 dquote
              +:+ str_replace dquote (str1 dquote +:+ str1 dquote) s
              +:+ str1 dquote).
Proof.
  assert (forall u, escape u = if special u
                               then str1 dquote
                                    +:+ str_replace dquote
                                          (str1 dquote +:+ str1 dquote) u
                                    +:+ str1 dquote
                               else u) as Hesc by done.
  assert (forall u v, special u = true -> special v = false ->
            escape u <> escape v) as Hmixed.
  { intros u v Hu Hv. rewrite !Hesc, Hu, Hv. intros Heq.
    unfold special in Hv. apply orb_false_elim in Hv as [Hv _].
    apply orb_false_elim in Hv as [_ Hv]. rewrite <- Heq in Hv.
    change (str1 dquote +:+ ?x) with (String dquote x) in Hv.
    rewrite str_in_char_cons, Ascii.eqb_refl in Hv. done. }
  split; [|split].
  - destruct (special s) eqn:Hs, (special t) eqn:Ht.
    + rewrite !Hesc, Hs, Ht. intros Heq.
      change (str1 dquote +:+ ?x) with (String dquote x) in Heq.
      injection Heq as Heq. apply str_app_inv_tail in Heq.
      by apply str_replace_quote_inj.
    + intros Heq. by destruct (Hmixed s t).
    + intros Heq. by destruct (Hmixed t s).
    + by rewrite !Hesc, Hs, Ht.
  - intros Hs. by rewrite Hesc, Hs.
  - intros Hs. by rewrite Hesc, Hs.
Qed.

Lemma log_to_markdown_view fs session entry fs' q :
  log_to_markdown e fs session entry = Ok fs' ->
  session_path e session "session_log" <> Ok q ->
  view fs' q = view fs q.
Proof.
  unfold log_to_markdown. intros Hlog Hq. bind_inv Hlog.
  destruct (path_exists fs a); cbn [negb] in Hlog;
    [|by injection Hlog as <-].
  bind_inv Hlog. apply (write_text_view _ _ _ _ _ Hlog). congruence.
Qed.

Lemma log_to_scratchpad_view fs session entry fs' q :
  log_to_scratchpad e fs session entry = Ok fs' ->
  session_path e session "scratchpad" <> Ok q ->
  view fs' q = view fs q.
Proof.
  unfold log_to_scratchpad. intros Hlog Hq. bind_inv Hlog.
  destruct (path_exists fs a); cbn [negb] in Hlog;
    [|by injection Hlog as <-].
  bind_inv Hlog. bind_inv Hlog. destruct a1; try done. bind_inv Hlog.
  apply (write_text_view _ _ _ _ _ Hlog). congruence.
Qed.

Lemma log_to_csv_view fs session entry fs' q :
  log_to_csv e fs session entry = Ok fs' ->
  session_path e session "sources" <> Ok q ->
  view fs' q = view fs q.
Proof.
  unfold log_to_csv. intros Hlog Hq. bind_inv Hlog.
  destruct (path_exists fs a); cbn [negb] in Hlog;
    [|by injection Hlog as <-].
  apply (append_text_view _ _ _ _ _ Hlog). congruence.
Qed.

(** X4.  A run of [main] changes nothing but its three recorded targets:
    any other path shows what it showed before, and so the session
    document keeps its text, counters included, unless it is recorded as
    a target itself. *)
Theorem main_touches_targets_only
  (fs fs' : node) (args : Args) (now : datetime) (code : Z)
  (out : list string) (session : json) (q : path) :
  main e fs args now = Ok (fs', code, out) ->
  LogUrl.get_current_session e fs = Ok session ->
  (forall k, In k ["session_log"; "scratchpad"; "sources"] ->
     session_path e session k <> Ok q) ->
  view fs' q = view fs q /\
  read_text fs' q = read_text fs q /\
  path_exists fs' q = path_exists fs q.
Proof.
  intros Hmain Hsession Hq.
  assert (view fs' q = view fs q) as Hview.
  { unfold main in Hmain. rewrite Hsession in Hmain. cbn [bind] in Hmain.
    destruct (py_truthy session); cbn [negb] in Hmain;
      [|by injection Hmain as <- _ _].
    bind_inv Hmain. bind_inv Hmain. injection Hmain as <- _ _.
    unfold log_all in Ha0. bind_inv Ha0. bind_inv Ha0.
    rewrite (log_to_csv_view _ _ _ _ _ Ha0) by (apply Hq; simpl; tauto).
    rewrite (log_to_scratchpad_view _ _ _ _ _ Ha2) by (apply Hq; simpl; tauto).
    apply (log_to_markdown_view _ _ _ _ _ Ha1). apply Hq; simpl; tauto. }
  by rewrite !read_text_view, !path_exists_view, Hview.
Qed.

Lemma detect_source_choice url s :
  detect_source url = Ok s -> In s source_choices.
Proof.
  unfold detect_source, source_choices. intros Hs. bind_inv Hs.
  injection Hs as <-.
  repeat match goal with
         | |- context [if ?b then _ else _] => destruct b
         end; simpl; tauto.
Qed.

(** X5.  The source of an entry is always one of the ten tags [--source]
    accepts: the detected one is, and a given one is taken as it is.  An
    entry is built for every URL that [urlparse] accepts; for one it
    refuses, detection raises [ValueError]. *)
Theorem build_entry_source_choice (args : Args) (now : datetime) :
  (forall s, detect_source (args_url args) = Ok s -> In s source_choices) /\
  (forall s entry,
     args_source args = Some s -> In s source_choices ->
     build_entry args now = Ok entry -> source entry = s) /\
  (forall entry,
     build_entry args now = Ok entry ->
     match args_source args with
     | Some s => In s source_choices
     | None => True
     end -> In (source entry) source_choices) /\
  (forall parsed, urlparse (args_url args) = Some parsed ->
     exists entry, build_entry args now = Ok entry) /\
  (urlparse (args_url args) = None ->
   detect_source (args_url args) = Raise ValueError).
Proof.
  split; [apply detect_source_choice|]. split; [|split; [|split]].
  - intros s entry Hs Hin Hbuild. unfold build_entry in Hbuild.
    rewrite Hs in Hbuild. cbn [str_or_else] in Hbuild.
    destruct (String.eqb_spec s EmptyString) as [->|].
    { simpl in Hin. repeat (destruct Hin as [?|Hin]; [done|]). done. }
    cbn [bind] in Hbuild. bind_inv Hbuild. by injection Hbuild as <-.
  - intros entry Hbuild Hgiven. unfold build_entry in Hbuild.
    bind_inv Hbuild. bind_inv Hbuild. injection Hbuild as <-. cbn [source].
    destruct (args_source args) as [s|]; cbn [str_or_else] in Ha;
      [|by apply (detect_source_choice (args_url args))].
    destruct (String.eqb s EmptyString);
      [by apply (detect_source_choice (args_url args))|].
    by injection Ha as <-.
  - intros parsed Hparsed.
    assert (exists s, detect_source (args_url args) = Ok s) as [s Hs]
      by (unfold detect_source; rewrite Hparsed; cbn [from_option bind]; eauto).
    assert (forall s', exists n, extract_name (args_url args) s' = Ok n)
      as Hname
      by (intros s'; unfold extract_name; rewrite Hparsed;
          cbn [from_option bind]; eauto).
    assert (exists s', str_or_else (args_source args)
                         (detect_source (args_url args)) = Ok s')
      as [s' Hs'].
    { destruct (args_source args) as [x|]; cbn [str_or_else]; [|eauto].
      destruct (String.eqb x EmptyString); eauto. }
    assert (exists n, str_or_else (args_name args)
                        (extract_name (args_url args) s') = Ok n)
      as [n Hn].
    { destruct (args_name args) as [x|]; cbn [str_or_else]; [|apply Hname].
      destruct (String.eqb x EmptyString); [apply Hname | eauto]. }
    unfold build_entry. rewrite Hs'. cbn [bind]. rewrite Hn. cbn [bind].
    eauto.
  - intros Hnone. unfold detect_source. by rewrite Hnone.
Qed.

End LogUrlFurther.


(** ** The scratchpad over a run of events *)

Section Replay.
Import LogUrl.

Lemma ensure_keeps k v sp :
  dict_get k sp = Some v -> dict_get k (ensure_scratchpad_keys sp) = Some v.
Proof. intros Hk. by rewrite ensure_scratchpad_keys_lookup_aux, Hk. Qed.

(** One event, on a scratchpad whose three URL sequences are lists. *)
Lemma apply_log_event_step sp entry visited used skipped :
  dict_get "urls_visited" sp = Some (JList visited) ->
  dict_get "urls_used" sp = Some (JList used) ->
  dict_get "urls_skipped" sp = Some (JList skipped) ->
  exists sp',
    apply_log_event sp entry = Ok sp' /\
    dict_get "urls_visited" sp' = Some (JList (visited ++ [url_entry entry])) /\
    dict_get "urls_used" sp'
    = Some (JList (used ++ (if LogUrl.used entry
                            then [JStr (url entry)] else []))) /\
    dict_get "urls_skipped" sp'
    = Some (JList (skipped ++ (if negb (LogUrl.used entry) && LogUrl.skipped entry
                               then [JStr (url entry)] else []))) /\
    dict_get "last_updated" sp' = Some (JStr (timestamp entry)) /\
    (forall k,
       ~ In k ["urls_visited"; "urls_used"; "urls_skipped"; "last_updated"] ->
       dict_get k sp' = dict_get k (ensure_scratchpad_keys sp)).
Proof.
  intros Hv Hu Hs.
  apply ensure_keeps in Hv, Hu, Hs.
  set (sp0 := ensure_scratchpad_keys sp) in *.
  set (sp1 := dict_set "urls_visited" (JList (visited ++ [url_entry entry])) sp0).
  assert (dict_get "urls_used" sp1 = Some (JList used)) as Hu1
    by (unfold sp1; by rewrite dict_get_set_ne).
  assert (dict_get "urls_skipped" sp1 = Some (JList skipped)) as Hs1
    by (unfold sp1; by rewrite dict_get_set_ne).
  set (sp2 := if LogUrl.used entry
              then dict_set "urls_used" (JList (used ++ [JStr (url entry)])) sp1
              else if LogUrl.skipped entry
                   then dict_set "urls_skipped"
                          (JList (skipped ++ [JStr (url entry)])) sp1
                   else sp1).
  exists (dict_set "last_updated" (JStr (timestamp entry)) sp2).
  split.
  { unfold apply_log_event. fold sp0.
    rewrite (dict_append_ok _ _ _ _ Hv). cbn [bind]. fold sp1. unfold sp2.
    destruct (LogUrl.used entry); [by rewrite (dict_append_ok _ _ _ _ Hu1)|].
    destruct (LogUrl.skipped entry); [by rewrite (dict_append_ok _ _ _ _ Hs1)|].
    done. }
  unfold sp2, sp1. repeat split.
  - destruct (LogUrl.used entry), (LogUrl.skipped entry);
      by rewrite !dict_get_set.
  - destruct (LogUrl.used entry), (LogUrl.skipped entry);
      rewrite !dict_get_set; cbn; by rewrite ?app_nil_r.
  - destruct (LogUrl.used entry), (LogUrl.skipped entry);
      rewrite !dict_get_set; cbn; by rewrite ?app_nil_r.
  - apply dict_get_set_eq.
  - intros k Hk. simpl in Hk.
    assert (forall a b d, a <> k -> dict_get k (dict_set a b d) = dict_get k d)
      as Hne by (intros; by apply dict_get_set_ne).
    destruct (LogUrl.used entry), (LogUrl.skipped entry);
      rewrite !Hne; try done; intros <-; tauto.
Qed.

Lemma viral_candidates_truthy_ensure sp :
  py_truthy (dict_get_or "viral_candidates" JNull (ensure_scratchpad_keys sp))
  = py_truthy (dict_get_or "viral_candidates" JNull sp).
Proof.
  unfold dict_get_or. rewrite ensure_scratchpad_keys_lookup_aux.
  by destruct (dict_get "viral_candidates" sp).
Qed.

(** A run of events, on a scratchpad whose three URL sequences are
    lists. *)
Lemma log_events_lists (entries : list LogEntry) :
  forall (sp : dict) (visited used skipped : list json),
  dict_get "urls_visited" sp = Some (JList visited) ->
  dict_get "urls_used" sp = Some (JList used) ->
  dict_get "urls_skipped" sp = Some (JList skipped) ->
  exists sp',
    for_each apply_log_event entries sp = Ok sp' /\
    dict_get "urls_visited" sp'
    = Some (JList (visited ++ map url_entry entries)) /\
    dict_get "urls_used" sp' = Some (JList (used ++ used_urls entries)) /\
    dict_get "urls_skipped" sp'
    = Some (JList (skipped ++ skipped_urls entries)) /\
    (forall entry, last entries = Some entry ->
       dict_get "last_updated" sp' = Some (JStr (timestamp entry))) /\
    py_truthy (dict_get_or "viral_candidates" JNull sp')
    = py_truthy (dict_get_or "viral_candidates" JNull sp).
Proof.
  induction entries as [|entry entries IH]; intros sp visited used skipped Hv Hu Hs.
  - exists sp. simpl. rewrite !app_nil_r. repeat split; done.
  - destruct (apply_log_event_step sp entry _ _ _ Hv Hu Hs)
      as (sp1 & Happly & Hv1 & Hu1 & Hs1 & Hlast1 & Hother).
    destruct (IH sp1 _ _ _ Hv1 Hu1 Hs1)
      as (sp' & Hrun & Hv' & Hu' & Hs' & Hlast' & Hviral).
    exists sp'. split; [simpl; by rewrite Happly|].
    rewrite <- !app_assoc in Hv', Hu', Hs'.
    split; [done|]. unfold used_urls, skipped_urls. cbn [List.filter].
    split; [by destruct (LogUrl.used entry)|].
    split; [by destruct (negb (LogUrl.used entry) && LogUrl.skipped entry)|].
    split.
    + intros last_entry Hlast. destruct entries as [|entry' entries].
      * simpl in Hlast. injection Hlast as <-. simpl in Hrun.
        by injection Hrun as <-.
      * apply Hlast'. exact Hlast.
    + rewrite Hviral, <- (viral_candidates_truthy_ensure sp).
      unfold dict_get_or. rewrite Hother; [done|].
      simpl. intros [?|[?|[?|[?|[]]]]]; done.
Qed.

(** X6.  After any run of events the scratchpad holds the record of every
    event in [urls_visited], in order, the URLs of the used ones in
    [urls_used] and those of the skipped ones that were not used in
    [urls_skipped], after what the three sequences held before. *)
Theorem log_events_replay (entries : list LogEntry) :
  forall (sp : dict) (visited used skipped : list json),
  dict_get "urls_visited" sp = Some (JList visited) ->
  dict_get "urls_used" sp = Some (JList used) ->
  dict_get "urls_skipped" sp = Some (JList skipped) ->
  exists sp',
    for_each apply_log_event entries sp = Ok sp' /\
    dict_get "urls_visited" sp'
    = Some (JList (visited ++ map url_entry entries)) /\
    dict_get "urls_used" sp' = Some (JList (used ++ used_urls entries)) /\
    dict_get "urls_skipped" sp'
    = Some (JList (skipped ++ skipped_urls entries)) /\
    (forall entry, last entries = Some entry ->
       dict_get "last_updated" sp' = Some (JStr (timestamp entry))).
Proof.
  intros sp visited used skipped Hv Hu Hs.
  destruct (log_events_lists entries sp _ _ _ Hv Hu Hs)
    as (sp' & Hrun & Hv' & Hu' & Hs' & Hlast & _).
  by exists sp'.
Qed.

(** X7.  The archive counts what was logged: after a run of events the
    statistics of [count_urls] are the numbers of events, of used events
    and of skipped events that were not used, added to what the
    scratchpad held before; and in a session without viral candidates
    the key finding of the index is the count of used URLs, or the
    placeholder when none was used. *)
Theorem count_urls_after_events
  (entries : list LogEntry) (sp sp' : dict) (visited used skipped : list json) :
  dict_get "urls_visited" sp = Some (JList visited) ->
  dict_get "urls_used" sp = Some (JList used) ->
  dict_get "urls_skipped" sp = Some (JList skipped) ->
  for_each apply_log_event entries sp = Ok sp' ->
  let stats :=
    {| ArchiveSession.total := length visited + length entries;
       ArchiveSession.used := length used + length (used_urls entries);
       ArchiveSession.skipped := length skipped + length (skipped_urls entries) |} in
  ArchiveSession.count_urls (JDict sp') = Ok stats /\
  (py_truthy (dict_get_or "viral_candidates" JNull sp) = false ->
   ArchiveSession.key_finding (JDict sp') stats
   = Ok (JStr (match (used ++ used_urls entries)%list with
               | [] => "See report"
               | _ :: _ =>
                   pretty (length used + length (used_urls entries))%nat
                   +:+ " URLs used"
               end))).
Proof.
  intros Hv Hu Hs Hrun stats.
  destruct (log_events_lists entries sp _ _ _ Hv Hu Hs)
    as (sp1 & Hrun1 & Hv' & Hu' & Hs' & _ & Hviral).
  rewrite Hrun in Hrun1. injection Hrun1 as <-. split.
  - unfold ArchiveSession.count_urls, py_get_or, dict_get_or.
    rewrite Hv', Hu', Hs'. cbn [bind py_len].
    rewrite !length_app, length_map. done.
  - intros Hno. unfold ArchiveSession.key_finding, py_get, py_get_or.
    cbn [bind]. rewrite Hviral, Hno.
    unfold dict_get_or at 1. rewrite Hu'. cbn [py_truthy].
    destruct (used ++ used_urls entries) eqn:Hl; [done|].
    cbn [ArchiveSession.used stats]. done.
Qed.

Lemma visited_url_entry entry : visited_url (url_entry entry) = Some (JStr (url entry)).
Proof. reflexivity. Qed.

(** X8.  A log event keeps the bookkeeping sound: on a scratchpad whose
    used and skipped URLs are all URLs of visited records, and no more
    than those, the event goes through and the same holds after it. *)
Theorem apply_log_event_sound (sp : dict) (entry : LogEntry) :
  sound_urls sp ->
  exists sp', apply_log_event sp entry = Ok sp' /\ sound_urls sp'.
Proof.
  intros (visited & used & skipped & Hv & Hu & Hs & Hin & Hlen).
  destruct (apply_log_event_step sp entry _ _ _ Hv Hu Hs)
    as (sp' & Happly & Hv' & Hu' & Hs' & _).
  exists sp'. split; [done|].
  eexists _, _, _. split; [exact Hv'|]. split; [exact Hu'|].
  split; [exact Hs'|]. split.
  - intros u Hu0. rewrite !in_app_iff in Hu0.
    assert (In u (used ++ skipped) \/ u = JStr (url entry)) as [Hold| ->].
    { rewrite in_app_iff.
      destruct Hu0 as [[?|Hnew]|[?|Hnew]]; try tauto.
      - destruct (LogUrl.used entry); simpl in Hnew; [|done].
        destruct Hnew as [<-|[]]. by right.
      - destruct (negb (LogUrl.used entry) && LogUrl.skipped entry);
          simpl in Hnew; [|done].
        destruct Hnew as [<-|[]]. by right. }
    + destruct (Hin u Hold) as (item & Hitem & Hurl).
      exists item. split; [|done]. apply in_app_iff. by left.
    + exists (url_entry entry). split; [|done]. apply in_app_iff.
      right. by left.
  - rewrite !length_app. cbn [length].
    destruct (LogUrl.used entry), (LogUrl.skipped entry); simpl; lia.
Qed.

(** X9.  The scratchpad of a new session has the fifteen keys of the
    schema in their order, is left as it is by the defaulting of
    [log_url.py], and has sound, empty URL bookkeeping; it cannot be made
    only when the session lacks one of the five identity keys. *)
Theorem create_scratchpad_complete (session : dict) :
  (forall sp, InitSession.create_scratchpad session = Ok sp ->
     map fst sp = InitSession.scratchpad_keys /\
     ensure_scratchpad_keys sp = sp /\
     sound_urls sp) /\
  ((forall k, In k ["session_id"; "topic"; "workflow"; "environment"; "started"] ->
      dict_has k session = true) <->
   exists sp, InitSession.create_scratchpad session = Ok sp).
Proof.
  split.
  - intros sp Hsp. unfold InitSession.create_scratchpad in Hsp.
    repeat bind_inv Hsp. injection Hsp as <-. split; [done|]. split.
    + apply fold_defaults_complete. intros k Hk. simpl in Hk.
      repeat (destruct Hk as [<-|Hk]; [done|]). done.
    + exists [], [], []. repeat split; done.
  - split.
    + intros Hall. unfold InitSession.create_scratchpad, dict_item.
      assert (forall k, In k ["session_id"; "topic"; "workflow";
                              "environment"; "started"] ->
                exists v, dict_get k session = Some v) as Hget.
      { intros k Hk. apply dict_has_true. by apply Hall. }
      destruct (Hget "session_id") as [v1 ->]; [simpl; tauto|].
      destruct (Hget "topic") as [v2 ->]; [simpl; tauto|].
      destruct (Hget "workflow") as [v3 ->]; [simpl; tauto|].
      destruct (Hget "environment") as [v4 ->]; [simpl; tauto|].
      destruct (Hget "started") as [v5 ->]; [simpl; tauto|].
      simpl. eauto.
    + intros [sp Hsp] k Hk. unfold InitSession.create_scratchpad in Hsp.
      repeat bind_inv Hsp. apply dict_has_true. unfold dict_item in *.
      simpl in Hk.
      repeat (destruct Hk as [<-|Hk];
              [match goal with
               | Hx : from_option _ (dict_get ?key session) = Ok _ |- context [?key] =>
                   destruct (dict_get key session); [eauto | done]
               end|]).
      done.
Qed.

End Replay.


(** ** Starting and listing sessions *)

Section NewSessions.
Context `{PyLib} `{HostLib}.
Variable e : env.
Import NewSession.

Lemma str_take_chars P n : forall s,
  Forall P (chars s) -> Forall P (chars (str_take n s)).
Proof.
  induction n as [|n IH]; intros [|a s] Hall; simpl; try by constructor.
  apply Forall_cons in Hall as [Ha Hs]. constructor; [done | by apply IH].
Qed.

Lemma str_take_le n : forall s, (String.length (str_take n s) <= n)%nat.
Proof.
  induction n as [|n IH]; intros [|a s]; simpl; try lia.
  specialize (IH s). lia.
Qed.

Lemma str_lstrip_chars P c : forall s,
  Forall P (chars s) -> Forall P (chars (str_lstrip c s)).
Proof.
  induction s as [|a s IH]; intros Hall; simpl; [done|].
  destruct (Ascii.eqb a c); [|done].
  apply Forall_cons in Hall as [_ Hs]. by apply IH.
Qed.

Lemma str_lstrip_le c : forall s,
  (String.length (str_lstrip c s) <= String.length s)%nat.
Proof.
  induction s as [|a s IH]; simpl; [lia|].
  destruct (Ascii.eqb a c); simpl; lia.
Qed.

Lemma str_lstrip_head c s r : str_lstrip c s <> String c r.
Proof.
  induction s as [|a s IH]; simpl; [done|].
  destruct (Ascii.eqb_spec a c) as [->|Hne]; [done|]. congruence.
Qed.

Lemma str_rstrip_cons c a s :
  str_rstrip c (String a s) =
  match str_rstrip c s with
  | EmptyString => if Ascii.eqb a c then EmptyString else str1 a
  | r => String a r
  end.
Proof. reflexivity. Qed.

Lemma str_rstrip_chars P c : forall s,
  Forall P (chars s) -> Forall P (chars (str_rstrip c s)).
Proof.
  induction s as [|a s IH]; intros Hall; [done|].
  apply Forall_cons in Hall as [Ha Hs]. rewrite str_rstrip_cons.
  specialize (IH Hs). destruct (str_rstrip c s) as [|b r].
  - destruct (Ascii.eqb a c); [by constructor|]. by repeat constructor.
  - by constructor.
Qed.

Lemma str_rstrip_le c : forall s,
  (String.length (str_rstrip c s) <= String.length s)%nat.
Proof.
  induction s as [|a s IH]; [simpl; lia|]. rewrite str_rstrip_cons.
  destruct (str_rstrip c s) as [|b r].
  - destruct (Ascii.eqb a c); simpl; lia.
  - simpl in *. lia.
Qed.

Lemma str_rstrip_head c : forall s r,
  (forall r', s <> String c r') -> str_rstrip c s <> String c r.
Proof.
  intros [|a s] r Hs; [done|]. rewrite str_rstrip_cons.
  destruct (str_rstrip c s) as [|b t].
  - destruct (Ascii.eqb_spec a c) as [->|Hne]; [done|].
    by intros [= -> _].
  - intros [= -> _]. by destruct (Hs s).
Qed.

Lemma str_rstrip_last c : forall s r, str_rstrip c s <> r +:+ str1 c.
Proof.
  induction s as [|a s IH]; intros r; [by destruct r|].
  rewrite str_rstrip_cons. destruct (str_rstrip c s) as [|b t] eqn:Hs.
  - destruct (Ascii.eqb_spec a c) as [->|Hne]; [by destruct r|].
    destruct r as [|x r]; [by intros [= ->]|].
    intros [= _ Heq]. by destruct r.
  - destruct r as [|x r]; [done|].
    intros [= _ Heq]. by apply (IH r).
Qed.

Lemma dashed_chars s :
  Forall (fun c => isalnum c = true \/ c = "-"%char) (chars (dashed s)).
Proof.
  induction s as [|a s IH]; simpl; [by constructor|].
  constructor; [|done].
  destruct (isalnum a) eqn:Ha; simpl; [by left|].
  destruct (Ascii.eqb_spec a "-"); [by right | by right].
Qed.

Lemma safe_topic_chars n topic :
  Forall (fun c => isalnum c = true \/ c = "-"%char) (chars (safe_topic n topic)).
Proof.
  unfold safe_topic, str_strip.
  apply str_rstrip_chars, str_lstrip_chars, str_take_chars, dashed_chars.
Qed.

(** X10.  The safe form of a topic has at most as many characters as it is
    cut to, all of them alphanumeric or dashes, with no dash at either
    end. *)
Theorem safe_topic_shape (n : nat) (topic : string) :
  (String.length (safe_topic n topic) <= n)%nat /\
  Forall (fun c => isalnum c = true \/ c = "-"%char)
    (chars (safe_topic n topic)) /\
  (forall r, safe_topic n topic <> "-" +:+ r) /\
  (forall r, safe_topic n topic <> r +:+ "-").
Proof.
  unfold safe_topic, str_strip. repeat split.
  - etrans; [apply str_rstrip_le|]. etrans; [apply str_lstrip_le|].
    apply str_take_le.
  - apply safe_topic_chars.
  - intros r. apply str_rstrip_head. intros r'. apply str_lstrip_head.
  - intros r. apply (str_rstrip_last "-").
Qed.

Lemma list_loop_bound fs limit names : forall sessions result,
  list_loop e fs limit names sessions = Ok result ->
  (Z.of_nat (length result) <= Z.max (Z.of_nat (length sessions) + 1) limit)%Z.
Proof.
  induction names as [|name names IH]; intros sessions result Hloop.
  - simpl in Hloop. injection Hloop as <-. lia.
  - simpl in Hloop. bind_inv Hloop.
    assert (length a <= length sessions + 1)%nat as Hstep.
    { destruct (is_dir fs _ && path_exists fs _); [|injection Ha as <-; lia].
      bind_inv Ha. destruct (json_loads a0); [|injection Ha as <-; lia].
      bind_inv Ha. injection Ha as <-. rewrite length_app. simpl. lia. }
    destruct (limit <=? Z.of_nat (length a))%Z eqn:Hlim.
    + injection Hloop as <-. lia.
    + apply Z.leb_gt in Hlim. specialize (IH _ _ Hloop). lia.
Qed.

(** X11.  [list_sessions] gives at most [limit] sessions, and at most one
    when [limit] is zero or less: the loop looks at the newest directory
    before it tests the limit. *)
Theorem list_sessions_bound (fs : node) (limit : Z) (sessions : list json) :
  list_sessions e fs limit = Ok sessions ->
  (Z.of_nat (length sessions) <= Z.max 1 limit)%Z.
Proof.
  unfold list_sessions. intros Hlist.
  destruct (path_exists fs _); cbn [negb] in Hlist;
    [|injection Hlist as <-; simpl; lia].
  bind_inv Hlist. apply list_loop_bound in Hlist. simpl in Hlist. lia.
Qed.

End NewSessions.


(** ** Paths and their strings *)

Lemma str_app_nil_r s : s +:+ EmptyString = s.
Proof. induction s as [|a s IH]; [done|]. rewrite str_app_cons. by f_equal. Qed.

Lemma path_str_cons x p :
  path_str (x :: p)
  = "/" +:+ x +:+ match p with [] => EmptyString | _ => path_str p end.
Proof.
  destruct p as [|y p].
  - rewrite str_app_nil_r. reflexivity.
  - reflexivity.
Qed.

Lemma proper_name_line x : proper_name x -> str_in (str1 slash) x = false.
Proof. by intros (_ & _ & ?). Qed.

Lemma str_split_sep c t :
  str_split c (String c t) = EmptyString :: str_split c t.
Proof. simpl. by rewrite Ascii.eqb_refl. Qed.

Lemma path_str_tail p :
  p <> [] ->
  exists t, path_str p = String slash t /\
    (Forall proper_name p -> str_split slash t = p).
Proof.
  induction p as [|x p IH]; [done|]. intros _. rewrite path_str_cons.
  destruct p as [|y p].
  - exists x. rewrite str_app_nil_r. split; [done|]. intros Hall.
    apply Forall_cons in Hall as [Hx _].
    by apply str_split_line, proper_name_line.
  - destruct (IH ltac:(done)) as (t & -> & Ht).
    exists (x +:+ String slash t). split; [done|]. intros Hall.
    apply Forall_cons in Hall as [Hx Hp].
    rewrite (str_split_app_line _ _ _ (proper_name_line _ Hx)).
    by rewrite Ht.
Qed.

Lemma str_split_path_str p :
  p <> [] -> Forall proper_name p -> str_split slash (path_str p) = EmptyString :: p.
Proof.
  intros Hne Hall. destruct (path_str_tail p Hne) as (t & -> & Ht).
  by rewrite str_split_sep, Ht.
Qed.

Lemma filter_proper p :
  Forall proper_name p ->
  filter (fun x => x <> EmptyString /\ x <> ".") p = p.
Proof.
  induction p as [|x p IH]; intros Hall; [done|].
  apply Forall_cons in Hall as [(Hx1 & Hx2 & _) Hp].
  rewrite filter_cons_True by done. by rewrite IH.
Qed.

(** A path is read back from its string. *)
Lemma Path_path_str e p :
  p <> [] -> Forall proper_name p -> Path e (path_str p) = p.
Proof.
  intros Hne Hall. unfold Path, path_join, is_absolute, path_parts.
  rewrite str_split_path_str by done.
  destruct (path_str_tail p Hne) as (t & -> & _).
  assert (String.prefix "/" (String slash t) = true) as ->
    by (by destruct t).
  rewrite filter_cons_False by (intros [? _]; done).
  by apply filter_proper.
Qed.


(** ** A new session and its first event *)

Lemma last_name_ne (p q : path) x y : x <> y -> p ++ [x] <> q ++ [y].
Proof. intros Hne Heq. apply app_inj_tail in Heq as [_ ?]. done. Qed.

Lemma chars_last_app s t :
  t <> EmptyString -> last (chars (s +:+ t)) = last (chars t).
Proof.
  intros Ht. rewrite chars_app. destruct t as [|a t]; [done|].
  unfold chars at 2 3. simpl. apply last_app_cons.
Qed.

Section FirstEvent.
Context `{PyLib} `{HostLib}.
Variable e : env.
Import NewSession.

(** What [init_session] leaves, read from its run. *)
Lemma init_session_reads fs clock environ topic workflow env_arg fs' session :
  init_session e fs clock environ topic workflow env_arg = Ok (fs', session) ->
  exists queries sp log,
    let d := new_session e (generate_session_id clock topic) topic
               (safe_topic 30 topic) workflow
               (str_or env_arg (detect_environment environ))
               (isoformat (started_now clock)) queries (global_dir e clock topic) in
    let pl := Path e (path_str (local_dir e ++ ["session_log.md"])) in
    let ps := Path e (path_str (local_dir e ++ ["scratchpad.json"])) in
    let pc := Path e (path_str (local_dir e ++ [safe_topic 30 topic +:+ "_sources.csv"])) in
    let lj := local_dir e ++ ["session.json"] in
    let gj := global_dir e clock topic ++ ["session.json"] in
    session = JDict d /\
    InitSession.create_scratchpad d = Ok sp /\
    create_session_log session = Ok log /\
    read_bytes fs' gj = Ok (json_dumps session) /\
    read_bytes fs' lj = Ok (json_dumps session) /\
    (pc <> lj -> pc <> gj -> read_bytes fs' pc = Ok csv_header) /\
    (ps <> pc -> ps <> lj -> ps <> gj ->
     read_bytes fs' ps = Ok (json_dumps (JDict sp))) /\
    (pl <> ps -> pl <> pc -> pl <> lj -> pl <> gj -> read_bytes fs' pl = Ok log).
Proof.
  unfold init_session. intros Hinit.
  repeat match type of Hinit with
         | bind _ _ = Ok _ => bind_inv Hinit
         end.
  injection Hinit as <- <-.
  cbn in Ha3, Ha7, Ha9. injection Ha3 as <-. injection Ha7 as <-.
  injection Ha9 as <-.
  exists a2, a6, a4. cbn zeta. split; [done|]. split; [done|]. split; [done|].
  pose proof (write_text_read _ _ _ _ Ha12) as Hgj.
  pose proof (write_text_read _ _ _ _ Ha11) as Hlj.
  pose proof (write_text_read _ _ _ _ Ha10) as Hpc.
  pose proof (write_text_read _ _ _ _ Ha8) as Hps.
  pose proof (write_text_read _ _ _ _ Ha5) as Hpl.
  split; [done|]. split.
  { destruct (decide (local_dir e ++ ["session.json"]
                      = global_dir e clock topic ++ ["session.json"])) as [Heq|Hne].
    - by rewrite Heq.
    - by rewrite (read_bytes_other _ _ _ _ _ Ha12 Hne). }
  split.
  { intros H1 H2. rewrite (read_bytes_other _ _ _ _ _ Ha12 H2).
    by rewrite (read_bytes_other _ _ _ _ _ Ha11 H1). }
  split.
  { intros H1 H2 H3. rewrite (read_bytes_other _ _ _ _ _ Ha12 H3).
    rewrite (read_bytes_other _ _ _ _ _ Ha11 H2).
    by rewrite (read_bytes_other _ _ _ _ _ Ha10 H1). }
  intros H1 H2 H3 H4. rewrite (read_bytes_other _ _ _ _ _ Ha12 H4).
  rewrite (read_bytes_other _ _ _ _ _ Ha11 H3).
  rewrite (read_bytes_other _ _ _ _ _ Ha10 H2).
  by rewrite (read_bytes_other _ _ _ _ _ Ha8 H1).
Qed.


(** X12.  A session just started is recorded alike in both tiers: the
    local and the global [session.json] hold the same text, that of the
    returned session, whose status is [active]; when that text, read
    back, decodes to the session, both readers of the current session
    return it. *)
Theorem init_session_documents
  (fs : node) (clock : InitClock) (environ : string -> option string)
  (topic workflow : string) (env_arg : option string)
  (fs' : node) (session : json) :
  init_session e fs clock environ topic workflow env_arg = Ok (fs', session) ->
  read_bytes fs' (local_dir e ++ ["session.json"]) = Ok (json_dumps session) /\
  read_bytes fs' (global_dir e clock topic ++ ["session.json"])
  = Ok (json_dumps session) /\
  py_item "status" session = Ok (JStr "active") /\
  py_item "session_id" session = Ok (JStr (generate_session_id clock topic)) /\
  (json_loads (universal_newlines (json_dumps session)) = Some session ->
   LogUrl.get_current_session e fs' = Ok session /\
   ArchiveSession.get_current_session e fs' = Ok session).
Proof.
  intros Hinit.
  destruct (init_session_reads _ _ _ _ _ _ _ _ Hinit)
    as (queries & sp & log & -> & _ & _ & Hgj & Hlj & _).
  split; [done|]. split; [done|]. split; [done|]. split; [done|].
  intros Hcodec.
  assert (local_dir e ++ ["session.json"]
          = get_local_agent_dir e ++ ["research"; "session.json"]) as Hpath
    by (unfold local_dir; by rewrite <- app_assoc).
  pose proof (read_text_bytes _ _ _ Hlj) as Htext.
  split.
  - unfold LogUrl.get_current_session. rewrite <- Hpath.
    rewrite path_exists_view. pose proof Hlj as Hv.
    rewrite read_bytes_view in Hv.
    destruct (view fs' (local_dir e ++ ["session.json"])) as [[c|]|]; try done.
    rewrite Htext. cbn [bind]. unfold loads. by rewrite Hcodec.
  - unfold ArchiveSession.get_current_session.
    change (ArchiveSession.local_dir e) with (local_dir e).
    rewrite path_exists_view. pose proof Hlj as Hv.
    rewrite read_bytes_view in Hv.
    destruct (view fs' (local_dir e ++ ["session.json"])) as [[c|]|]; try done.
    rewrite Htext. cbn [bind]. by rewrite Hcodec.
Qed.

Lemma safe_topic_proper_name topic suffix :
  isalnum "/" = false ->
  suffix <> EmptyString -> str_in "/" suffix = false ->
  (2 <= String.length suffix)%nat ->
  proper_name (safe_topic 30 topic +:+ suffix).
Proof.
  intros Hslash Hne Hsuf Hlen. split; [|split].
  - destruct (safe_topic 30 topic); [done|done].
  - intros Heq. apply (f_equal String.length) in Heq.
    rewrite str_length_app in Heq. simpl in Heq. lia.
  - destruct (str_in "/" (safe_topic 30 topic +:+ suffix)) eqn:Hin; [|done].
    apply (str_in_char_chars "/") in Hin. rewrite chars_app in Hin.
    apply in_app_iff in Hin as [Hin|Hin].
    + pose proof (safe_topic_chars 30 topic) as Hall.
      rewrite Forall_forall in Hall. apply list_elem_of_In in Hin.
      destruct (Hall _ Hin) as [Hal|Hd]; [by rewrite Hslash in Hal | done].
    + apply (str_in_char_chars "/") in Hin. unfold str1 in Hin. congruence.
Qed.

Lemma sources_name_ne safe x :
  last (chars x) <> Some "v"%char -> safe +:+ "_sources.csv" <> x.
Proof.
  intros Hlast Heq. apply Hlast. rewrite <- Heq.
  by rewrite chars_last_app.
Qed.

Lemma local_file_path name :
  Forall proper_name (cwd e) -> proper_name name ->
  Path e (path_str (local_dir e ++ [name])) = local_dir e ++ [name].
Proof.
  intros Hcwd Hname. apply Path_path_str.
  - by destruct (local_dir e).
  - unfold local_dir, get_local_agent_dir. rewrite !Forall_app.
    split; [split; [split; [done|]|]|]; apply Forall_singleton; done.
Qed.

Lemma read_bytes_kept fs fs' (q : path) :
  view fs' q = view fs q -> read_bytes fs' q = read_bytes fs q.
Proof. intros Hview. by rewrite !read_bytes_view, Hview. Qed.


End FirstEvent.

(** ** The archive of a session *)

Lemma str_take_all n s : (String.length s <= n)%nat -> str_take n s = s.
Proof.
  revert s. induction n as [|n IH]; intros [|c s] Hn; simpl in *;
    try done; try lia.
  f_equal. apply IH. lia.
Qed.

Section ArchiveFurther.
Context `{PyLib}.
Variable e : env.
Import ArchiveSession.

(** X14.  The key finding of a text is never longer than 40 characters in
    the index: a text of at most 40 characters is kept, a longer one is
    cut to 40, and cutting what was cut changes nothing. *)
Theorem truncate_key_finding_bound (s : string) :
  exists t,
    truncate_key_finding (JStr s) = Ok (JStr t) /\
    (String.length t <= 40)%nat /\
    ((String.length s <= 40)%nat -> t = s) /\
    ((40 < String.length s)%nat -> String.length t = 40%nat) /\
    truncate_key_finding (JStr t) = Ok (JStr t).
Proof.
  unfold truncate_key_finding. cbn [py_len bind].
  destruct (40 <? String.length s)%nat eqn:Hlen.
  - apply Nat.ltb_lt in Hlen.
    assert (String.length (str_take 37 s +:+ "...") = 40%nat) as Hcut
      by (rewrite str_length_app, str_take_length; [done | lia]).
    exists (str_take 37 s +:+ "..."). split; [done|]. split; [lia|].
    split; [lia|]. split; [done|].
    by rewrite Hcut.
  - apply Nat.ltb_ge in Hlen. exists s. split; [done|]. split; [done|].
    split; [done|]. split; [lia|].
    apply Nat.ltb_ge in Hlen. by rewrite Hlen.
Qed.

(** X15.  A scratchpad that cannot be read is no obstacle to the archive
    but stops the log: when the recorded scratchpad path holds no file,
    or a text that is not JSON, [parse_scratchpad] gives the empty
    record, for which the archive counts no URL, extracts no learning
    and writes the placeholder as key finding; on such a text
    [log_to_scratchpad] raises the decoding error. *)
Theorem scratchpad_unreadable
  (fs : node) (session : json) (p : path) :
  session_path e session "scratchpad" = Ok p ->
  path_exists fs p = false
  \/ (exists text, read_text fs p = Ok text /\ json_loads text = None) ->
  (exists sp,
     parse_scratchpad e fs session = Ok sp /\
     count_urls sp = Ok {| total := 0; used := 0; skipped := 0 |} /\
     extract_learnings session sp = Ok [] /\
     (forall stats, key_finding sp stats = Ok (JStr "See report"))) /\
  (forall entry,
     path_exists fs p = true ->
     LogUrl.log_to_scratchpad e fs session entry = Raise JSONDecodeError).
Proof.
  intros Hp Hbad. split.
  - exists (JDict []). split; [|done].
    unfold parse_scratchpad. rewrite Hp. cbn [bind].
    destruct Hbad as [Hno|(text & Hread & Hjson)]; [by rewrite Hno|].
    rewrite Hread. cbn [bind]. rewrite Hjson.
    by destruct (path_exists fs p).
  - intros entry Hex. destruct Hbad as [Hno|(text & Hread & Hjson)];
      [congruence|].
    unfold LogUrl.log_to_scratchpad. rewrite Hp. cbn [bind].
    rewrite Hex. cbn [negb]. rewrite Hread. cbn [bind]. unfold loads.
    by rewrite Hjson.
Qed.

Lemma resources_from_no_url entries : forall earlier,
  py_in JNull earlier = false ->
  Forall (fun d => dict_get "url" d = None /\ high_relevance d = true) entries ->
  resources_from earlier entries = map resource_learning entries.
Proof.
  induction entries as [|d entries IH]; intros earlier Hnull Hall; [done|].
  apply Forall_cons in Hall as [[Hurl Hhigh] Hall]. simpl.
  unfold entry_url, dict_get_or at 1. rewrite Hurl, Hhigh, Hnull.
  cbn [andb negb]. f_equal. apply IH; [|done].
  rewrite py_in_app, Hnull. unfold dict_get_or. by rewrite Hurl.
Qed.

(** X16.  Visited records without a URL are not taken for one another:
    the test for a known URL looks for [None] while the learning is
    stored with the empty text as its URL, so every such record of
    relevance 3 or more gives a resource, one after the other, all with
    the empty URL. *)
Theorem extract_learnings_without_url
  (session : json) (sp : dict) (viral ground arxiv visited : list json) :
  py_iter (dict_get_or "viral_candidates" (JList []) sp) = Ok viral ->
  py_iter (dict_get_or "groundbreaker_candidates" (JList []) sp) = Ok ground ->
  py_iter (dict_get_or "arxiv_papers" (JList []) sp) = Ok arxiv ->
  py_iter (dict_get_or "urls_visited" (JList []) sp) = Ok visited ->
  Forall (fun d => dict_get "url" d = None /\ high_relevance d = true)
    (dicts visited) ->
  let first :=
    map tool_learning (dicts viral)
    ++ map innovation_learning (dicts ground)
    ++ map paper_learning (dicts arxiv) in
  py_in JNull (map url first) = false ->
  extract_learnings session (JDict sp)
  = Ok (first ++ map resource_learning (dicts visited)) /\
  Forall (fun l => url l = JStr EmptyString)
    (map resource_learning (dicts visited)).
Proof.
  intros Hviral Hground Harxiv Hvisited Hall first Hnull. split.
  - unfold extract_learnings, py_get_or. cbn [bind].
    rewrite Hviral. cbn [bind]. rewrite for_each_extend_with. cbn [bind].
    rewrite Hground. cbn [bind]. rewrite for_each_extend_with. cbn [bind].
    rewrite Harxiv. cbn [bind]. rewrite for_each_extend_with. cbn [bind].
    rewrite Hvisited. cbn [bind].
    rewrite for_each_extend_with_resource.
    + cbn [app]. rewrite <- !app_assoc. fold first.
      rewrite resources_from_no_url by done. unfold first.
      by rewrite <- !app_assoc.
    + eapply Forall_impl; [exact Hall|]. intros d [_ Hhigh].
      unfold high_relevance in Hhigh.
      destruct (py_ge3 (dict_get_or "relevance" (JInt 0) d)); [eauto|done].
  - apply Forall_map. eapply Forall_impl; [exact Hall|].
    intros d [Hurl _]. cbn [url resource_learning]. unfold dict_get_or.
    by rewrite Hurl.
Qed.

End ArchiveFurther.

(** ** Pushing a session *)

Section Push.
Context `{PyLib}.
Variable e : env.
Import SyncEnvironments.

Lemma write_twice_read fs p q s fs1 fs2 :
  write_text fs p s = Ok fs1 -> write_text fs1 q s = Ok fs2 ->
  read_bytes fs2 p = Ok s /\ read_bytes fs2 q = Ok s.
Proof.
  intros Hp Hq. split; [|by apply (write_text_read fs1)].
  destruct (decide (p = q)) as [->|Hne]; [by apply (write_text_read fs1)|].
  rewrite (read_bytes_other _ _ _ _ _ Hq Hne). by apply (write_text_read fs).
Qed.

(** X17.  A push leaves the same session document in both tiers: the
    session that was current, with the time, the direction and the
    environment of the push recorded in its [stats] and every other key
    as it was; a session without [stats] cannot be pushed. *)
Theorem push_session_documents
  (fs : node) (now : datetime) (environ : string -> option string) :
  (forall fs',
     push_session e fs now environ = Ok (fs', true) ->
     exists session sid stats session',
       get_current_session e fs = Ok session /\
       py_item "session_id" session = Ok (JStr sid) /\
       read_bytes fs' (local_dir e ++ ["session.json"])
       = Ok (json_dumps session') /\
       read_bytes fs'
         (path_join (get_agent_core_dir e ++ ["sessions"]) sid
          ++ ["session.json"])
       = Ok (json_dumps session') /\
       py_item "stats" session' = Ok stats /\
       py_item "last_sync" stats = Ok (JStr (isoformat now)) /\
       py_item "sync_direction" stats = Ok (JStr "push") /\
       py_item "sync_env" stats
       = Ok (JStr (NewSession.detect_environment environ)) /\
       (forall k, k <> "stats" -> py_item k session' = py_item k session)) /\
  (forall d,
     get_current_session e fs = Ok (JDict d) ->
     dict_get "stats" d = None ->
     forall r, push_session e fs now environ <> Ok (r, true)).
Proof.
  split.
  - unfold push_session. intros fs' Hpush. bind_inv Hpush.
    destruct (py_truthy a); cbn [negb] in Hpush; [|done].
    exists a.
    repeat match type of Hpush with
           | bind _ _ = Ok _ => bind_inv Hpush
           end.
    injection Hpush as <-.
    destruct a0 as [| | | |sid| |]; try done.
    match goal with
    | Hg : Ok _ = Ok _ |- _ => injection Hg as <-
    end.
    destruct a as [| | | | | |d]; try done.
    repeat match goal with
           | Hset : py_setitem _ _ ?j = Ok _ |- _ =>
               destruct j; try done; cbn [py_setitem] in Hset;
               injection Hset as <-
           end.
    match goal with
    | Hl : write_text _ (local_dir e ++ _) _ = Ok _,
      Hg : write_text _ (path_join _ _ ++ _) _ = Ok _ |- _ =>
        destruct (write_twice_read _ _ _ _ _ _ Hl Hg) as [Hrl Hrg]
    end.
    eexists sid, _, _. split; [done|]. split; [done|].
    split; [exact Hrl|]. split; [exact Hrg|].
    split; [cbn [py_item]; unfold dict_item; by rewrite dict_get_set_eq|].
    cbn [py_item]. unfold dict_item.
    split; [by rewrite !dict_get_set|].
    split; [by rewrite !dict_get_set|].
    split; [by rewrite !dict_get_set|].
    intros k Hk. by rewrite dict_get_set_ne.
  - intros d Hsession Hstats r Hpush. unfold push_session in Hpush.
    rewrite Hsession in Hpush. cbn [bind] in Hpush.
    destruct (py_truthy (JDict d)); cbn [negb] in Hpush; [|done].
    repeat match type of Hpush with
           | bind _ _ = Ok _ => bind_inv Hpush
           end.
    match goal with
    | Hs : py_item "stats" (JDict d) = Ok _ |- _ =>
        cbn [py_item] in Hs; unfold dict_item in Hs; by rewrite Hstats in Hs
    end.
Qed.

End Push.

(** ** The global records *)

Section GlobalRecords.
Context `{PyLib}.
Variable e : env.
Import ArchiveSession.

(** X18.  The session index only grows: a run of [update_session_index]
    leaves the text the index had, or its header when there was no
    index, followed by the row of the session. *)
Theorem update_session_index_appends
  (fs fs' : node) (session duration_min : json) (url_stats : UrlStats)
  (finding : json) (now : datetime) :
  update_session_index e fs session duration_min url_stats finding now
  = Ok fs' ->
  exists row,
    index_row session duration_min url_stats finding now = Ok row /\
    read_bytes fs' (get_agent_core_dir e ++ ["sessions"; "index.md"])
    = Ok (match read_bytes fs (get_agent_core_dir e ++ ["sessions"; "index.md"])
          with
          | Ok c => c
          | Raise _ => index_header
          end +:+ row).
Proof.
  unfold update_session_index. intros Hup.
  bind_inv Hup. bind_inv Hup. bind_inv Hup.
  exists a1. split; [done|].
  change (get_agent_core_dir e ++ ["sessions"; "index.md"])
    with (get_agent_core_dir e ++ ["sessions"] ++ ["index.md"]) in *.
  rewrite app_assoc in *.
  by apply (header_then_append _ _ _ _ _ _ _ _ Ha Ha0).
Qed.


End GlobalRecords.

(** ** The further properties on sample data *)


(** ** The further properties on sample data *)

Section FurtherSamples.
Import Examples FurtherExamples.

#[local] Existing Instance Sample.lib.
#[local] Existing Instance Host.lib.

(** X1 on a narrative log of two lines without a table. *)
Lemma log_to_markdown_without_table_sample :
  LogUrl.log_to_markdown env0 fs_plain_log session0 entry0 = Ok fs_plain_log.
Proof.
  destruct (log_to_markdown_without_table env0 fs_plain_log session0 entry0
              ["work"; ".agent"; "research"; "session_log.md"]
              ("# Notes" +:+ str1 newline +:+ "no table"))
    as (fs' & Hlog & _ & _ & Hsame).
  - vm_compute. reflexivity.
  - vm_compute. reflexivity.
  - intros i h l Hh Hl [Hsep _].
    destruct i as [|[|i]]; vm_compute in Hh, Hl; try discriminate.
    injection Hl as <-. vm_compute in Hsep. discriminate.
  - rewrite Hlog. f_equal. apply Hsame. vm_compute. reflexivity.
Defined.

(** The same log with lines ending in a carriage return and a line feed
    is rewritten with line feeds only. *)
Example log_to_markdown_crlf :
  LogUrl.log_to_markdown env0 fs_crlf_log session0 entry0 = Ok fs_plain_log.
Proof. vm_compute. reflexivity. Qed.

(** X2 on the sample log: the skipped event, logged second, comes first. *)
Lemma log_to_markdown_newest_first_sample :
  exists fs1 fs2,
    LogUrl.log_to_markdown env0 fs0 session0 entry0 = Ok fs1 /\
    LogUrl.log_to_markdown env0 fs1 session0 entry1 = Ok fs2 /\
    read_bytes fs2 ["work"; ".agent"; "research"; "session_log.md"]
    = Ok (str_join (str1 newline)
            [ "## URLs Visited"; EmptyString;
              "| Time | Source | URL | Used | Relevance | Notes |";
              "|------|--------|-----|------|-----------|-------|";
              LogUrl.markdown_row entry1; LogUrl.markdown_row entry0;
              EmptyString ]).
Proof.
  apply (log_to_markdown_newest_first env0 fs0 session0 entry0 entry1
           ["work"; ".agent"; "research"; "session_log.md"] session_log0
           "| Time | Source | URL | Used | Relevance | Notes |"
           "|------|--------|-----|------|-----------|-------|"
           ["## URLs Visited"; EmptyString] [EmptyString]).
  - vm_compute. reflexivity.
  - vm_compute. reflexivity.
  - vm_compute. reflexivity.
  - repeat constructor.
  - split; vm_compute; reflexivity.
  - split; vm_compute; reflexivity.
Defined.

(** X4 on the sample session: the session document is as it was after
    the event was logged. *)
Lemma main_touches_targets_only_sample :
  read_text logged0 ["work"; ".agent"; "research"; "session.json"]
  = Ok (Sample.dumps session0).
Proof.
  destruct (main_touches_targets_only env0 fs0 logged0 args_used_only now0 0
              (LogUrl.confirmation args_used_only entry0) session0
              ["work"; ".agent"; "research"; "session.json"])
    as (_ & Hread & _).
  - vm_compute. reflexivity.
  - vm_compute. reflexivity.
  - intros k Hk. simpl in Hk.
    destruct Hk as [<-|[<-|[<-|[]]]]; vm_compute; discriminate.
  - rewrite Hread. vm_compute. reflexivity.
Defined.

(** X6 on the scratchpad of a new session and two events. *)
Lemma log_events_replay_sample :
  exists sp',
    for_each LogUrl.apply_log_event [entry0; entry1] complete0 = Ok sp' /\
    dict_get "urls_visited" sp'
    = Some (JList [LogUrl.url_entry entry0; LogUrl.url_entry entry1]) /\
    dict_get "urls_used" sp' = Some (JList [JStr "https://github.com/user/repo"]) /\
    dict_get "urls_skipped" sp' = Some (JList [JStr "https://example.com/old"]).
Proof.
  destruct (log_events_replay [entry0; entry1] complete0 [] [] [])
    as (sp' & Hrun & Hv & Hu & Hs & _).
  - vm_compute. reflexivity.
  - vm_compute. reflexivity.
  - vm_compute. reflexivity.
  - exists sp'. split; [exact Hrun|]. split; [exact Hv|].
    split; [exact Hu | exact Hs].
Defined.

(** X7 on the sample scratchpad and events. *)
Lemma count_urls_after_events_sample :
  ArchiveSession.count_urls (JDict replayed0)
  = Ok {| ArchiveSession.total := 2; ArchiveSession.used := 1;
          ArchiveSession.skipped := 1 |} /\
  ArchiveSession.key_finding (JDict replayed0)
    {| ArchiveSession.total := 2; ArchiveSession.used := 1;
       ArchiveSession.skipped := 1 |}
  = Ok (JStr "1 URLs used").
Proof.
  destruct (count_urls_after_events [entry0; entry1] complete0 replayed0
              [] [] [])
    as [Hcount Hfinding].
  - vm_compute. reflexivity.
  - vm_compute. reflexivity.
  - vm_compute. reflexivity.
  - vm_compute. reflexivity.
  - split; [exact Hcount|]. apply Hfinding. vm_compute. reflexivity.
Defined.

(** X8 on the scratchpad of a new session. *)
Lemma apply_log_event_sound_sample :
  exists sp',
    LogUrl.apply_log_event complete0 entry0 = Ok sp' /\ sound_urls sp'.
Proof.
  apply (apply_log_event_sound complete0 entry0).
  exists [], [], [].
  split; [vm_compute; reflexivity|]. split; [vm_compute; reflexivity|].
  split; [vm_compute; reflexivity|]. split; [intros u []|simpl; lia].
Defined.

(** X11 on the sample store with a limit of zero: one session is listed. *)
Lemma list_sessions_bound_sample :
  exists sessions,
    NewSession.list_sessions env0 fs0 0 = Ok sessions /\
    length sessions = 1%nat /\
    (Z.of_nat (length sessions) <= Z.max 1 0)%Z.
Proof.
  destruct (NewSession.list_sessions env0 fs0 0) as [sessions|x] eqn:Hlist;
    vm_compute in Hlist; [|discriminate].
  exists sessions. split; [reflexivity|]. split.
  - injection Hlist as <-. reflexivity.
  - apply (list_sessions_bound env0 fs0 0 sessions).
    vm_compute. exact Hlist.
Defined.

(** X12 on a fresh workspace. *)
Lemma init_session_documents_sample :
  read_bytes (fst init_result0) ["work"; ".agent"; "research"; "session.json"]
  = Ok (Sample.dumps (snd init_result0)) /\
  LogUrl.get_current_session env0 (fst init_result0) = Ok (snd init_result0).
Proof.
  destruct (init_session_documents env0 fs_fresh clock1 environ0
              "AI Agents!" "research" None (fst init_result0) (snd init_result0))
    as (Hl & _ & _ & _ & Hcurrent).
  - vm_compute. reflexivity.
  - split; [exact Hl|]. apply Hcurrent. vm_compute. reflexivity.
Defined.


(** X15 on a scratchpad that holds an opening brace only. *)
Lemma scratchpad_unreadable_sample :
  ArchiveSession.parse_scratchpad env0 fs_bad_scratchpad session0
  = Ok (JDict []) /\
  LogUrl.log_to_scratchpad env0 fs_bad_scratchpad session0 entry0
  = Raise JSONDecodeError.
Proof.
  destruct (scratchpad_unreadable env0 fs_bad_scratchpad session0
              ["work"; ".agent"; "research"; "scratchpad.json"])
    as [_ Hlog].
  - vm_compute. reflexivity.
  - right. exists "{". split; vm_compute; reflexivity.
  - split; [vm_compute; reflexivity|]. apply Hlog. vm_compute. reflexivity.
Defined.

(** X16 on two visited records without a URL. *)
Lemma extract_learnings_without_url_sample :
  exists learnings,
    ArchiveSession.extract_learnings session0 (JDict scratchpad_no_url)
    = Ok learnings /\
    map ArchiveSession.name learnings = [JStr "talk"; JStr "chat"] /\
    map ArchiveSession.url learnings = [JStr EmptyString; JStr EmptyString].
Proof.
  destruct (extract_learnings_without_url session0 scratchpad_no_url
              [] [] []
              [ JDict [ ("name", JStr "talk"); ("relevance", JInt 3) ];
                JDict [ ("name", JStr "chat"); ("relevance", JInt 3) ] ])
    as [Hextract _].
  - vm_compute. reflexivity.
  - vm_compute. reflexivity.
  - vm_compute. reflexivity.
  - vm_compute. reflexivity.
  - repeat constructor.
  - vm_compute. reflexivity.
  - eexists. split; [exact Hextract|]. split; vm_compute; reflexivity.
Defined.

(** X18 on the sample store, which has no index yet. *)
Lemma update_session_index_appends_sample :
  read_bytes indexed0 ["home"; ".agent-core"; "sessions"; "index.md"]
  = Ok (ArchiveSession.index_header
        +:+ "| 2026-01-01 | agents-20260101-120000-ab... | agents | research | 30m | 1/3 | toolX |"
        +:+ str1 newline).
Proof.
  destruct (update_session_index_appends env0 fs0 indexed0 session0 (JInt 30)
              stats0 (JStr "toolX") now0)
    as (row & Hrow & Hread).
  - vm_compute. reflexivity.
  - vm_compute in Hrow. injection Hrow as <-.
    etrans; [exact Hread|]. vm_compute. reflexivity.
Defined.


End FurtherSamples.

